(** * The conversation engine of telegram-survey-bot, embedded in Rocq

    A shallow embedding of the Go packages [config], [botport], [state],
    [questions] and [fsm]: the survey schema and its validation, the
    question strategies, the two state machines, the dispatchers of
    messages and of callbacks and the forward pipeline; and of the
    transport below the port: the fake adapter of the tests, the Telegram
    adapter and the client of the Telegram API.  Every Go package is a
    module; Go name spaces are kept.  Properties of the engine and of the
    adapters are stated and proved after the definitions. *)

From Stdlib Require Import ZArith String Ascii List Lia OrderedTypeEx.
From stdpp Require Import base option gmap strings list sorting pretty.

Local Open Scope Z_scope.
Local Open Scope string_scope.
Local Open Scope list_scope.

(** ** The Go runtime and standard library, as far as the engine uses them *)
Module golang.

(** [int] and [int64] are 64-bit two's complement integers (the binary is
    built for amd64); arithmetic wraps around. *)
Definition int_min : Z := - 2 ^ 63.
Definition int_max : Z := 2 ^ 63 - 1.
Definition int_wrap (z : Z) : Z := (z + 2 ^ 63) mod 2 ^ 64 - 2 ^ 63.
Definition int_add (a b : Z) : Z := int_wrap (a + b).
Definition int_sub (a b : Z) : Z := int_wrap (a - b).
Definition int_mul (a b : Z) : Z := int_wrap (a * b).
(** Go's [/] truncates towards zero. *)
Definition int_div (a b : Z) : Z := int_wrap (Z.quot a b).

(** [make([]T, 0, cap)] panics with [makeslice: cap out of range] when
    [cap] is negative, and when [cap] elements of [size] bytes each are more
    than [maxAlloc] bytes, the largest allocation of the runtime: 2^48 bytes
    on amd64. *)
Definition maxAlloc : Z := 2 ^ 48.
Definition cap_out_of_range (size cap : Z) : Prop := cap < 0 ∨ maxAlloc < size * cap.
#[global] Instance cap_out_of_range_dec size cap : Decision (cap_out_of_range size cap).
Proof. unfold cap_out_of_range. apply _. Defined.

(** [len] of a slice or string, as an [int]. *)
Definition len {A} (l : list A) : Z := Z.of_nat (List.length l).
Definition strlen (s : string) : Z := Z.of_nat (String.length s).

(** [fmt.Sprintf("%d", z)]. *)
Definition itoa (z : Z) : string := pretty z.

(** [strings.Contains]. *)
Fixpoint Contains_from (s substr : string) : bool :=
  String.prefix substr s ||
  match s with
  | EmptyString => false
  | String _ s' => Contains_from s' substr
  end.
Definition Contains (s substr : string) : bool := Contains_from s substr.

(** [strings.SplitN(s, ":", 2)]: cut at the first colon, if there is one. *)
Fixpoint cut_colon (s : string) : option (string * string) :=
  match s with
  | EmptyString => None
  | String c s' =>
      if Ascii.eqb c ":"%char then Some (EmptyString, s')
      else match cut_colon s' with
           | Some (a, b) => Some (String c a, b)
           | None => None
           end
  end.
Definition SplitN2 (s : string) : list string :=
  match cut_colon s with
  | Some (a, b) => [a; b]
  | None => [s]
  end.

(** [s[len(s)-n:]] for [0 <= n <= len(s)]. *)
Definition last_bytes (n : Z) (s : string) : string :=
  String.substring (String.length s - Z.to_nat n) (Z.to_nat n) s.

(** [sort.Strings]: ascending byte-wise lexicographic order. *)
Definition string_le (a b : string) : Prop := String.leb a b = true.
#[global] Instance string_le_dec : RelDecision string_le.
Proof. intros a b. unfold string_le. apply _. Defined.
Definition sort_Strings (l : list string) : list string := merge_sort string_le l.

(** [time.Time]: the zero value, or an instant given by its Unix time in
    nanoseconds. *)
Inductive Time := TimeZero | TimeAt (unixNano : Z).
Definition IsZero (t : Time) : bool :=
  match t with TimeZero => true | TimeAt _ => false end.
Definition UnixNano (t : Time) : Z :=
  match t with TimeZero => -6795364578871345152 | TimeAt n => n end.

(** The dynamic types of the [error] values that occur in the engine:
    errors made by [fmt.Errorf], [*botport.BotError] and the errors of the
    state-machine library.  A [BotError] wraps an error of the transport or
    of the context package, of which only the message is kept ([None] is
    the nil error). *)
Inductive FsmErrorKind :=
  | InvalidEventError | UnknownEventError | NoTransitionError.
Inductive error :=
  | Errorf (msg : string)
  | BotError (Op Code : string) (RetryAfter : Z) (Wrapped : option string)
  | FsmError (kind : FsmErrorKind) (event : string).

(** What the compiled program leaves to the standard library and to the
    runtime: Unicode-aware string functions, time formatting in the local
    zone, integer scanning, the wall clock, and the order in which a
    [range] loop visits the keys of a map (which Go leaves unspecified and
    randomises).  [clock n] is the result of the [n]-th call of
    [time.Now()]; [range_order n ks] is the order in which the [n]-th
    [range] loop over a map with keys [ks] visits them. *)
Class GoRuntime := {
  TrimSpace : string → string;
  ToLower : string → string;
  Format : Time → string → string;
  Sscanf_d : string → option Z;
  runes : string → list Z;
  string_of_runes : list Z → string;
  clock : nat → Z;
  range_order : nat → list string → list string;
  range_order_perm : ∀ n ks, range_order n ks ≡ₚ ks;
}.

End golang.
Import golang.

(** ** package config *)
Module config.

Record ButtonOption := { Text : string; Value : string }.

(** The fields [RatingMin], [RatingMax], [NextButtonLabel] and
    [FinishButtonLabel] are read by the text_rating strategy.
    Modelled from the spec: the struct declaration that carries them is
    not among the sources; the schema description gives [rating_min],
    [rating_max] (integers) and the two button labels (strings) as optional
    keys of a question, so an absent key is the zero value. *)
Record QuestionConfig := {
  ID : string;
  Prompt : string;
  Type_ : string;
  StoreKey : string;
  Options : list ButtonOption;
  RatingMin : Z;
  RatingMax : Z;
  NextButtonLabel : string;
  FinishButtonLabel : string;
}.

Record SectionConfig := {
  Title : string;
  Questions : list QuestionConfig;
}.

(** [Sections] is a Go map; [None] is the nil map. *)
Record RecordConfig := {
  Sections : option (gmap string SectionConfig);
  Metadata : gmap string string;
}.

Definition sections (rc : RecordConfig) : gmap string SectionConfig :=
  default ∅ (Sections rc).

(** The keys of a map, in the canonical order that the runtime's
    [range_order] permutes. *)
Definition keys {A} (m : gmap string A) : list string := (map_to_list m).*1.

Definition QuestionValidator := string → QuestionConfig → option error.

(** The checks on the options of a buttons question, [j] counting from 0. *)
Fixpoint check_options (sectionID : string) (question : QuestionConfig)
    (j : Z) (opts : list ButtonOption) : option error :=
  match opts with
  | [] => None
  | option :: rest =>
      if decide (Text option = "") then
        Some (Errorf ("config validation failed: option #" +:+ itoa (int_add j 1)
          +:+ " for question '" +:+ ID question +:+ "' in section '"
          +:+ sectionID +:+ "' has no text"))
      else if decide (Value option = "") then
        Some (Errorf ("config validation failed: option #" +:+ itoa (int_add j 1)
          +:+ " for question '" +:+ ID question +:+ "' in section '"
          +:+ sectionID +:+ "' has no value"))
      else check_options sectionID question (int_add j 1) rest
  end.

(** [questionValidator] is the package variable set by
    [RegisterQuestionValidator]; [None] is the nil function. *)
Definition validateQuestionWithStrategy (questionValidator : option QuestionValidator)
    (sectionID : string) (question : QuestionConfig) : option error :=
  match questionValidator with
  | None =>
      if decide (Type_ question = "text") then None
      else if decide (Type_ question = "buttons") then
        if decide (len (Options question) = 0) then
          Some (Errorf ("config validation failed: question '" +:+ ID question
            +:+ "' in section '" +:+ sectionID
            +:+ "' is type 'buttons' but has no options"))
        else check_options sectionID question 0 (Options question)
      else
        Some (Errorf ("config validation failed: question '" +:+ ID question
          +:+ "' in section '" +:+ sectionID +:+ "' has unknown type '"
          +:+ Type_ question +:+ "'"))
  | Some fn => fn sectionID question
  end.

(** The inner loop of [Validate] over the questions of one section;
    [uniqueStoreKeys] is threaded through.  [inl] is the error returned. *)
Fixpoint validate_questions (questionValidator : option QuestionValidator)
    (sectionID : string) (i : Z) (qs : list QuestionConfig)
    (uniqueStoreKeys : gset string) : error + gset string :=
  match qs with
  | [] => inr uniqueStoreKeys
  | question :: rest =>
      if decide (ID question = "") then
        inl (Errorf ("config validation failed: question #" +:+ itoa (int_add i 1)
          +:+ " in section '" +:+ sectionID +:+ "' has no id"))
      else if decide (Prompt question = "") then
        inl (Errorf ("config validation failed: question '" +:+ ID question
          +:+ "' in section '" +:+ sectionID +:+ "' has no prompt"))
      else if decide (StoreKey question = "") then
        inl (Errorf ("config validation failed: question '" +:+ ID question
          +:+ "' in section '" +:+ sectionID +:+ "' has no store_key"))
      else if decide (StoreKey question ∈ uniqueStoreKeys) then
        inl (Errorf ("config validation failed: duplicate store_key '"
          +:+ StoreKey question +:+ "' found (in question '" +:+ ID question
          +:+ "', section '" +:+ sectionID +:+ "')"))
      else
        match validateQuestionWithStrategy questionValidator sectionID question with
        | Some err => inl err
        | None =>
            validate_questions questionValidator sectionID (int_add i 1) rest
              ({[StoreKey question]} ∪ uniqueStoreKeys)
        end
  end.

(** The outer loop of [Validate]: [it] is the order in which the [range]
    loop visits the section identifiers. *)
Fixpoint validate_sections (questionValidator : option QuestionValidator)
    (secs : gmap string SectionConfig) (it : list string)
    (uniqueStoreKeys : gset string) : option error :=
  match it with
  | [] => None
  | sectionID :: rest =>
      match secs !! sectionID with
      | None => validate_sections questionValidator secs rest uniqueStoreKeys
      | Some section =>
          if decide (Title section = "") then
            Some (Errorf ("config validation failed: section '" +:+ sectionID
              +:+ "' has no title"))
          else if decide (len (Questions section) = 0) then
            validate_sections questionValidator secs rest uniqueStoreKeys
          else
            match validate_questions questionValidator sectionID 0
                    (Questions section) uniqueStoreKeys with
            | inl err => Some err
            | inr seen => validate_sections questionValidator secs rest seen
            end
      end
  end.

(** The method [Validate] of [RecordConfig]; the receiver may be nil.  [None] is the nil
    error. *)
Definition Validate (questionValidator : option QuestionValidator)
    (it : list string) (rc : option RecordConfig) : option error :=
  match rc with
  | None => Some (Errorf "config is nil")
  | Some rc =>
      if decide (size (sections rc) = 0%nat) then
        Some (Errorf "config validation failed: no sections defined")
      else validate_sections questionValidator (sections rc) it ∅
  end.

End config.

(** ** Keyboards of the Telegram client library, as the engine builds them *)
Module tgbotapi.

Record InlineKeyboardButton := { Text : string; CallbackData : string }.

(** The size of the Go struct in bytes: besides the text, a string of 16
    bytes, it has six pointers, the callback data among them, and a bool;
    the engine sets the text and the callback data only. *)
Definition sizeof_InlineKeyboardButton : Z := 72.

Definition NewInlineKeyboardButtonData (text data : string) : InlineKeyboardButton :=
  {| Text := text; CallbackData := data |}.

(** An inline keyboard is its rows of buttons. *)
Definition InlineKeyboardMarkup := list (list InlineKeyboardButton).

(** The dynamic values passed as [markup interface{}] to the port: nil, a
    reply keyboard (rows of button labels), the removal of the reply
    keyboard, an inline keyboard by value, and a pointer to one. *)
Inductive Markup :=
  | NoMarkup
  | ReplyKeyboard (rows : list (list string))
  | ReplyKeyboardRemove
  | InlineKeyboard (kb : InlineKeyboardMarkup)
  | InlineKeyboardPtr (kb : InlineKeyboardMarkup).

(** [fmt.Sprintf("%T", markup)]. *)
Definition type_name (m : Markup) : string :=
  match m with
  | NoMarkup => "<nil>"
  | ReplyKeyboard _ => "tgbotapi.ReplyKeyboardMarkup"
  | ReplyKeyboardRemove => "tgbotapi.ReplyKeyboardRemove"
  | InlineKeyboard _ => "tgbotapi.InlineKeyboardMarkup"
  | InlineKeyboardPtr _ => "*tgbotapi.InlineKeyboardMarkup"
  end.

End tgbotapi.

(** ** package botport *)
Module botport.

Record BotMessage := {
  ChatID : Z;
  MessageID : Z;
  Transport : string;
  Payload : string;
  Meta : option (gmap string string);
}.

(** The zero value [BotMessage{}]. *)
Definition BotMessage_zero : BotMessage :=
  {| ChatID := 0; MessageID := 0; Transport := ""; Payload := ""; Meta := None |}.

Definition with_MessageID (id : Z) (m : BotMessage) : BotMessage :=
  {| ChatID := ChatID m; MessageID := id; Transport := Transport m;
     Payload := Payload m; Meta := Meta m |}.

(** The method [Error] of the error values. *)
Definition Error (e : error) : string :=
  match e with
  | Errorf msg => msg
  | BotError op code _ (Some wrapped) => op +:+ ": " +:+ code +:+ ": " +:+ wrapped
  | BotError op code _ None => op +:+ ": " +:+ code
  | FsmError _ msg => msg
  end.

(** [IsCode]: whether [err] is a [BotError] with the given code. *)
Definition IsCode (err : option error) (code : string) : bool :=
  match err with
  | Some (BotError _ c _ _) => bool_decide (c = code)
  | _ => false
  end.

(** One operation of the interface [BotPort], with its arguments. *)
Inductive Call :=
  | SendMessage (chatID : Z) (text : string) (markup : tgbotapi.Markup)
  | EditMessage (chatID : Z) (messageID : Z) (text : string) (markup : tgbotapi.Markup)
  | AnswerCallback (callbackID : string) (text : string)
  | DeleteMessage (chatID : Z) (messageID : Z).

(** An implementation of [BotPort] (the Telegram adapter, the fake adapter
    of the tests): what it returns for an operation, given the operations
    performed on it before.  The error is [None] for nil; the message is
    meaningful for [SendMessage] and [EditMessage] only. *)
Definition BotPort := list Call → Call → BotMessage * option error.

End botport.

(** ** package fsm: the names declared in const.go *)
Module names.

Inductive MainState := StateIdle | StateViewingList.
Inductive RecordState :=
  | StateRecordIdle | StateSelectingSection | StateAnsweringQuestion.

Inductive MainEvent :=
  | EventStartAddRecord | EventViewLast | EventViewList
  | EventListNext | EventListBack | EventBackToIdle.
Inductive RecordEvent :=
  | EventStartRecord | EventSelectSection | EventAnswerQuestion
  | EventSectionComplete | EventCancelSection | EventSaveFullRecord
  | EventExitToMainMenu | EventForceExit.

#[global] Instance MainState_eq_dec : EqDecision MainState.
Proof. solve_decision. Defined.
#[global] Instance RecordState_eq_dec : EqDecision RecordState.
Proof. solve_decision. Defined.
#[global] Instance RecordEvent_eq_dec : EqDecision RecordEvent.
Proof. solve_decision. Defined.

Definition RecordEvent_name (e : RecordEvent) : string :=
  match e with
  | EventStartRecord => "start_record"
  | EventSelectSection => "select_section"
  | EventAnswerQuestion => "answer_question"
  | EventSectionComplete => "section_complete"
  | EventCancelSection => "cancel_section"
  | EventSaveFullRecord => "save_full_record"
  | EventExitToMainMenu => "exit_to_main_menu"
  | EventForceExit => "force_exit"
  end.

Definition CallbackActionPrefix := "action:".
Definition CallbackSectionPrefix := "section:".
Definition CallbackAnswerPrefix := "answer:".
Definition CallbackListNavPrefix := "list_nav:".

Definition ActionSaveRecord := "save_record".
Definition ActionNewRecord := "new_record".
Definition ActionExitMenu := "exit_menu".
Definition ActionCancelSection := "cancel_section".
Definition ActionShareLast := "share_last".

(** Modelled from the spec: the declaration of [ButtonMainMenuShowRecord],
    which the main menu uses, is not among the sources; the spec lists the
    label (Show record) next to the three labels below, and docs/fsm.md
    gives its text. *)
Definition ButtonMainMenuShowRecord := "Показать запись".
Definition ButtonMainMenuFillRecord := "Заполнить запись".
Definition ButtonMainMenuSendSelf := "Отправить Себе".
Definition ButtonMainMenuSendTherapist := "Отправить Терапевту".

End names.
Export names.

(** ** package state *)
Module state.

(** A [*Record] is a location of the heap of records. *)
Definition loc := positive.

(** The struct [Record].  [Data] is a Go map; [None] is the nil map. *)
Record Record_ := {
  ID : string;
  Data : option (gmap string string);
  IsSaved : bool;
  CreatedAt : Time;
}.

(** The zero value [Record{}]. *)
Definition Record_zero : Record_ :=
  {| ID := ""; Data := None; IsSaved := false; CreatedAt := TimeZero |}.
#[global] Instance Record_inhabited : Inhabited Record_ := populate Record_zero.

(** The value that [NewRecord] allocates. *)
Definition NewRecord_value : Record_ :=
  {| ID := ""; Data := Some ∅; IsSaved := false; CreatedAt := TimeZero |}.

(** Reading a map, nil or not: the zero value for an absent key. *)
Definition data_get (d : option (gmap string string)) (k : string) : string :=
  default "" (default ∅ d !! k).
(** The two-valued read [v, ok := m[k]]. *)
Definition data_lookup (d : option (gmap string string)) (k : string) : option string :=
  default ∅ d !! k.

(** The struct [UserState].  A state machine of the library is its current
    state; a [*Record] is [None] when nil.  The mutex is left out: a
    dispatch holds it from its start to its end. *)
Record UserState := {
  UserID : Z;
  UserName : string;
  Records : list (option loc);
  MainMenuFSM : MainState;
  RecordFSM : RecordState;
  CurrentRecord : option loc;
  CurrentSection : string;
  CurrentQuestion : Z;
  LastMessageID : Z;
  LastPrompt : botport.BotMessage;
  ListOffset : Z;
}.

Definition set_Records v (u : UserState) : UserState :=
  {| UserID := UserID u; UserName := UserName u; Records := v;
     MainMenuFSM := MainMenuFSM u; RecordFSM := RecordFSM u;
     CurrentRecord := CurrentRecord u; CurrentSection := CurrentSection u;
     CurrentQuestion := CurrentQuestion u; LastMessageID := LastMessageID u;
     LastPrompt := LastPrompt u; ListOffset := ListOffset u |}.
Definition set_MainMenuFSM v (u : UserState) : UserState :=
  {| UserID := UserID u; UserName := UserName u; Records := Records u;
     MainMenuFSM := v; RecordFSM := RecordFSM u;
     CurrentRecord := CurrentRecord u; CurrentSection := CurrentSection u;
     CurrentQuestion := CurrentQuestion u; LastMessageID := LastMessageID u;
     LastPrompt := LastPrompt u; ListOffset := ListOffset u |}.
Definition set_RecordFSM v (u : UserState) : UserState :=
  {| UserID := UserID u; UserName := UserName u; Records := Records u;
     MainMenuFSM := MainMenuFSM u; RecordFSM := v;
     CurrentRecord := CurrentRecord u; CurrentSection := CurrentSection u;
     CurrentQuestion := CurrentQuestion u; LastMessageID := LastMessageID u;
     LastPrompt := LastPrompt u; ListOffset := ListOffset u |}.
Definition set_CurrentRecord v (u : UserState) : UserState :=
  {| UserID := UserID u; UserName := UserName u; Records := Records u;
     MainMenuFSM := MainMenuFSM u; RecordFSM := RecordFSM u;
     CurrentRecord := v; CurrentSection := CurrentSection u;
     CurrentQuestion := CurrentQuestion u; LastMessageID := LastMessageID u;
     LastPrompt := LastPrompt u; ListOffset := ListOffset u |}.
Definition set_CurrentSection v (u : UserState) : UserState :=
  {| UserID := UserID u; UserName := UserName u; Records := Records u;
     MainMenuFSM := MainMenuFSM u; RecordFSM := RecordFSM u;
     CurrentRecord := CurrentRecord u; CurrentSection := v;
     CurrentQuestion := CurrentQuestion u; LastMessageID := LastMessageID u;
     LastPrompt := LastPrompt u; ListOffset := ListOffset u |}.
Definition set_CurrentQuestion v (u : UserState) : UserState :=
  {| UserID := UserID u; UserName := UserName u; Records := Records u;
     MainMenuFSM := MainMenuFSM u; RecordFSM := RecordFSM u;
     CurrentRecord := CurrentRecord u; CurrentSection := CurrentSection u;
     CurrentQuestion := v; LastMessageID := LastMessageID u;
     LastPrompt := LastPrompt u; ListOffset := ListOffset u |}.
Definition set_LastMessageID v (u : UserState) : UserState :=
  {| UserID := UserID u; UserName := UserName u; Records := Records u;
     MainMenuFSM := MainMenuFSM u; RecordFSM := RecordFSM u;
     CurrentRecord := CurrentRecord u; CurrentSection := CurrentSection u;
     CurrentQuestion := CurrentQuestion u; LastMessageID := v;
     LastPrompt := LastPrompt u; ListOffset := ListOffset u |}.
Definition set_LastPrompt v (u : UserState) : UserState :=
  {| UserID := UserID u; UserName := UserName u; Records := Records u;
     MainMenuFSM := MainMenuFSM u; RecordFSM := RecordFSM u;
     CurrentRecord := CurrentRecord u; CurrentSection := CurrentSection u;
     CurrentQuestion := CurrentQuestion u; LastMessageID := LastMessageID u;
     LastPrompt := v; ListOffset := ListOffset u |}.
Definition set_ListOffset v (u : UserState) : UserState :=
  {| UserID := UserID u; UserName := UserName u; Records := Records u;
     MainMenuFSM := MainMenuFSM u; RecordFSM := RecordFSM u;
     CurrentRecord := CurrentRecord u; CurrentSection := CurrentSection u;
     CurrentQuestion := CurrentQuestion u; LastMessageID := LastMessageID u;
     LastPrompt := LastPrompt u; ListOffset := v |}.

End state.

(** ** The world a dispatch runs in, and the monad of the handlers *)
Module world.
Import state.

(** The heap of records, the state of the user whose mutex the dispatch
    holds, the operations performed on the port so far (oldest first), and
    how many times the clock was read and a map was ranged over. *)
Record World := {
  heap : gmap loc Record_;
  user : UserState;
  calls : list botport.Call;
  ticks : nat;
  ranges : nat;
}.

Definition set_heap v (w : World) : World :=
  {| heap := v; user := user w; calls := calls w; ticks := ticks w; ranges := ranges w |}.
Definition set_user v (w : World) : World :=
  {| heap := heap w; user := v; calls := calls w; ticks := ticks w; ranges := ranges w |}.
Definition set_calls v (w : World) : World :=
  {| heap := heap w; user := user w; calls := v; ticks := ticks w; ranges := ranges w |}.
Definition set_ticks v (w : World) : World :=
  {| heap := heap w; user := user w; calls := calls w; ticks := v; ranges := ranges w |}.
Definition set_ranges v (w : World) : World :=
  {| heap := heap w; user := user w; calls := calls w; ticks := ticks w; ranges := v |}.

(** A handler either returns, with a result and a new world, or panics
    (a nil pointer is dereferenced, an index is out of range, a nil map is
    written); nothing recovers from a panic. *)
Inductive Outcome (A : Type) :=
  | Ok (a : A) (w : World)
  | Panic (msg : string).
Arguments Ok {A} a w.
Arguments Panic {A} msg.

Definition M (A : Type) : Type := World → Outcome A.

Definition ret {A} (a : A) : M A := λ w, Ok a w.
Definition bind {A B} (m : M A) (k : A → M B) : M B :=
  λ w, match m w with
       | Ok a w' => k a w'
       | Panic msg => Panic msg
       end.
Definition panic {A} (msg : string) : M A := λ _, Panic msg.

Notation "'do' x <- m ; k" := (bind m (λ x, k))
  (at level 10, x name, m at level 100, k at level 200).
Notation "m ;; k" := (bind m (λ _, k))
  (at level 100, k at level 200, right associativity).

(** Reading and writing the fields of [*userState]. *)
Definition get_user : M UserState := λ w, Ok (user w) w.
Definition modify_user (f : UserState → UserState) : M unit :=
  λ w, Ok tt (set_user (f (user w)) w).

(** Reading and writing [*p] for a non-nil [p : *Record].  Every pointer
    that the program holds is allocated: the read of another location is
    never run, and gives the zero value here. *)
Definition load (p : loc) : M Record_ := λ w, Ok (heap w !!! p) w.
Definition store (p : loc) (r : Record_) : M unit :=
  λ w, Ok tt (set_heap (<[p := r]> (heap w)) w).
(** [state.NewRecord()]. *)
Definition NewRecord : M loc :=
  λ w, let p := fresh (dom (heap w)) in
       Ok p (set_heap (<[p := NewRecord_value]> (heap w)) w).

(** One operation on the port. *)
Definition port_call (botPort : botport.BotPort) (c : botport.Call)
    : M (botport.BotMessage * option error) :=
  λ w, Ok (botPort (calls w) c) (set_calls (calls w ++ [c]) w).

Section runtime.
Context `{GoRuntime}.

(** [time.Now()]. *)
Definition Now : M Time :=
  λ w, Ok (TimeAt (clock (ticks w))) (set_ticks (S (ticks w)) w).

(** The order in which a [range] loop visits the keys of the map [m]. *)
Definition range_keys {A} (m : gmap string A) : M (list string) :=
  λ w, Ok (range_order (ranges w) (config.keys m)) (set_ranges (S (ranges w)) w).

End runtime.

End world.
Export world.

(** ** package questions *)
Module questions.
Import state.

(** The line feed. *)
Definition nl : string := String "010"%char EmptyString.

(** [UserState] of the Go struct is the pointer to the user state of the
    world, and is left out; [Rec] is the field [Record] and [Section_] the
    field [Section]. *)
Record RenderContext := {
  Bot : botport.BotPort;
  LastPrompt : botport.BotMessage;
  ChatID : Z;
  MessageID : Z;
  Rec : option loc;
  SectionID : string;
  Section_ : config.SectionConfig;
  Question : config.QuestionConfig;
  CallbackPrefix : string;
}.

Record AnswerContext := {
  Render_ctx : RenderContext;
  Message : botport.BotMessage;
  CallbackID : string;
}.

(** [Keyboard] is a pointer; [None] is nil. *)
Record PromptSpec := {
  Text : string;
  Keyboard : option tgbotapi.InlineKeyboardMarkup;
  ForceNew : bool;
}.

Inductive AnswerInputSource := InputSourceText | InputSourceCallback.
#[global] Instance AnswerInputSource_eq_dec : EqDecision AnswerInputSource.
Proof. solve_decision. Defined.

Definition TypeText := "text".
Definition TypeButtons := "buttons".

Record AnswerInput := {
  Source : AnswerInputSource;
  Input_Text : string;
  CallbackData : string;
  Input_MessageID : Z;
}.

Record AnswerResult := {
  Advance : bool;
  Repeat : bool;
  Feedback : string;
}.

(** A function that returns [(T, error)] returns [inl] of the value when the
    error is nil and [inr] of the error otherwise. *)
Definition result (T : Type) : Type := T + error.

(** [ctx.ensureRecord()]. *)
Definition ensureRecord (ctx : RenderContext) : M (result loc) :=
  match Rec ctx with
  | None => ret (inr (Errorf "record is nil"))
  | Some p =>
      do r <- load p;
      (if Data r is None
       then store p {| ID := ID r; Data := Some ∅; IsSaved := IsSaved r;
                       CreatedAt := CreatedAt r |}
       else ret tt);;
      ret (inl p)
  end.

(** [record.Data[k] = v]. *)
Definition data_set (p : loc) (k v : string) : M unit :=
  do r <- load p;
  match Data r with
  | None => panic "assignment to entry in nil map"
  | Some d => store p {| ID := ID r; Data := Some (<[k := v]> d);
                         IsSaved := IsSaved r; CreatedAt := CreatedAt r |}
  end.

(** [delete(record.Data, k)]. *)
Definition data_delete (p : loc) (k : string) : M unit :=
  do r <- load p;
  match Data r with
  | None => ret tt
  | Some d => store p {| ID := ID r; Data := Some (delete k d);
                         IsSaved := IsSaved r; CreatedAt := CreatedAt r |}
  end.

(** The interface [QuestionStrategy]. *)
Record QuestionStrategy := {
  Name : string;
  Validate : string → config.QuestionConfig → option error;
  Render : RenderContext → M (result PromptSpec);
  HandleAnswer : AnswerContext → AnswerInput → M (result AnswerResult);
}.

Section strategies.
Context `{GoRuntime}.

(** *** The text strategy *)
Definition textStrategy : QuestionStrategy := {|
  Name := "text";
  Validate sectionID question :=
    if decide (len (config.Options question) > 0) then
      Some (Errorf ("config validation failed: question '" +:+ config.ID question
        +:+ "' in section '" +:+ sectionID
        +:+ "' is type 'text' but has options defined"))
    else None;
  Render ctx :=
    ret (inl {| Text := config.Prompt (Question ctx); Keyboard := None;
                ForceNew := false |});
  HandleAnswer ctx input :=
    if decide (Source input ≠ InputSourceText) then
      ret (inl {| Feedback := "Пожалуйста, отправьте текстовый ответ.";
                  Repeat := true; Advance := false |})
    else
      let value := TrimSpace (Input_Text input) in
      if decide (value = "") then
        ret (inl {| Feedback := "Текст не должен быть пустым, попробуйте ещё раз.";
                    Repeat := true; Advance := false |})
      else
        do r <- ensureRecord (Render_ctx ctx);
        match r with
        | inr err => ret (inr err)
        | inl record =>
            data_set record (config.StoreKey (Question (Render_ctx ctx))) value;;
            ret (inl {| Advance := true; Repeat := false; Feedback := "" |})
        end
|}.

(** *** The buttons strategy *)
Definition findOption (question : config.QuestionConfig) (value : string)
    : option config.ButtonOption :=
  List.find (λ opt, bool_decide (config.Value opt = value)) (config.Options question).

Definition buttonsStrategy : QuestionStrategy := {|
  Name := "buttons";
  Validate sectionID question :=
    if decide (len (config.Options question) = 0) then
      Some (Errorf ("config validation failed: question '" +:+ config.ID question
        +:+ "' in section '" +:+ sectionID
        +:+ "' is type 'buttons' but has no options"))
    else config.check_options sectionID question 0 (config.Options question);
  Render ctx :=
    ret (inl {|
      Text := config.Prompt (Question ctx);
      Keyboard := Some (List.map (λ option,
        [tgbotapi.NewInlineKeyboardButtonData (config.Text option)
           (CallbackPrefix ctx +:+ config.ID (Question ctx) +:+ ":"
              +:+ config.Value option)])
        (config.Options (Question ctx)));
      ForceNew := false |});
  HandleAnswer ctx input :=
    if decide (Source input ≠ InputSourceCallback) then
      ret (inl {| Feedback := "Пожалуйста, выберите ответ с помощью кнопок ниже.";
                  Repeat := true; Advance := false |})
    else
      match findOption (Question (Render_ctx ctx)) (CallbackData input) with
      | None =>
          ret (inl {| Feedback := "Выбранный вариант больше недоступен. Попробуйте снова.";
                      Repeat := true; Advance := false |})
      | Some option =>
          do r <- ensureRecord (Render_ctx ctx);
          match r with
          | inr err => ret (inr err)
          | inl record =>
              data_set record (config.StoreKey (Question (Render_ctx ctx)))
                (config.Value option);;
              ret (inl {| Advance := true; Repeat := false; Feedback := "" |})
          end
      end
|}.

End strategies.

(** *** The text_rating strategy *)
Module TextRatingStrategy.
Section methods.
Context `{GoRuntime}.

Definition stepCollectText := "text".
Definition stepCollectRating := "rating".
Definition stepNextOrFinish := "next_finish".

Definition Validate (sectionID : string) (question : config.QuestionConfig)
    : option error :=
  if decide (len (config.Options question) > 0) then
    Some (Errorf "text_rating question should not have options")
  else
    let minRating := config.RatingMin question in
    let maxRating := config.RatingMax question in
    if decide (minRating ≠ 0 ∧ minRating < 1) then
      Some (Errorf ("rating_min must be at least 1, got " +:+ itoa minRating))
    else if decide (maxRating ≠ 0 ∧ maxRating > 20) then
      Some (Errorf ("rating_max cannot exceed 20, got " +:+ itoa maxRating))
    else if decide (minRating ≠ 0 ∧ maxRating ≠ 0 ∧ minRating > maxRating) then
      Some (Errorf ("rating_min (" +:+ itoa minRating
        +:+ ") cannot be greater than rating_max (" +:+ itoa maxRating +:+ ")"))
    else None.

Definition getRatingRange (question : config.QuestionConfig) : Z * Z :=
  let minRating := config.RatingMin question in
  let minRating := if decide (minRating = 0) then 1 else minRating in
  let maxRating := config.RatingMax question in
  let maxRating := if decide (maxRating = 0) then 10 else maxRating in
  (minRating, maxRating).

Definition getNextButtonLabel (question : config.QuestionConfig) : string :=
  if decide (config.NextButtonLabel question ≠ "")
  then config.NextButtonLabel question else "➡️ Следующий".

Definition getFinishButtonLabel (question : config.QuestionConfig) : string :=
  if decide (config.FinishButtonLabel question ≠ "")
  then config.FinishButtonLabel question else "✅ Завершить".

Definition getStepKey (questionID : string) : string := "_step_" +:+ questionID.
Definition getTempTextKey (questionID : string) : string := "_text_" +:+ questionID.
Definition getTempRatingKey (questionID : string) : string := "_rating_" +:+ questionID.

Definition formatEntry (text rating : string) : string :=
  "- " +:+ text +:+ nl +:+ "  Рейтинг: " +:+ rating.

(** [buttons[i:end]] for [i = 0, 5, 10, ...]: rows of five. *)
Fixpoint rows_of_5 {A} (fuel : nat) (buttons : list A) : list (list A) :=
  match fuel, buttons with
  | O, _ | _, [] => []
  | S fuel, _ => take 5 buttons :: rows_of_5 fuel (drop 5 buttons)
  end.

(** [make] panics when the capacity [maxRating-minRating+1] is negative or
    too large for a slice of buttons.  The loop runs [i] from [minRating] to
    [maxRating]; a range that ends at the largest [int], on which the loop
    does not end, is left out, and so is the memory of the machine, which a
    capacity that [make] accepts may still exceed. *)
Definition renderRatingButtons (ctx : RenderContext) : M (result PromptSpec) :=
  let '(minRating, maxRating) := getRatingRange (Question ctx) in
  let text := "Оцените от " +:+ itoa minRating +:+ " до " +:+ itoa maxRating +:+ ":" in
  if decide (cap_out_of_range tgbotapi.sizeof_InlineKeyboardButton
               (int_add (int_sub maxRating minRating) 1)) then
    panic "makeslice: cap out of range"
  else
    let buttons := List.map (λ i,
      tgbotapi.NewInlineKeyboardButtonData (itoa i)
        (CallbackPrefix ctx +:+ config.ID (Question ctx) +:+ ":" +:+ itoa i))
      (seqZ minRating (maxRating - minRating + 1)) in
    ret (inl {| Text := text;
                Keyboard := Some (rows_of_5 (List.length buttons) buttons);
                ForceNew := false |}).

Definition renderNextFinishButtons (ctx : RenderContext) : M (result PromptSpec) :=
  let nextLabel := getNextButtonLabel (Question ctx) in
  let finishLabel := getFinishButtonLabel (Question ctx) in
  let nextCallback := CallbackPrefix ctx +:+ config.ID (Question ctx) +:+ ":next" in
  let finishCallback := CallbackPrefix ctx +:+ config.ID (Question ctx) +:+ ":finish" in
  ret (inl {| Text := "Выберите действие:";
              Keyboard := Some [[tgbotapi.NewInlineKeyboardButtonData nextLabel nextCallback;
                                 tgbotapi.NewInlineKeyboardButtonData finishLabel finishCallback]];
              ForceNew := false |}).

(** The current step of the question, text collection by default. *)
Definition currentStep (record : Record_) (stepKey : string) : string :=
  let step := data_get (Data record) stepKey in
  if decide (step = "") then stepCollectText else step.

Definition Render (ctx : RenderContext) : M (result PromptSpec) :=
  do r <- ensureRecord ctx;
  match r with
  | inr err => ret (inr err)
  | inl p =>
      do record <- load p;
      let step := currentStep record (getStepKey (config.ID (Question ctx))) in
      if decide (step = stepCollectText) then
        ret (inl {| Text := config.Prompt (Question ctx); Keyboard := None;
                    ForceNew := false |})
      else if decide (step = stepCollectRating) then renderRatingButtons ctx
      else if decide (step = stepNextOrFinish) then renderNextFinishButtons ctx
      else ret (inr (Errorf ("unknown step: " +:+ step)))
  end.

Definition isValidRating (question : config.QuestionConfig) (rating : string) : bool :=
  let '(minRating, maxRating) := getRatingRange question in
  match Sscanf_d rating with
  | None => false
  | Some ratingInt => bool_decide (ratingInt >= minRating) && bool_decide (ratingInt <= maxRating)
  end.

Definition handleTextInput (ctx : AnswerContext) (input : AnswerInput)
    (record : loc) (stepKey : string) : M (result AnswerResult) :=
  if decide (Source input ≠ InputSourceText) then
    ret (inl {| Repeat := true; Feedback := "Пожалуйста, отправьте текстовый ответ.";
                Advance := false |})
  else
    let text := TrimSpace (Input_Text input) in
    if decide (text = "") then
      ret (inl {| Repeat := true; Feedback := "Пожалуйста, отправьте текстовый ответ.";
                  Advance := false |})
    else
      let textKey := getTempTextKey (config.ID (Question (Render_ctx ctx))) in
      data_set record textKey text;;
      data_set record stepKey stepCollectRating;;
      ret (inl {| Repeat := true; Advance := false; Feedback := "" |}).

Definition handleRatingInput (ctx : AnswerContext) (input : AnswerInput)
    (record : loc) (stepKey : string) : M (result AnswerResult) :=
  if decide (Source input ≠ InputSourceCallback) then
    ret (inl {| Repeat := true;
                Feedback := "Пожалуйста, используйте кнопки для выбора оценки.";
                Advance := false |})
  else
    let rating := CallbackData input in
    if negb (isValidRating (Question (Render_ctx ctx)) rating) then
      let '(minRating, maxRating) := getRatingRange (Question (Render_ctx ctx)) in
      ret (inl {| Repeat := true;
                  Feedback := "Пожалуйста, выберите оценку от " +:+ itoa minRating
                    +:+ " до " +:+ itoa maxRating +:+ ".";
                  Advance := false |})
    else
      let ratingKey := getTempRatingKey (config.ID (Question (Render_ctx ctx))) in
      data_set record ratingKey rating;;
      data_set record stepKey stepNextOrFinish;;
      ret (inl {| Repeat := true; Advance := false; Feedback := "" |}).

Definition handleNextFinishInput (ctx : AnswerContext) (input : AnswerInput)
    (record : loc) (stepKey : string) : M (result AnswerResult) :=
  if decide (Source input ≠ InputSourceCallback) then
    ret (inl {| Repeat := true;
                Feedback := "Пожалуйста, используйте кнопки для выбора действия.";
                Advance := false |})
  else
    let action := CallbackData input in
    if decide (action ≠ "next" ∧ action ≠ "finish") then
      ret (inl {| Repeat := true;
                  Feedback := "Пожалуйста, выберите 'Следующий' или 'Завершить'.";
                  Advance := false |})
    else
      let question := Question (Render_ctx ctx) in
      let textKey := getTempTextKey (config.ID question) in
      let ratingKey := getTempRatingKey (config.ID question) in
      do r <- load record;
      let text := data_get (Data r) textKey in
      let rating := data_get (Data r) ratingKey in
      if decide (text = "" ∨ rating = "") then
        ret (inl {| Repeat := true;
                    Feedback := "Не удалось прочитать последний ответ, попробуйте снова.";
                    Advance := false |})
      else
        let entry := formatEntry text rating in
        let existing := data_get (Data r) (config.StoreKey question) in
        (if decide (existing ≠ "")
         then data_set record (config.StoreKey question) (existing +:+ nl +:+ entry)
         else data_set record (config.StoreKey question) entry);;
        data_delete record stepKey;;
        data_delete record textKey;;
        data_delete record ratingKey;;
        if decide (action = "next") then
          data_set record stepKey stepCollectText;;
          ret (inl {| Repeat := true; Advance := false; Feedback := "" |})
        else
          ret (inl {| Advance := true; Repeat := false; Feedback := "" |}).

Definition HandleAnswer (ctx : AnswerContext) (input : AnswerInput)
    : M (result AnswerResult) :=
  do r <- ensureRecord (Render_ctx ctx);
  match r with
  | inr err => ret (inr err)
  | inl p =>
      do record <- load p;
      let stepKey := getStepKey (config.ID (Question (Render_ctx ctx))) in
      let step := currentStep record stepKey in
      if decide (step = stepCollectText) then handleTextInput ctx input p stepKey
      else if decide (step = stepCollectRating) then handleRatingInput ctx input p stepKey
      else if decide (step = stepNextOrFinish) then handleNextFinishInput ctx input p stepKey
      else ret (inr (Errorf ("unknown step: " +:+ step)))
  end.

End methods.
End TextRatingStrategy.

Section registry.
Context `{GoRuntime}.

Definition NewTextRatingStrategy : QuestionStrategy := {|
  Name := "text_rating";
  Validate := TextRatingStrategy.Validate;
  Render := TextRatingStrategy.Render;
  HandleAnswer := TextRatingStrategy.HandleAnswer;
|}.

(** *** The registry *)
Definition normalize (name : string) : string := TrimSpace (ToLower name).

(** [Get]: [None] is the nil strategy. *)
Definition Get (registry : gmap string QuestionStrategy) (name : string)
    : option QuestionStrategy :=
  registry !! normalize name.

(** [MustRegister]; [None] is the panic on a duplicate. *)
Definition MustRegister (strategy : QuestionStrategy)
    (registry : gmap string QuestionStrategy) : option (gmap string QuestionStrategy) :=
  let key := normalize (Name strategy) in
  match registry !! key with
  | Some _ => None
  | None => Some (<[key := strategy]> registry)
  end.

(** The validator that [registerValidator] hands to package config. *)
Definition registryValidator (registry : gmap string QuestionStrategy)
    : config.QuestionValidator :=
  λ sectionID question,
    match Get registry (config.Type_ question) with
    | None =>
        Some (Errorf ("config validation failed: question '" +:+ config.ID question
          +:+ "' in section '" +:+ sectionID +:+ "' has unknown type '"
          +:+ config.Type_ question +:+ "'"))
    | Some strat => Validate strat sectionID question
    end.

End registry.

End questions.

(** ** package fsm *)
Module fsm.
Import state.

Definition nl : string := questions.nl.

(** *** The state-machine library

    A machine is its table of events and its current state.  [Event] looks
    the event up for the current state; without an entry it is an error;
    when the destination is the current state, nothing is entered and the
    error is [NoTransitionError]; otherwise the current state is set to the
    destination and then the callback of entering it runs.  A callback may
    fire an event of its own. *)
Definition transition {E S} `{EqDecision E, EqDecision S}
    (events : list (E * list S * S)) (event : E) (current : S) : option S :=
  snd <$> List.find
    (λ d, bool_decide (d.1.1 = event) && bool_decide (current ∈ d.1.2)) events.

Definition known_event {E S} `{EqDecision E}
    (events : list (E * list S * S)) (event : E) : bool :=
  existsb (λ d, bool_decide (d.1.1 = event)) events.

(** The events of [NewMainMenuFSM]. *)
Definition MainMenuFSM_events : list (MainEvent * list MainState * MainState) :=
  [ (EventViewList, [StateIdle], StateViewingList);
    (EventListNext, [StateViewingList], StateViewingList);
    (EventListBack, [StateViewingList], StateViewingList);
    (EventBackToIdle, [StateViewingList], StateIdle) ].

(** The events of [NewRecordFSM]. *)
Definition RecordFSM_events : list (RecordEvent * list RecordState * RecordState) :=
  [ (EventStartRecord, [StateRecordIdle], StateSelectingSection);
    (EventSelectSection, [StateSelectingSection], StateAnsweringQuestion);
    (EventAnswerQuestion, [StateAnsweringQuestion], StateAnsweringQuestion);
    (EventSectionComplete, [StateAnsweringQuestion], StateSelectingSection);
    (EventCancelSection, [StateAnsweringQuestion], StateSelectingSection);
    (EventSaveFullRecord, [StateSelectingSection], StateRecordIdle);
    (EventExitToMainMenu, [StateSelectingSection], StateRecordIdle);
    (EventForceExit, [StateSelectingSection; StateAnsweringQuestion], StateRecordIdle) ].

#[global] Instance MainEvent_eq_dec : EqDecision MainEvent.
Proof. solve_decision. Defined.

Definition fsm_error {E S} `{EqDecision E}
    (events : list (E * list S * S)) (event : E) : error :=
  if known_event events event
  then FsmError InvalidEventError "event inappropriate in current state"
  else FsmError UnknownEventError "event does not exist".

(** [userState.MainMenuFSM.Event]: the main menu has no callbacks. *)
Definition MainMenuFSM_Event (event : MainEvent) : M (option error) :=
  do u <- get_user;
  let current := MainMenuFSM u in
  match transition MainMenuFSM_events event current with
  | None => ret (Some (fsm_error MainMenuFSM_events event))
  | Some dst =>
      if decide (current = dst) then
        ret (Some (FsmError NoTransitionError "no transition"))
      else
        modify_user (set_MainMenuFSM dst);;
        ret None
  end.

(** The arguments that every call site passes to an event of the record
    machine: the user state (the one of the world), the port, the schema,
    the chat, and, where given, the message to edit and the reason of a
    forced exit (0 and the empty string where not given).  The callbacks
    check the number and the dynamic types of the arguments first; these
    checks succeed at every call site and are left out. *)
Record Args := {
  botPort : botport.BotPort;
  recordConfig : config.RecordConfig;
  chatID : Z;
  messageID : Z;
  failureReason : string;
}.

Definition mkArgs port rc chat msg : Args :=
  {| botPort := port; recordConfig := rc; chatID := chat; messageID := msg;
     failureReason := "" |}.
Definition mkArgsReason port rc chat msg reason : Args :=
  {| botPort := port; recordConfig := rc; chatID := chat; messageID := msg;
     failureReason := reason |}.

(** The [*fsm.Event] handed to a callback. *)
Record Event := {
  Event_name : RecordEvent;
  Src : RecordState;
  Dst : RecordState;
  Args_ : Args;
}.

(** [userState.RecordFSM.Event], for a given table of enter callbacks. *)
Definition fire (callbacks : RecordState → Event → M unit)
    (event : RecordEvent) (args : Args) : M (option error) :=
  do u <- get_user;
  let current := RecordFSM u in
  match transition RecordFSM_events event current with
  | None => ret (Some (fsm_error RecordFSM_events event))
  | Some dst =>
      if decide (current = dst) then
        ret (Some (FsmError NoTransitionError "no transition"))
      else
        modify_user (set_RecordFSM dst);;
        callbacks dst {| Event_name := event; Src := current; Dst := dst; Args_ := args |};;
        ret None
  end.

Definition isNoTransitionError (err : option error) : bool :=
  match err with
  | Some (FsmError NoTransitionError _) => true
  | _ => false
  end.

(** *** The forward pipeline (forward.go) *)
Definition noAnswerPlaceholder := "no_answer".

Record forwardQuestion := { Prompt : string; Answer : string }.
Record forwardSection := { Title : string; Questions : list forwardQuestion }.
Record forwardPayload := {
  UserID : Z;
  UserName : string;
  CreatedAt : string;
  Sections : list forwardSection;
}.

(** The template that the package variable [forwardTpl] is initialised
    with, executed on a payload. *)
Definition forwardTpl_Execute (payload : forwardPayload) : questions.result string :=
  inl ("Ответы пользователя " +:+ UserName payload +:+ " (ID: "
    +:+ itoa (UserID payload) +:+ ")" +:+ nl
    +:+ "Дата записи: " +:+ CreatedAt payload +:+ nl
    +:+ String.concat "" (List.map (λ s,
          "## " +:+ Title s +:+ nl
          +:+ String.concat "" (List.map (λ q,
                "- " +:+ Prompt q +:+ ":" +:+ nl +:+ "  " +:+ Answer q +:+ nl)
              (Questions s))
          +:+ nl)
        (Sections payload))).

(** [selectRecordForForward]: the loop from the last record down, then the
    draft. *)
Fixpoint lastSaved (h : gmap loc Record_) (rs : list (option loc)) : option loc :=
  match rs with
  | [] => None
  | r :: rest =>
      match lastSaved h rest with
      | Some p => Some p
      | None =>
          match r with
          | Some p => if IsSaved (h !!! p) then Some p else None
          | None => None
          end
      end
  end.

Definition selectRecordForForward : M (option loc) :=
  λ w, match lastSaved (heap w) (Records (user w)) with
       | Some p => Ok (Some p) w
       | None => Ok (CurrentRecord (user w)) w
       end.

(** The questions of one section of the payload; [data] is [record.Data]
    (nil when the record is nil). *)
Definition forwardQuestions (data : option (gmap string string))
    (qs : list config.QuestionConfig) : list forwardQuestion :=
  List.map (λ q,
    let answer := data_get data (config.StoreKey q) in
    let answer := if decide (answer = "") then noAnswerPlaceholder else answer in
    {| Prompt := config.Prompt q; Answer := answer |}) qs.

(** The sections of the payload, for the sorted section identifiers. *)
Definition forwardSections (secs : gmap string config.SectionConfig)
    (data : option (gmap string string)) (sectionIDs : list string)
    : list forwardSection :=
  List.map (λ sectionID,
    let sectionConf := default {| config.Title := ""; config.Questions := [] |}
                         (secs !! sectionID) in
    {| Title := config.Title sectionConf;
       Questions := forwardQuestions data (config.Questions sectionConf) |})
    sectionIDs.

Section handlers.
Context `{GoRuntime}.
(** The package variables that the handlers read: the registry of
    strategies, the target of the forward to the reviewer
    ([config.GetTargetUserID()]), and the template of the forwarded
    message, as its [Execute]. *)
Context (registry : gmap string questions.QuestionStrategy).
Context (targetUserID : Z).
Context (forwardTpl : forwardPayload → questions.result string).

Definition buildForwardPayload (recordConfig : config.RecordConfig)
    (record : option loc) : M forwardPayload :=
  do it <- range_keys (config.sections recordConfig);
  let sectionIDs := sort_Strings (fold_left (λ ids id, (ids ++ [id])%list) it []) in
  do u <- get_user;
  match record with
  | None => panic "nil pointer dereference"
  | Some p =>
      do r <- load p;
      let sections := forwardSections (config.sections recordConfig) (state.Data r) sectionIDs in
      do created <- (if IsZero (state.CreatedAt r) then Now else ret (state.CreatedAt r));
      ret {| UserID := state.UserID u; UserName := state.UserName u;
             CreatedAt := Format created "02.01.2006 15:04";
             Sections := sections |}
  end.

Definition renderForwardMessage (payload : forwardPayload) : questions.result string :=
  match forwardTpl payload with
  | inr err => inr err
  | inl text => inl text
  end.

(** The loop of [clearUserAnswers]: drop nil and the forwarded record. *)
Definition clearUserAnswers (forwarded : option loc) : M unit :=
  modify_user (λ u,
    set_Records (List.filter (λ r, negb (bool_decide (r = None) || bool_decide (r = forwarded)))
                   (Records u)) u);;
  do u <- get_user;
  (if decide (CurrentRecord u = forwarded)
   then modify_user (set_CurrentRecord None) else ret tt);;
  modify_user (set_CurrentSection "");;
  modify_user (set_CurrentQuestion 0);;
  modify_user (set_LastMessageID 0);;
  modify_user (set_LastPrompt botport.BotMessage_zero).

Definition send (port : botport.BotPort) (chat : Z) (text : string)
    (markup : tgbotapi.Markup) : M (botport.BotMessage * option error) :=
  port_call port (botport.SendMessage chat text markup).

Definition forwardWithTarget (port : botport.BotPort)
    (recordConfig : config.RecordConfig) (chatID targetUserID : Z)
    (clearOnSuccess requireConfigured : bool) (successText : Z → string) : M unit :=
  do record <- selectRecordForForward;
  match record with
  | None => send port chatID "Нет ответов для отправки." tgbotapi.NoMarkup;; ret tt
  | Some _ =>
      if requireConfigured && bool_decide (targetUserID = 0) then
        send port chatID "Не настроен TARGET_USER_ID, отправка недоступна." tgbotapi.NoMarkup;;
        ret tt
      else
        do payload <- buildForwardPayload recordConfig record;
        match renderForwardMessage payload with
        | inr err =>
            send port chatID "Не удалось сформировать сообщение для отправки." tgbotapi.NoMarkup;;
            ret tt
        | inl text =>
            if decide (strlen text = 0) then
              send port chatID "Нет данных для отправки." tgbotapi.NoMarkup;;
              ret tt
            else
              do reply <- send port targetUserID text tgbotapi.NoMarkup;
              match reply.2 with
              | Some err =>
                  send port chatID "Не удалось отправить ответы, попробуйте позже." tgbotapi.NoMarkup;;
                  ret tt
              | None =>
                  (if clearOnSuccess then clearUserAnswers record else ret tt);;
                  let confirmation := successText targetUserID in
                  send port chatID confirmation tgbotapi.NoMarkup;;
                  ret tt
              end
        end
  end.

Definition handleForwardToTarget (port : botport.BotPort)
    (recordConfig : config.RecordConfig) (chatID target : Z) (clearOnSuccess : bool)
    : M unit :=
  forwardWithTarget port recordConfig chatID target clearOnSuccess true
    (λ id, "Ответы отправлены на ID " +:+ itoa id +:+ ".").

Definition handleForwardAnsweredSections (port : botport.BotPort)
    (recordConfig : config.RecordConfig) (chatID : Z) : M unit :=
  handleForwardToTarget port recordConfig chatID targetUserID false.

Definition handleForwardToSelf (port : botport.BotPort)
    (recordConfig : config.RecordConfig) (chatID : Z) : M unit :=
  forwardWithTarget port recordConfig chatID chatID false false
    (λ id, "Ответы отправлены вам в этот чат.").

(** *** The main menu and the callbacks of the record machine *)
Definition sendMainMenu (port : botport.BotPort) : M unit :=
  do u <- get_user;
  let recordCount := len (Records u) in
  let stats := "👤 Имя: " +:+ state.UserName u +:+ nl +:+ "🆔 ID: " +:+ itoa (state.UserID u)
    +:+ nl +:+ "📊 Кол-во записей: " +:+ itoa recordCount in
  let mainMenuKeyboard := tgbotapi.ReplyKeyboard
    [ [ButtonMainMenuShowRecord; ButtonMainMenuFillRecord];
      [ButtonMainMenuSendSelf; ButtonMainMenuSendTherapist] ] in
  send port (state.UserID u) (stats +:+ nl +:+ nl +:+ "Выберите действие:") mainMenuKeyboard;;
  ret tt.

Definition not_modified_text (err : error) : bool :=
  Contains (botport.Error err) "message is not modified".

Definition enterRecordIdle (e : Event) : M unit :=
  let port := botPort (Args_ e) in
  let chatID := chatID (Args_ e) in
  let messageID := messageID (Args_ e) in
  let failureReason := failureReason (Args_ e) in
  do u <- get_user;
  let recordToFinalize := CurrentRecord u in
  do decision <-
    match Event_name e with
    | EventSaveFullRecord =>
        match recordToFinalize with
        | Some p =>
            do r <- load p;
            do now <- Now;
            store p {| state.ID := itoa (state.UserID u) +:+ "-" +:+ itoa (UnixNano now);
                       state.Data := state.Data r; state.IsSaved := true;
                       state.CreatedAt := now |};;
            ret ("✅ Запись успешно сохранена!", true, true)
        | None => ret ("⚠️ Ошибка: Не найден черновик для сохранения.", true, false)
        end
    | EventExitToMainMenu =>
        ret ("Выход из режима добавления. Черновик доступен для продолжения.", false, false)
    | EventForceExit =>
        ret ("⚠️ Произошла ошибка (" +:+ failureReason
               +:+ "). Ввод прерван. Черновик сохранен.", false, false)
    | _ => ret ("Операция завершена.", true, false)
    end;
  let '(finalText, clearDraft, saveRecord) := decision in
  (if saveRecord && bool_decide (recordToFinalize ≠ None)
   then modify_user (λ u, set_Records (Records u ++ [recordToFinalize]) u)
   else ret tt);;
  modify_user (set_CurrentSection "");;
  modify_user (set_CurrentQuestion 0);;
  modify_user (set_LastMessageID 0);;
  (if clearDraft then modify_user (set_CurrentRecord None) else ret tt);;
  (if decide (messageID ≠ 0) then
     do reply <- port_call port
       (botport.EditMessage chatID messageID finalText (tgbotapi.InlineKeyboardPtr []));
     match reply.2 with
     | Some err =>
         if negb (not_modified_text err)
         then send port chatID finalText tgbotapi.NoMarkup;; ret tt
         else ret tt
     | None => ret tt
     end
   else send port chatID finalText tgbotapi.NoMarkup;; ret tt);;
  sendMainMenu port.

(** The only event that a callback fires is the forced exit, which enters
    the idle state: the machine that the callbacks see needs the callback
    of that state only (lemma [fire_nested_force_exit]). *)
Definition nested_callbacks (dst : RecordState) (e : Event) : M unit :=
  match dst with
  | StateRecordIdle => enterRecordIdle e
  | _ => ret tt
  end.
Definition fire_nested : RecordEvent → Args → M (option error) := fire nested_callbacks.

Definition logAndForceExit (e : Event) (errorMsg : string) : M unit :=
  fire_nested EventForceExit
    (mkArgsReason (botPort (Args_ e)) (recordConfig (Args_ e)) (chatID (Args_ e))
       (messageID (Args_ e)) errorMsg);;
  ret tt.

Definition toBotMessageFromPort (chatID messageID : Z) (text : string)
    (markup : tgbotapi.Markup) : botport.BotMessage :=
  {| botport.ChatID := chatID; botport.MessageID := messageID;
     botport.Transport := "telegram"; botport.Payload := text;
     botport.Meta := Some {[ "markup_type" := tgbotapi.type_name markup ]} |}.

Definition sectionHasData (sectionConf : config.SectionConfig)
    (recordData : option (gmap string string)) : bool :=
  match recordData with
  | None => false
  | Some _ =>
      existsb (λ q, match data_lookup recordData (config.StoreKey q) with
                    | Some data => bool_decide (data ≠ "")
                    | None => false
                    end)
        (config.Questions sectionConf)
  end.

(** [getSortedSectionIDs]: the keys in the order of the [range] loop. *)
Definition getSortedSectionIDs (sections : gmap string config.SectionConfig)
    : M (list string) :=
  do it <- range_keys sections;
  ret (fold_left (λ keys k, (keys ++ [k])%list) it []).

(** The zero value of [SectionConfig], which reading an absent key gives. *)
Definition SectionConfig_zero : config.SectionConfig :=
  {| config.Title := ""; config.Questions := [] |}.

(** The keyboard of the section menu: one row for each section identifier,
    then the row of the two actions. *)
Definition sectionRows (sections : gmap string config.SectionConfig)
    (recordData : option (gmap string string)) (sectionIDs : list string)
    : tgbotapi.InlineKeyboardMarkup :=
  List.map (λ sectionID,
    let sectionConf := default SectionConfig_zero (sections !! sectionID) in
    let hasData := sectionHasData sectionConf recordData in
    let buttonText := if hasData then config.Title sectionConf +:+ " ✅"
                      else config.Title sectionConf in
    [tgbotapi.NewInlineKeyboardButtonData buttonText (CallbackSectionPrefix +:+ sectionID)])
    sectionIDs.

Definition actionRow : list tgbotapi.InlineKeyboardButton :=
  [ tgbotapi.NewInlineKeyboardButtonData "💾 Сохранить запись"
      (CallbackActionPrefix +:+ ActionSaveRecord);
    tgbotapi.NewInlineKeyboardButtonData "⬆️ Выйти в меню"
      (CallbackActionPrefix +:+ ActionExitMenu) ].

Definition sectionKeyboard (sections : gmap string config.SectionConfig)
    (recordData : option (gmap string string)) (sectionIDs : list string)
    : tgbotapi.InlineKeyboardMarkup :=
  sectionRows sections recordData sectionIDs ++ [actionRow].

Definition sectionPrompt := "Выберите секцию для заполнения/редактирования или действие:".

Definition enterSelectingSection (e : Event) : M unit :=
  let port := botPort (Args_ e) in
  let recordConfig := recordConfig (Args_ e) in
  let chatID := chatID (Args_ e) in
  let messageID := messageID (Args_ e) in
  do u <- get_user;
  match config.Sections recordConfig with
  | None => logAndForceExit e "RecordConfig.Sections is nil"
  | Some sections =>
      match CurrentRecord u with
      | None => logAndForceExit e "UserState.CurrentRecord is nil"
      | Some cur =>
          do currentRec <- load cur;
          match state.Data currentRec with
          | None => logAndForceExit e "UserState.CurrentRecord.Data is nil"
          | Some recordData =>
              let prompt := sectionPrompt in
              do sectionIDs <- getSortedSectionIDs sections;
              let keyboard := sectionKeyboard sections (Some recordData) sectionIDs in
              do reply <-
                (if decide (messageID ≠ 0)
                 then port_call port (botport.EditMessage chatID messageID prompt
                                        (tgbotapi.InlineKeyboardPtr keyboard))
                 else send port chatID prompt (tgbotapi.InlineKeyboard keyboard));
              let '(sentMsg, err) := reply in
              do sentMsg <-
                match err with
                | Some er =>
                    if negb (not_modified_text er) then
                      fire_nested EventForceExit
                        (mkArgsReason port recordConfig chatID 0
                           "error displaying section menu");;
                      ret sentMsg
                    else ret (botport.with_MessageID messageID sentMsg)
                | None => ret sentMsg
                end;
              if match err with None => true | Some er => not_modified_text er end then
                modify_user (set_LastMessageID (botport.MessageID sentMsg));;
                modify_user (set_LastPrompt
                  (toBotMessageFromPort chatID (botport.MessageID sentMsg) prompt
                     (tgbotapi.InlineKeyboardPtr keyboard)))
              else ret tt
          end
      end
  end.

Definition cancelRow : list tgbotapi.InlineKeyboardButton :=
  [ tgbotapi.NewInlineKeyboardButtonData "⬅️ Назад к выбору секций"
      (CallbackActionPrefix +:+ ActionCancelSection) ].

Definition askCurrentQuestion (port : botport.BotPort)
    (recordConfig : config.RecordConfig) (messageIDToEdit : Z) : M unit :=
  do u <- get_user;
  let sectionID := CurrentSection u in
  let qIndex := CurrentQuestion u in
  let lastMsgID := LastMessageID u in
  match config.sections recordConfig !! sectionID with
  | None => send port (state.UserID u) "Ошибка конфигурации секции." tgbotapi.NoMarkup;; ret tt
  | Some sectionConf =>
      if decide (qIndex < 0 ∨ qIndex >= len (config.Questions sectionConf)) then
        send port (state.UserID u) "Ошибка навигации по вопросам." tgbotapi.NoMarkup;; ret tt
      else
        match config.Questions sectionConf !! Z.to_nat qIndex with
        | None => panic "index out of range"
        | Some question =>
            match questions.Get registry (config.Type_ question) with
            | None =>
                send port (state.UserID u) "Неизвестный тип вопроса. Попробуйте позже."
                  tgbotapi.NoMarkup;;
                ret tt
            | Some strategy =>
                let renderCtx := {|
                  questions.Bot := port;
                  questions.LastPrompt := LastPrompt u;
                  questions.ChatID := state.UserID u;
                  questions.MessageID := messageIDToEdit;
                  questions.Rec := CurrentRecord u;
                  questions.SectionID := sectionID;
                  questions.Section_ := sectionConf;
                  questions.Question := question;
                  questions.CallbackPrefix := CallbackAnswerPrefix |} in
                do rendered <- questions.Render strategy renderCtx;
                do u <- get_user;
                match rendered with
                | inr err =>
                    send port (state.UserID u) "Не удалось подготовить вопрос. Попробуйте позже."
                      tgbotapi.NoMarkup;;
                    ret tt
                | inl prompt =>
                    let keyboard :=
                      default [] (questions.Keyboard prompt) ++ [cancelRow] in
                    let isEdit :=
                      bool_decide (messageIDToEdit ≠ 0) && negb (questions.ForceNew prompt) in
                    let useLast :=
                      bool_decide (messageIDToEdit = 0) && bool_decide (lastMsgID ≠ 0)
                      && negb (questions.ForceNew prompt) in
                    let effectiveMessageID := if useLast then lastMsgID else messageIDToEdit in
                    let isEdit := if useLast then true else isEdit in
                    do reply <-
                      (if isEdit && bool_decide (effectiveMessageID ≠ 0)
                       then port_call port (botport.EditMessage (state.UserID u)
                              effectiveMessageID (questions.Text prompt)
                              (tgbotapi.InlineKeyboardPtr keyboard))
                       else send port (state.UserID u) (questions.Text prompt)
                              (tgbotapi.InlineKeyboardPtr keyboard));
                    let '(sentMsg, err) := reply in
                    let stored :=
                      match err with
                      | Some _ =>
                          if isEdit && botport.IsCode err "message_not_modified" then
                            Some {| botport.ChatID := state.UserID u;
                                    botport.MessageID := effectiveMessageID;
                                    botport.Transport := "telegram";
                                    botport.Payload := ""; botport.Meta := None |}
                          else None
                      | None => Some sentMsg
                      end in
                    match stored with
                    | None => ret tt
                    | Some sentMsg =>
                        modify_user (set_LastMessageID (botport.MessageID sentMsg));;
                        modify_user (set_LastPrompt sentMsg)
                    end
                end
            end
        end
  end.

Definition enterAnsweringQuestion (e : Event) : M unit :=
  askCurrentQuestion (botPort (Args_ e)) (recordConfig (Args_ e)) (messageID (Args_ e)).

(** The callbacks that [NewRecordFSM] registers, and the method [Event] of
    [userState.RecordFSM]. *)
Definition callbacks (dst : RecordState) (e : Event) : M unit :=
  match dst with
  | StateSelectingSection => enterSelectingSection e
  | StateAnsweringQuestion => enterAnsweringQuestion e
  | StateRecordIdle => enterRecordIdle e
  end.

Definition RecordFSM_Event : RecordEvent → Args → M (option error) := fire callbacks.

(** *** The dispatcher of callbacks *)

(** [l[i]]: [None] is the panic on an index out of range. *)
Definition index {A} (l : list A) (i : Z) : option A :=
  if decide (i < 0) then None else l !! Z.to_nat i.

(** [l[a:b]] for a slice whose capacity is its length. *)
Definition slice {A} (l : list A) (a b : Z) : M (list A) :=
  if decide (0 <= a ∧ a <= b ∧ b <= len l)
  then ret (take (Z.to_nat (b - a)) (drop (Z.to_nat a) l))
  else panic "slice bounds out of range".

(** The callback query of the transport, as far as the dispatcher reads
    it: its identifier and data, and the chat, identifier and text of the
    message that carries the keyboard. *)
Record CallbackQuery := {
  query_ID : string;
  query_Data : string;
  query_ChatID : Z;
  query_MessageID : Z;
  query_Text : string;
}.

Definition buildAnswerContext (u : UserState) (sectionConf : config.SectionConfig)
    (question : config.QuestionConfig) (chatID messageID : Z) (callbackID : string)
    (lastPrompt : botport.BotMessage) (port : botport.BotPort)
    : questions.AnswerContext :=
  {| questions.Render_ctx := {|
       questions.Bot := port;
       questions.LastPrompt := lastPrompt;
       questions.ChatID := chatID;
       questions.MessageID := messageID;
       questions.Rec := CurrentRecord u;
       questions.SectionID := CurrentSection u;
       questions.Section_ := sectionConf;
       questions.Question := question;
       questions.CallbackPrefix := CallbackAnswerPrefix |};
     questions.Message := lastPrompt;
     questions.CallbackID := callbackID |}.

Definition processAnswer (port : botport.BotPort) (recordConfig : config.RecordConfig)
    (messageID : Z) : M unit :=
  do u <- get_user;
  let sectionID := CurrentSection u in
  let qIndex := CurrentQuestion u in
  let sectionConf := config.sections recordConfig !! sectionID in
  if decide (sectionConf = None ∨ qIndex < 0
             ∨ qIndex >= len (config.Questions (default SectionConfig_zero sectionConf))) then
    RecordFSM_Event EventForceExit
      (mkArgsReason port recordConfig (state.UserID u) messageID
         "invalid state/config in processAnswer");;
    ret tt
  else
    let nextQIndex := int_add qIndex 1 in
    do nextEvent <-
      (if decide (nextQIndex < len (config.Questions (default SectionConfig_zero sectionConf)))
       then modify_user (set_CurrentQuestion nextQIndex);; ret EventAnswerQuestion
       else modify_user (set_CurrentQuestion 0);;
            modify_user (set_CurrentSection "");;
            ret EventSectionComplete);
    do u <- get_user;
    do err <- RecordFSM_Event nextEvent (mkArgs port recordConfig (state.UserID u) messageID);
    match err with
    | Some _ =>
        if isNoTransitionError err then askCurrentQuestion port recordConfig messageID
        else
          do u <- get_user;
          send port (state.UserID u) "Произошла внутренняя ошибка FSM." tgbotapi.NoMarkup;;
          ret tt
    | None => ret tt
    end.

Definition handleAnswerResult (result : questions.AnswerResult) (port : botport.BotPort)
    (recordConfig : config.RecordConfig) (messageID : Z) : M unit :=
  (if decide (questions.Feedback result ≠ "") then
     do u <- get_user;
     send port (state.UserID u) (questions.Feedback result) tgbotapi.NoMarkup;;
     ret tt
   else ret tt);;
  if questions.Repeat result && negb (questions.Advance result) then
    askCurrentQuestion port recordConfig messageID
  else if questions.Advance result then processAnswer port recordConfig messageID
  else ret tt.

(** The loop of [handleShareLastRecord] over the records, the last one
    first; it dereferences every record that it visits. *)
Fixpoint findLastSaved (reversed : list (option loc)) : M (option loc) :=
  match reversed with
  | [] => ret None
  | None :: _ => panic "nil pointer dereference"
  | Some p :: rest =>
      do r <- load p;
      if IsSaved r then ret (Some p) else findLastSaved rest
  end.

Definition handleShareLastRecord (port : botport.BotPort)
    (recordConfig : config.RecordConfig) (chatID : Z) : M unit :=
  do u <- get_user;
  do lastRecord <- findLastSaved (rev (Records u));
  match lastRecord with
  | None => send port chatID "Нет сохраненных записей для пересылки." tgbotapi.NoMarkup;; ret tt
  | Some _ =>
      do payload <- buildForwardPayload recordConfig lastRecord;
      match renderForwardMessage payload with
      | inr err =>
          send port chatID "Не удалось подготовить запись для отправки." tgbotapi.NoMarkup;;
          ret tt
      | inl shareText =>
          send port chatID ("Чтобы поделиться, скопируйте текст ниже:" +:+ nl +:+ nl
            +:+ "---" +:+ nl +:+ shareText +:+ nl +:+ "---") tgbotapi.NoMarkup;;
          ret tt
      end
  end.

(** [showSectionSelectionMenu] is called by [resetCurrentRecord] and is not
    among the sources: the handlers take it as a parameter.  Its arguments
    are the port, the schema, the chat, the message and the data of the
    draft. *)
Context (showSectionSelectionMenu :
  botport.BotPort → config.RecordConfig → Z → Z → option (gmap string string) → M unit).

Definition resetCurrentRecord (port : botport.BotPort)
    (recordConfig : config.RecordConfig) (chatID messageID : Z) : M unit :=
  do p <- NewRecord;
  modify_user (set_CurrentRecord (Some p));;
  modify_user (set_CurrentSection "");;
  modify_user (set_CurrentQuestion 0);;
  do r <- load p;
  showSectionSelectionMenu port recordConfig chatID messageID (state.Data r).

(** *** The list of saved records *)
Definition pageSize : Z := 5.

(** The window [start, end) of [viewListHandler], from the offset and the
    number of saved records (which is not 0). *)
Definition listWindow (offset totalRecords : Z) : Z * Z :=
  let start := offset in
  let end_ := int_add offset pageSize in
  let start := if decide (start < 0) then 0 else start in
  let start :=
    if decide (start >= totalRecords) then
      let start := int_mul (int_div totalRecords pageSize) pageSize in
      if decide (start = totalRecords) then
        let start := int_sub totalRecords pageSize in
        if decide (start < 0) then 0 else start
      else start
    else start in
  let end_ := if decide (end_ > totalRecords) then totalRecords else end_ in
  (start, end_).

Definition truncateString (s : string) (n : Z) : string :=
  if decide (strlen s <= n) then s
  else if decide (len (runes s) <= n) then s
  else string_of_runes (take (Z.to_nat n) (runes s)) +:+ "...".

Definition getLastNChars (s : string) (n : Z) : string :=
  if decide (strlen s <= n) then s else last_bytes n s.

Definition listNavigationKeyboard (hasPrev hasNext : bool)
    : tgbotapi.InlineKeyboardMarkup :=
  let row :=
    (if hasPrev then [tgbotapi.NewInlineKeyboardButtonData "⬅️ Назад"
                        (CallbackListNavPrefix +:+ "back")] else [])
    ++ (if hasNext then [tgbotapi.NewInlineKeyboardButtonData "Вперед ➡️"
                           (CallbackListNavPrefix +:+ "next")] else []) in
  let backRow := [tgbotapi.NewInlineKeyboardButtonData "⬆️ В главное меню"
                    (CallbackListNavPrefix +:+ "tomenu")] in
  if decide (len row > 0) then [row; backRow] else [backRow].

(** The saved records among [userState.Records], in their order; the loop
    dereferences every record. *)
Fixpoint savedRecordsOf (rs : list (option loc)) : M (list loc) :=
  match rs with
  | [] => ret []
  | None :: _ => panic "nil pointer dereference"
  | Some p :: rest =>
      do r <- load p;
      do tl <- savedRecordsOf rest;
      ret (if IsSaved r then p :: tl else tl)
  end.

(** The lines of one record of the page. *)
Definition listEntry (r : Record_) : string :=
  "📌 ID: ..." +:+ getLastNChars (state.ID r) 6 +:+ " ("
    +:+ Format (state.CreatedAt r) "02.01.06 15:04" +:+ ")" +:+ nl
  +:+ match data_lookup (state.Data r) "name" with
      | Some name => if decide (name ≠ "")
                     then "   Имя: " +:+ truncateString name 25 +:+ nl else ""
      | None => ""
      end
  +:+ match data_lookup (state.Data r) "city" with
      | Some city => if decide (city ≠ "")
                     then "   Город: " +:+ truncateString city 25 +:+ nl else ""
      | None => ""
      end
  +:+ "---" +:+ nl.

Definition viewListHandler (port : botport.BotPort) (chatID messageID : Z) : M unit :=
  do u <- get_user;
  let offset := ListOffset u in
  do savedRecords <- savedRecordsOf (Records u);
  let totalRecords := len savedRecords in
  if decide (totalRecords = 0) then
    let text := "У вас еще нет сохраненных записей." in
    (if decide (messageID ≠ 0)
     then port_call port (botport.EditMessage chatID messageID text
                            (tgbotapi.InlineKeyboardPtr []))
     else send port chatID text tgbotapi.NoMarkup);;
    do u <- get_user;
    if decide (MainMenuFSM u = StateViewingList)
    then MainMenuFSM_Event EventBackToIdle;; ret tt
    else ret tt
  else
    let '(start, end_) := listWindow offset totalRecords in
    do pageRecords <-
      (if decide (start < end_) then
         let revStart := int_sub totalRecords end_ in
         let revEnd := int_sub totalRecords start in
         let revStart := if decide (revStart < 0) then 0 else revStart in
         slice savedRecords revStart revEnd
       else ret []);
    do h <- (λ w, Ok (heap w) w);
    let header := "🗂️ Список записей (" +:+ itoa (int_add start 1) +:+ " - "
      +:+ itoa end_ +:+ " из " +:+ itoa totalRecords +:+ "):" +:+ nl +:+ nl in
    let body :=
      if decide (len pageRecords = 0 ∧ totalRecords > 0)
      then "Нет записей на этой странице."
      else String.concat "" (List.map (λ p, listEntry (h !!! p)) (rev pageRecords)) in
    let hasPrev := bool_decide (start > 0) in
    let hasNext := bool_decide (end_ < totalRecords) in
    let keyboard := listNavigationKeyboard hasPrev hasNext in
    let text := header +:+ body in
    (if decide (messageID ≠ 0)
     then port_call port (botport.EditMessage chatID messageID text
                            (tgbotapi.InlineKeyboardPtr keyboard))
     else send port chatID text (tgbotapi.InlineKeyboard keyboard));;
    ret tt.

(** The identifier of the current question, the empty string when the
    section or the index is not one of the schema. *)
Definition currentQuestionID (recordConfig : config.RecordConfig) (u : UserState)
    : string :=
  match config.sections recordConfig !! CurrentSection u with
  | Some currentSectionConf =>
      if decide (CurrentQuestion u >= 0
                 ∧ CurrentQuestion u < len (config.Questions currentSectionConf))
      then default "" (config.ID <$> index (config.Questions currentSectionConf)
                                       (CurrentQuestion u))
      else ""
  | None => ""
  end.

Definition handleCallbackQuery (query : CallbackQuery) (port : botport.BotPort)
    (recordConfig : config.RecordConfig) : M unit :=
  let chatID := query_ChatID query in
  let messageID := query_MessageID query in
  let data := query_Data query in
  port_call port (botport.AnswerCallback (query_ID query) "");;
  let parts := SplitN2 data in
  let prefix := hd "" parts +:+ ":" in
  let value := nth 1 parts "" in
  do u <- get_user;
  let recordState := RecordFSM u in
  let mainState := MainMenuFSM u in
  if decide (prefix = CallbackAnswerPrefix) then
    if decide (recordState = StateAnsweringQuestion) then
      match SplitN2 value with
      | [questionID; optionValue] =>
          let currentSectionConf :=
            default SectionConfig_zero (config.sections recordConfig !! CurrentSection u) in
          let currentQID := currentQuestionID recordConfig u in
          if decide (currentQID = questionID) then
            match index (config.Questions currentSectionConf) (CurrentQuestion u) with
            | None => panic "index out of range"
            | Some question =>
                match questions.Get registry (config.Type_ question) with
                | None =>
                    RecordFSM_Event EventForceExit
                      (mkArgsReason port recordConfig chatID messageID
                         "missing question strategy");;
                    ret tt
                | Some strategy =>
                    let answerCtx := buildAnswerContext u currentSectionConf question
                      chatID messageID (query_ID query) (LastPrompt u) port in
                    do result <- questions.HandleAnswer strategy answerCtx
                      {| questions.Source := questions.InputSourceCallback;
                         questions.Input_Text := "";
                         questions.CallbackData := optionValue;
                         questions.Input_MessageID := messageID |};
                    match result with
                    | inr err =>
                        RecordFSM_Event EventForceExit
                          (mkArgsReason port recordConfig chatID messageID
                             "strategy failed while handling callback");;
                        ret tt
                    | inl result => handleAnswerResult result port recordConfig messageID
                    end
                end
            end
          else
            port_call port (botport.AnswerCallback (query_ID query)
                              "⚠️ Ответ на предыдущий вопрос?");;
            ret tt
      | _ => ret tt
      end
    else ret tt
  else if decide (prefix = CallbackSectionPrefix) then
    if decide (recordState = StateSelectingSection) then
      let sectionID := value in
      modify_user (set_CurrentSection sectionID);;
      modify_user (set_CurrentQuestion 0);;
      do err <- RecordFSM_Event EventSelectSection
        (mkArgs port recordConfig chatID messageID);
      match err with
      | Some _ =>
          RecordFSM_Event EventForceExit
            (mkArgsReason port recordConfig chatID messageID "failed to select section");;
          ret tt
      | None => ret tt
      end
    else ret tt
  else if decide (prefix = CallbackActionPrefix) then
    let actionName := value in
    if decide (actionName = ActionCancelSection) then
      if decide (recordState = StateAnsweringQuestion)
      then RecordFSM_Event EventCancelSection (mkArgs port recordConfig chatID messageID);;
           ret tt
      else ret tt
    else if decide (actionName = ActionSaveRecord) then
      if decide (recordState = StateSelectingSection)
      then RecordFSM_Event EventSaveFullRecord (mkArgs port recordConfig chatID messageID);;
           ret tt
      else ret tt
    else if decide (actionName = ActionNewRecord) then
      if decide (recordState = StateSelectingSection)
      then resetCurrentRecord port recordConfig chatID messageID
      else ret tt
    else if decide (actionName = ActionExitMenu) then
      if decide (recordState = StateSelectingSection)
      then RecordFSM_Event EventExitToMainMenu (mkArgs port recordConfig chatID messageID);;
           ret tt
      else ret tt
    else if decide (actionName = ActionShareLast) then
      handleShareLastRecord port recordConfig chatID
    else ret tt
  else if decide (prefix = CallbackListNavPrefix) then
    if decide (mainState = StateViewingList) then
      let navAction := value in
      if decide (navAction = "next") then
        modify_user (λ u, set_ListOffset (int_add (ListOffset u) 5) u);;
        viewListHandler port chatID messageID
      else if decide (navAction = "back") then
        let newOffset := int_sub (ListOffset u) 5 in
        let newOffset := if decide (newOffset < 0) then 0 else newOffset in
        modify_user (set_ListOffset newOffset);;
        viewListHandler port chatID messageID
      else if decide (navAction = "tomenu") then
        MainMenuFSM_Event EventBackToIdle;;
        port_call port (botport.EditMessage chatID messageID (query_Text query)
                          (tgbotapi.InlineKeyboardPtr []));;
        sendMainMenu port
      else ret tt
    else
      port_call port (botport.AnswerCallback (query_ID query) "Действие недоступно.");;
      ret tt
  else ret tt.

(** *** The dispatcher of messages *)

(** [resolveCurrentQuestion]: the section and the question that the user
    state points at. *)
Definition resolveCurrentQuestion (recordConfig : config.RecordConfig)
    : M (questions.result (config.SectionConfig * config.QuestionConfig)) :=
  do u <- get_user;
  let sectionID := CurrentSection u in
  let qIndex := CurrentQuestion u in
  match config.sections recordConfig !! sectionID with
  | None =>
      ret (inr (Errorf ("invalid state/config when resolving question (section "
        +:+ sectionID +:+ " idx " +:+ itoa qIndex +:+ ")")))
  | Some sectionConf =>
      if decide (qIndex < 0 ∨ qIndex >= len (config.Questions sectionConf)) then
        ret (inr (Errorf ("invalid state/config when resolving question (section "
          +:+ sectionID +:+ " idx " +:+ itoa qIndex +:+ ")")))
      else
        match index (config.Questions sectionConf) qIndex with
        | None => panic "index out of range"
        | Some question => ret (inl (sectionConf, question))
        end
  end.

Definition hideKeyboard (port : botport.BotPort) (chatID : Z) (text : string) : M unit :=
  send port chatID text tgbotapi.ReplyKeyboardRemove;;
  ret tt.

(** [userState.RecordFSM.SetState]. *)
Definition RecordFSM_SetState (s : RecordState) : M unit :=
  modify_user (set_RecordFSM s).

Definition startOrResumeRecordCreation (port : botport.BotPort)
    (recordConfig : config.RecordConfig) (chatID : Z) : M unit :=
  do u <- get_user;
  (if CurrentRecord u is None
   then do p <- NewRecord; modify_user (set_CurrentRecord (Some p))
   else ret tt);;
  modify_user (set_CurrentSection "");;
  modify_user (set_CurrentQuestion 0);;
  do err <- RecordFSM_Event EventStartRecord (mkArgs port recordConfig chatID 0);
  match err with
  | Some _ =>
      send port chatID "Не удалось начать ввод записи. Попробуйте позже." tgbotapi.NoMarkup;;
      do u <- get_user;
      if decide (RecordFSM u ≠ StateRecordIdle)
      then RecordFSM_SetState StateRecordIdle
      else ret tt
  | None => ret tt
  end.

(** The line that [formatRecordForDisplay] writes for one key of the
    record, when the key is present. *)
Definition displayLine (data : option (gmap string string)) (label key : string)
    : string :=
  match data_lookup data key with
  | Some val => label +:+ val +:+ nl
  | None => ""
  end.

Definition formatRecordForDisplay (r : option loc) : M string :=
  match r with
  | None => ret "Данные записи отсутствуют."
  | Some p =>
      do record <- load p;
      match state.Data record with
      | None => ret "Данные записи отсутствуют."
      | Some _ =>
          let text :=
            displayLine (state.Data record) "Имя: " "name"
            +:+ displayLine (state.Data record) "Город: " "city"
            +:+ displayLine (state.Data record) "Возраст: " "age"
            +:+ displayLine (state.Data record) "Компания: " "company"
            +:+ displayLine (state.Data record) "Занятость: " "employment"
            +:+ displayLine (state.Data record) "Заметки: " "notes" in
          if decide (text = "") then ret "Нет заполненных данных." else ret text
      end
  end.

Definition shareKeyboard : tgbotapi.InlineKeyboardMarkup :=
  [ [ tgbotapi.NewInlineKeyboardButtonData "✉️ Поделиться"
        (CallbackActionPrefix +:+ ActionShareLast) ] ].

(** [viewLastRecordHandler]; its loop over the records is the loop of
    [handleShareLastRecord]. *)
Definition viewLastRecordHandler (port : botport.BotPort) (chatID : Z) : M unit :=
  do u <- get_user;
  do lastRecord <- findLastSaved (rev (Records u));
  match lastRecord with
  | None => send port chatID "У вас еще нет сохраненных записей." tgbotapi.NoMarkup;; ret tt
  | Some _ =>
      do recordText <- formatRecordForDisplay lastRecord;
      let status := "Сохранена" in
      let msgText := "📄 Последняя запись (Статус: " +:+ status +:+ "):" +:+ nl +:+ nl
        +:+ recordText in
      send port chatID msgText (tgbotapi.InlineKeyboard shareKeyboard);;
      ret tt
  end.

(** The message of the transport, as far as the dispatcher reads it: its
    chat, its text, and what the methods [IsCommand] and [Command] of the
    client library make of its entities ([None] when it is not a command,
    the name of the command otherwise). *)
Record Message := {
  msg_ChatID : Z;
  msg_Text : string;
  msg_Command : option string;
}.

(** [handleMessage].  The call of [viewLastRecordHandler] passes the schema
    as well, which the handler of the sources does not take. *)
Definition handleMessage (message : Message) (port : botport.BotPort)
    (recordConfig : config.RecordConfig) : M unit :=
  let chatID := msg_ChatID message in
  let text := msg_Text message in
  match msg_Command message with
  | Some command =>
      if decide (command = "start") then
        do u <- get_user;
        if decide (RecordFSM u ≠ StateRecordIdle) then
          let lastMsgID := LastMessageID u in
          do err <- RecordFSM_Event EventForceExit
            (mkArgsReason port recordConfig chatID lastMsgID "command /start used");
          match err with
          | Some _ =>
              RecordFSM_SetState StateRecordIdle;;
              modify_user (set_CurrentSection "");;
              modify_user (set_CurrentQuestion 0);;
              modify_user (set_LastMessageID 0);;
              sendMainMenu port
          | None => ret tt
          end
        else sendMainMenu port
      else
        send port chatID "Неизвестная команда." tgbotapi.NoMarkup;; ret tt
  | None =>
      do u <- get_user;
      let mainState := MainMenuFSM u in
      let recordState := RecordFSM u in
      if decide (recordState = StateAnsweringQuestion) then
        do resolved <- resolveCurrentQuestion recordConfig;
        match resolved with
        | inr err =>
            do u <- get_user;
            RecordFSM_Event EventForceExit
              (mkArgsReason port recordConfig chatID (LastMessageID u)
                 "invalid state/config for text answer");;
            ret tt
        | inl (sectionConf, question) =>
            match questions.Get registry (config.Type_ question) with
            | None =>
                do u <- get_user;
                RecordFSM_Event EventForceExit
                  (mkArgsReason port recordConfig chatID (LastMessageID u)
                     "missing question strategy");;
                ret tt
            | Some strategy =>
                do u <- get_user;
                let answerCtx := buildAnswerContext u sectionConf question chatID
                  (LastMessageID u) "" (LastPrompt u) port in
                do result <- questions.HandleAnswer strategy answerCtx
                  {| questions.Source := questions.InputSourceText;
                     questions.Input_Text := text;
                     questions.CallbackData := "";
                     questions.Input_MessageID := LastMessageID u |};
                do u <- get_user;
                match result with
                | inr err =>
                    RecordFSM_Event EventForceExit
                      (mkArgsReason port recordConfig chatID (LastMessageID u)
                         "strategy failed while handling answer");;
                    ret tt
                | inl result =>
                    handleAnswerResult result port recordConfig (LastMessageID u)
                end
            end
        end
      else if decide (mainState = StateIdle ∧ recordState = StateRecordIdle) then
        if decide (text = ButtonMainMenuFillRecord) then
          startOrResumeRecordCreation port recordConfig chatID;;
          hideKeyboard port chatID "Начинаем ввод/продолжение записи..."
        else if decide (text = ButtonMainMenuShowRecord) then
          viewLastRecordHandler port chatID
        else if decide (text = ButtonMainMenuSendSelf) then
          handleForwardToSelf port recordConfig chatID
        else if decide (text = ButtonMainMenuSendTherapist) then
          handleForwardAnsweredSections port recordConfig chatID
        else ret tt
      else
        send port chatID
          "Пожалуйста, используйте предложенные кнопки или завершите текущее действие."
          tgbotapi.NoMarkup;;
        ret tt
  end.

End handlers.

End fsm.

(** ** package state: the store of user states (store.go) *)
Module store.
Import state.

(** The struct [Store].  The Go map holds pointers to the user states; here
    it holds the states, and whoever changes the state of a user writes it
    back.  The creator of the machines is the one of initializers.go: the
    main menu starts idle and the record machine starts in record_idle. *)
Definition Store := gmap Z UserState.

Definition NewStore : Store := ∅.

Definition set_UserName v (u : UserState) : UserState :=
  {| UserID := UserID u; UserName := v; Records := Records u;
     MainMenuFSM := MainMenuFSM u; RecordFSM := RecordFSM u;
     CurrentRecord := CurrentRecord u; CurrentSection := CurrentSection u;
     CurrentQuestion := CurrentQuestion u; LastMessageID := LastMessageID u;
     LastPrompt := LastPrompt u; ListOffset := ListOffset u |}.

(** [GetOrCreateUserState]: the state of the user and the store after the
    call. *)
Definition GetOrCreateUserState (userID : Z) (userName : string) (s : Store)
    : UserState * Store :=
  match s !! userID with
  | Some userState =>
      let userState :=
        if decide (UserName userState ≠ userName)
        then set_UserName userName userState else userState in
      (userState, <[userID := userState]> s)
  | None =>
      let newUserState :=
        {| UserID := userID; UserName := userName; Records := [];
           MainMenuFSM := StateIdle; RecordFSM := StateRecordIdle;
           CurrentRecord := None; CurrentSection := ""; CurrentQuestion := 0;
           LastMessageID := 0; LastPrompt := botport.BotMessage_zero;
           ListOffset := 0 |} in
      (newUserState, <[userID := newUserState]> s)
  end.

End store.

(** ** package context, as far as the adapters read it *)
Module context.

(** The errors that [ctx.Err()] returns once the context is done. *)
Inductive Err := Canceled | DeadlineExceeded | Other (msg : string).

Definition Error (e : Err) : string :=
  match e with
  | Canceled => "context canceled"
  | DeadlineExceeded => "context deadline exceeded"
  | Other msg => msg
  end.

(** A context is what its method [Err] returns: [None] is nil, the context
    is not done. *)
Definition Context := option Err.
Definition Background : Context := None.

End context.

(** ** package fakeadapter: the port of the headless tests *)
Module fakeadapter.

Record Call := {
  Op : string;
  ChatID : Z;
  MessageID : Z;
  Text : string;
  Markup : tgbotapi.Markup;
  Callback : string;
}.

(** The struct [FakeAdapter], without its mutex.  [FailNext] is a Go map
    ([None] is the nil map) whose values are errors ([None] is the nil
    error). *)
Record FakeAdapter := {
  Calls : list Call;
  NextMessageID : Z;
  FailNext : option (gmap string (option error));
}.

(** The zero value [&FakeAdapter{}]. *)
Definition FakeAdapter_zero : FakeAdapter :=
  {| Calls := []; NextMessageID := 0; FailNext := None |}.

Definition set_Calls v (f : FakeAdapter) : FakeAdapter :=
  {| Calls := v; NextMessageID := NextMessageID f; FailNext := FailNext f |}.
Definition set_NextMessageID v (f : FakeAdapter) : FakeAdapter :=
  {| Calls := Calls f; NextMessageID := v; FailNext := FailNext f |}.
Definition set_FailNext v (f : FakeAdapter) : FakeAdapter :=
  {| Calls := Calls f; NextMessageID := NextMessageID f; FailNext := v |}.

(** The methods change the adapter they are called on: a method is a
    function from the adapter before the call to its result and the adapter
    after it. *)
Definition F (A : Type) : Type := FakeAdapter → A * FakeAdapter.
#[global] Instance F_ret : MRet F := λ A a f, (a, f).
#[global] Instance F_bind : MBind F := λ A B k m f, let '(a, f') := m f in k a f'.

Definition wrapContextError (op : string) (err : context.Err) : error :=
  match err with
  | context.Canceled => BotError op "context_canceled" 0 (Some (context.Error err))
  | context.DeadlineExceeded => BotError op "context_deadline" 0 (Some (context.Error err))
  | context.Other _ => BotError op "context_error" 0 (Some (context.Error err))
  end.

Definition botMessage (chatID messageID : Z) (text : string) : botport.BotMessage :=
  {| botport.ChatID := chatID; botport.MessageID := messageID;
     botport.Transport := "telegram"; botport.Payload := text;
     botport.Meta := Some {[ "fake" := "true" ]} |}.

Definition nextMessageID : F Z :=
  λ f,
    let f := if decide (NextMessageID f = 0) then set_NextMessageID 1 f else f in
    let id := NextMessageID f in
    (id, set_NextMessageID (int_add (NextMessageID f) 1) f).

Definition record (call : Call) : F unit :=
  λ f, (tt, set_Calls (Calls f ++ [call]) f).

(** [maybeFail]: the error scripted for [op], if any, which is consumed; an
    error that is not a [BotError] (the nil error too) is wrapped. *)
Definition maybeFail (op : string) : F (option error) :=
  λ f,
    match FailNext f with
    | None => (None, f)
    | Some failNext =>
        match failNext !! op with
        | None => (None, f)
        | Some err =>
            let f := set_FailNext (Some (delete op failNext)) f in
            match err with
            | Some (BotError _ _ _ _ as be) => (Some be, f)
            | _ => (Some (BotError op "fake_error" 0 (botport.Error <$> err)), f)
            end
        end
    end.

Definition SendMessage (ctx : context.Context) (chatID : Z) (text : string)
    (markup : tgbotapi.Markup) : F (botport.BotMessage * option error) :=
  match ctx with
  | Some err => mret (botport.BotMessage_zero, Some (wrapContextError "send_message" err))
  | None =>
      failed ← maybeFail "send_message";
      match failed with
      | Some err => mret (botport.BotMessage_zero, Some err)
      | None =>
          msgID ← nextMessageID;
          _ ← record {| Op := "send_message"; ChatID := chatID; MessageID := msgID;
                    Text := text; Markup := markup; Callback := "" |};
          mret (botMessage chatID msgID text, None)
      end
  end.

Definition EditMessage (ctx : context.Context) (chatID messageID : Z) (text : string)
    (markup : tgbotapi.Markup) : F (botport.BotMessage * option error) :=
  match ctx with
  | Some err => mret (botport.BotMessage_zero, Some (wrapContextError "edit_message" err))
  | None =>
      failed ← maybeFail "edit_message";
      match failed with
      | Some err => mret (botport.BotMessage_zero, Some err)
      | None =>
          messageID ← (if decide (messageID = 0) then nextMessageID else mret messageID);
          _ ← record {| Op := "edit_message"; ChatID := chatID; MessageID := messageID;
                    Text := text; Markup := markup; Callback := "" |};
          mret (botMessage chatID messageID text, None)
      end
  end.

Definition AnswerCallback (ctx : context.Context) (callbackID text : string)
    : F (option error) :=
  match ctx with
  | Some err => mret (Some (wrapContextError "answer_callback" err))
  | None =>
      failed ← maybeFail "answer_callback";
      match failed with
      | Some err => mret (Some err)
      | None =>
          _ ← record {| Op := "answer_callback"; ChatID := 0; MessageID := 0;
                    Text := text; Markup := tgbotapi.NoMarkup; Callback := callbackID |};
          mret None
      end
  end.

(** [Fail]: script the error of the next call of [op]. *)
Definition Fail (op : string) (err : option error) : F unit :=
  λ f, (tt, set_FailNext (Some (<[op := err]> (default ∅ (FailNext f)))) f).

(** [LastCall]: the loop from the last call down; [None] is nil. *)
Definition LastCall (op : string) : F (option Call) :=
  λ f, (List.find (λ c, bool_decide (Op c = op)) (rev (Calls f)), f).

Definition MessageNotModified (op : string) : error :=
  BotError op "message_not_modified" 0 None.
Definition RateLimited (op : string) (retry : Z) : error :=
  BotError op "rate_limited" retry (Some "rate limited").

End fakeadapter.

(** ** package bot: the client of the Telegram API *)
Module bot.

(** The message of the client library, as far as the adapter reads it;
    [Chat] is a pointer ([None] is nil). *)
Record Message := {
  MessageID : Z;
  Chat : option Z;
  Text : string;
  Caption : string;
}.

(** The zero value [tgbotapi.Message{}]. *)
Definition Message_zero : Message :=
  {| MessageID := 0; Chat := None; Text := ""; Caption := "" |}.

(** The error values below the port: an error with a message (of the
    client library, or made by [fmt.Errorf] without a wrapped error), an
    error of package context, and [fmt.Errorf(prefix + "%w", wrapped)]. *)
Inductive Err :=
  | Leaf (msg : string)
  | ContextErr (e : context.Err)
  | Wrap (prefix : string) (wrapped : Err).

Fixpoint Error (err : Err) : string :=
  match err with
  | Leaf msg => msg
  | ContextErr e => context.Error e
  | Wrap prefix wrapped => prefix +:+ Error wrapped
  end.

(** [errors.Is(err, context.Canceled)] and
    [errors.Is(err, context.DeadlineExceeded)]. *)
Fixpoint IsCanceled (err : Err) : bool :=
  match err with
  | ContextErr context.Canceled => true
  | Wrap _ wrapped => IsCanceled wrapped
  | _ => false
  end.
Fixpoint IsDeadlineExceeded (err : Err) : bool :=
  match err with
  | ContextErr context.DeadlineExceeded => true
  | Wrap _ wrapped => IsDeadlineExceeded wrapped
  | _ => false
  end.

(** A value of type [interface{}] that holds a markup: one of the dynamic
    values of [tgbotapi.Markup] ([NoMarkup] is the nil interface), or a nil
    pointer to an inline keyboard, which is not the nil interface. *)
Inductive ReplyMarkup :=
  | Reply (m : tgbotapi.Markup)
  | NilInlineKeyboardPtr.

(** The requests that the client sends to the API; the markup of an edit
    is a pointer ([None] is nil). *)
Inductive Request :=
  | SendRequest (chatID : Z) (text : string) (markup : ReplyMarkup)
  | EditRequest (chatID messageID : Z) (text : string)
      (markup : option tgbotapi.InlineKeyboardMarkup)
  | CallbackRequest (callbackID text : string).

(** The API: what it answers to a request, given the requests before. *)
Definition Api := list Request → Request → Message * option Err.

(** The text of the error by which Telegram answers an edit that changes
    nothing. *)
Definition notModified : string :=
  "Bad Request: message is not modified: specified new message content and reply markup are exactly the same as a current content and reply markup of the message".

Section client.
Context (api : Api).

(** The methods of [*Client] run on the requests sent so far. *)
Definition C (A : Type) : Type := list Request → A * list Request.
#[global] Instance C_ret : MRet C := λ A a log, (a, log).
#[global] Instance C_bind : MBind C := λ A B k m log, let '(a, log') := m log in k a log'.

Definition request (r : Request) : C (Message * option Err) :=
  λ log, (api log r, log ++ [r]).

Definition SendMessage (chatID : Z) (text : string) (markup : ReplyMarkup)
    : C (Message * option Err) :=
  reply ← request (SendRequest chatID text markup);
  match reply.2 with
  | Some err => mret (Message_zero, Some (Wrap "failed to send message: " err))
  | None => mret (reply.1, None)
  end.

Definition EditMessageText (chatID messageID : Z) (text : string)
    (markup : option tgbotapi.InlineKeyboardMarkup) : C (Message * option Err) :=
  if decide (messageID = 0) then
    SendMessage chatID text
      (match markup with
       | Some kb => Reply (tgbotapi.InlineKeyboardPtr kb)
       | None => NilInlineKeyboardPtr
       end)
  else
    reply ← request (EditRequest chatID messageID text markup);
    match reply.2 with
    | Some err =>
        if decide (Error err = notModified) then
          mret ({| MessageID := messageID; Chat := Some chatID; Text := "";
                   Caption := "" |}, None)
        else
          mret (Message_zero,
                Some (Wrap ("failed to edit message " +:+ itoa messageID +:+ ": ") err))
    | None => mret (reply.1, None)
    end.

Definition AnswerCallback (callbackID text : string) : C (option Err) :=
  if decide (callbackID = "") then mret (Some (Leaf "callbackID cannot be empty"))
  else
    reply ← request (CallbackRequest callbackID text);
    match reply.2 with
    | Some err =>
        mret (Some (Wrap ("failed to answer callback query " +:+ callbackID +:+ ": ") err))
    | None => mret None
    end.

End client.

End bot.

(** ** package telegramadapter: the port over the client *)
Module telegramadapter.

(** The interface [telegramClient]: its methods run on a state of the
    client. *)
Record telegramClient (S : Type) := {
  client_SendMessage :
    Z → string → bot.ReplyMarkup → S → (bot.Message * option bot.Err) * S;
  client_EditMessageText :
    Z → Z → string → option tgbotapi.InlineKeyboardMarkup
    → S → (bot.Message * option bot.Err) * S;
  client_AnswerCallback : string → string → S → option bot.Err * S;
}.
Arguments client_SendMessage {S}.
Arguments client_EditMessageText {S}.
Arguments client_AnswerCallback {S}.

(** [*bot.Client] is a [telegramClient]; its state is the requests sent. *)
Definition Client (api : bot.Api) : telegramClient (list bot.Request) :=
  {| client_SendMessage := bot.SendMessage api;
     client_EditMessageText := bot.EditMessageText api;
     client_AnswerCallback := bot.AnswerCallback api |}.

(** *** The retry hint of a rate limit

    [retryAfterRegex] is [(?i)retry after (\d+)]: the leftmost place where
    the words occur, in any case of their letters, followed by at least one
    decimal digit; the group is the longest run of digits there. *)
Definition is_digit (c : ascii) : bool :=
  let n := nat_of_ascii c in ((48 <=? n) && (n <=? 57))%nat.

Fixpoint digits_prefix (s : string) : string :=
  match s with
  | String c s' => if is_digit c then String c (digits_prefix s') else EmptyString
  | EmptyString => EmptyString
  end.

(** [c] is the letter [p] of the pattern, in lower or in upper case. *)
Definition fold_eqb (p c : ascii) : bool :=
  let n := nat_of_ascii p in
  Ascii.eqb c p
  || (((97 <=? n) && (n <=? 122))%nat && Ascii.eqb c (ascii_of_nat (n - 32))).

Fixpoint match_fold (pattern s : string) : option string :=
  match pattern, s with
  | EmptyString, _ => Some s
  | String p pattern', String c s' =>
      if fold_eqb p c then match_fold pattern' s' else None
  | String _ _, EmptyString => None
  end.

Fixpoint FindStringSubmatch (s : string) : option string :=
  let here :=
    match match_fold "retry after " s with
    | Some rest =>
        if decide (digits_prefix rest = "") then None else Some (digits_prefix rest)
    | None => None
    end in
  match here with
  | Some digits => Some digits
  | None =>
      match s with
      | String _ s' => FindStringSubmatch s'
      | EmptyString => None
      end
  end.

Fixpoint decimal (acc : Z) (s : string) : Z :=
  match s with
  | String c s' => decimal (10 * acc + Z.of_nat (nat_of_ascii c - 48)) s'
  | EmptyString => acc
  end.

(** [time.ParseDuration(digits + "s")], in nanoseconds: an error when the
    number of seconds does not fit a [Duration]. *)
Definition ParseSeconds (digits : string) : option Z :=
  let seconds := decimal 0 digits in
  if decide (seconds > 2 ^ 63 `div` 1000000000) then None
  else Some (seconds * 1000000000).

Definition extractRetryAfter (msg : string) : Z :=
  match FindStringSubmatch msg with
  | None => 0
  | Some digits => default 0 (ParseSeconds digits)
  end.

Section adapter.
Context `{GoRuntime}.
Context {S : Type} (client : telegramClient S).
(** [json.Marshal] of a pointer to an inline keyboard, as a string;
    [None] is an error. *)
Context (json_Marshal : option tgbotapi.InlineKeyboardMarkup → option string).

(** The methods of [*Adapter] run on the state of the client; the logger
    is left out. *)
Definition A (T : Type) : Type := S → T * S.
#[global] Instance A_ret : MRet A := λ T a st, (a, st).
#[global] Instance A_bind : MBind A := λ T U k m st, let '(a, st') := m st in k a st'.

Definition toInlineKeyboard (markup : tgbotapi.Markup)
    : questions.result (option tgbotapi.InlineKeyboardMarkup) :=
  match markup with
  | tgbotapi.NoMarkup => inl None
  | tgbotapi.InlineKeyboard v => inl (Some v)
  | tgbotapi.InlineKeyboardPtr v => inl (Some v)
  | _ => inr (Errorf ("unsupported markup type " +:+ tgbotapi.type_name markup))
  end.

(** [extractInlineKeyboard]: [None] is [(nil, false)]. *)
Definition extractInlineKeyboard (markup : bot.ReplyMarkup)
    : option (option tgbotapi.InlineKeyboardMarkup) :=
  match markup with
  | bot.Reply (tgbotapi.InlineKeyboard v) => Some (Some v)
  | bot.Reply (tgbotapi.InlineKeyboardPtr v) => Some (Some v)
  | bot.NilInlineKeyboardPtr => Some None
  | _ => None
  end.

Definition type_name (markup : bot.ReplyMarkup) : string :=
  match markup with
  | bot.Reply m => tgbotapi.type_name m
  | bot.NilInlineKeyboardPtr => "*tgbotapi.InlineKeyboardMarkup"
  end.

Definition metaFromMarkup (markup : bot.ReplyMarkup) : option (gmap string string) :=
  match markup with
  | bot.Reply tgbotapi.NoMarkup => None
  | _ =>
      let meta : gmap string string := {[ "markup_type" := type_name markup ]} in
      match extractInlineKeyboard markup with
      | Some keyboard =>
          match json_Marshal keyboard with
          | Some raw => Some (<["raw_markup" := raw]> meta)
          | None => Some meta
          end
      | None => Some meta
      end
  end.

Definition chatIDFromMessage (msg : bot.Message) : Z := default 0 (bot.Chat msg).

Definition toBotMessage (msg : bot.Message) (markup : bot.ReplyMarkup)
    : botport.BotMessage :=
  let payload := if decide (bot.Text msg = "") then bot.Caption msg else bot.Text msg in
  {| botport.ChatID := chatIDFromMessage msg;
     botport.MessageID := bot.MessageID msg;
     botport.Transport := "telegram";
     botport.Payload := payload;
     botport.Meta := metaFromMarkup markup |}.

(** [wrapContextError] for an error [err] whose text is [text]. *)
Definition wrapContextError (op : string) (canceled deadline : bool) (text : string)
    : error :=
  if canceled then BotError op "context_canceled" 0 (Some text)
  else if deadline then BotError op "context_deadline" 0 (Some text)
  else BotError op "context_error" 0 (Some text).

Definition wrapContextErr (op : string) (err : context.Err) : error :=
  wrapContextError op
    (bot.IsCanceled (bot.ContextErr err)) (bot.IsDeadlineExceeded (bot.ContextErr err))
    (context.Error err).

Definition classifyTelegramError (err : bot.Err) : string * Z :=
  let msg := bot.Error err in
  if Contains (ToLower msg) "message is not modified" then ("message_not_modified", 0)
  else if Contains (ToLower msg) "too many requests"
    then ("rate_limited", extractRetryAfter msg)
  else if Contains (ToLower msg) "bad request" then ("bad_request", 0)
  else if Contains (ToLower msg) "forbidden" then ("forbidden", 0)
  else ("unknown", 0).

(** [wrapTelegramError] for an error that is not nil. *)
Definition wrapTelegramError (op : string) (err : bot.Err) : error :=
  if bot.IsCanceled err || bot.IsDeadlineExceeded err then
    wrapContextError op (bot.IsCanceled err) (bot.IsDeadlineExceeded err) (bot.Error err)
  else
    let '(code, retry) := classifyTelegramError err in
    BotError op code retry (Some (bot.Error err)).

Definition SendMessage (ctx : context.Context) (chatID : Z) (text : string)
    (markup : tgbotapi.Markup) : A (botport.BotMessage * option error) :=
  match ctx with
  | Some err => mret (botport.BotMessage_zero, Some (wrapContextErr "send_message" err))
  | None =>
      reply ← client_SendMessage client chatID text (bot.Reply markup);
      match reply.2 with
      | Some err =>
          mret (botport.BotMessage_zero, Some (wrapTelegramError "send_message" err))
      | None => mret (toBotMessage reply.1 (bot.Reply markup), None)
      end
  end.

Definition EditMessage (ctx : context.Context) (chatID messageID : Z) (text : string)
    (markup : tgbotapi.Markup) : A (botport.BotMessage * option error) :=
  match ctx with
  | Some err => mret (botport.BotMessage_zero, Some (wrapContextErr "edit_message" err))
  | None =>
      match toInlineKeyboard markup with
      | inr err =>
          mret (botport.BotMessage_zero,
                Some (BotError "edit_message" "bad_payload" 0 (Some (botport.Error err))))
      | inl inlineMarkup =>
          reply ← client_EditMessageText client chatID messageID text inlineMarkup;
          match reply.2 with
          | Some err =>
              mret (botport.BotMessage_zero, Some (wrapTelegramError "edit_message" err))
          | None =>
              mret (toBotMessage reply.1
                      (match inlineMarkup with
                       | Some kb => bot.Reply (tgbotapi.InlineKeyboardPtr kb)
                       | None => bot.NilInlineKeyboardPtr
                       end), None)
          end
      end
  end.

Definition AnswerCallback (ctx : context.Context) (callbackID text : string)
    : A (option error) :=
  match ctx with
  | Some err => mret (Some (wrapContextErr "answer_callback" err))
  | None =>
      failed ← client_AnswerCallback client callbackID text;
      match failed with
      | Some err => mret (Some (wrapTelegramError "answer_callback" err))
      | None => mret None
      end
  end.

End adapter.

End telegramadapter.

(** ** A runtime and a port to run the engine on concrete inputs *)
Module testing.

Definition is_space (c : ascii) : bool :=
  let n := nat_of_ascii c in
  ((9 <=? n) && (n <=? 13))%nat || (n =? 32)%nat.

Fixpoint trim_left (s : string) : string :=
  match s with
  | String c s' => if is_space c then trim_left s' else s
  | EmptyString => EmptyString
  end.
Definition string_rev (s : string) : string :=
  string_of_list_ascii (List.rev (list_ascii_of_string s)).
Definition trim (s : string) : string :=
  string_rev (trim_left (string_rev (trim_left s))).

Definition lower_ascii (c : ascii) : ascii :=
  let n := nat_of_ascii c in
  if ((65 <=? n) && (n <=? 90))%nat then ascii_of_nat (n + 32) else c.
Fixpoint lower (s : string) : string :=
  match s with
  | String c s' => String (lower_ascii c) (lower s')
  | EmptyString => EmptyString
  end.

Fixpoint digits (s : string) (acc : option Z) : option Z :=
  match s with
  | String c s' =>
      let n := nat_of_ascii c in
      if ((48 <=? n) && (n <=? 57))%nat
      then digits s' (Some (10 * default 0 acc + Z.of_nat (n - 48)))
      else acc
  | EmptyString => acc
  end.
Definition scan_int (s : string) : option Z :=
  match trim_left s with
  | String "-"%char s' => Z.opp <$> digits s' None
  | String "+"%char s' => digits s' None
  | s' => digits s' None
  end.

(** On ASCII text the functions below are those of the Go library; times
    are printed as their Unix nanoseconds; the clock starts at a fixed
    instant and advances by one nanosecond at every reading; the even
    [range] loops visit the keys in the canonical order and the odd ones
    in the reverse order. *)
Definition runtime : GoRuntime := {|
  TrimSpace := trim;
  ToLower := lower;
  Format t layout := itoa (UnixNano t);
  Sscanf_d := scan_int;
  runes s := List.map (λ c, Z.of_nat (nat_of_ascii c)) (list_ascii_of_string s);
  string_of_runes rs :=
    string_of_list_ascii (List.map (λ r, ascii_of_nat (Z.to_nat r)) rs);
  clock n := 1700000000000000000 + Z.of_nat n;
  range_order n ks := if Nat.even n then ks else reverse ks;
  range_order_perm n ks :=
    match Nat.even n as b return (if b then ks else reverse ks) ≡ₚ ks with
    | true => reflexivity ks
    | false => reverse_Permutation ks
    end;
|}.

(** A port on which every operation succeeds: a sent message gets the
    next free message identifier, an edited one keeps its own. *)
Definition port_ok : botport.BotPort :=
  λ history c,
    match c with
    | botport.SendMessage chat text _ =>
        ({| botport.ChatID := chat; botport.MessageID := 1 + len history;
            botport.Transport := "telegram"; botport.Payload := text;
            botport.Meta := None |}, None)
    | botport.EditMessage chat id text _ =>
        ({| botport.ChatID := chat; botport.MessageID := id;
            botport.Transport := "telegram"; botport.Payload := text;
            botport.Meta := None |}, None)
    | _ => (botport.BotMessage_zero, None)
    end.

(** The port [port_ok], except that every operation of the kind of
    [failing] returns [err] and a zero message. *)
Definition same_kind (a b : botport.Call) : bool :=
  match a, b with
  | botport.SendMessage _ _ _, botport.SendMessage _ _ _
  | botport.EditMessage _ _ _ _, botport.EditMessage _ _ _ _
  | botport.AnswerCallback _ _, botport.AnswerCallback _ _
  | botport.DeleteMessage _ _, botport.DeleteMessage _ _ => true
  | _, _ => false
  end.
Definition port_failing (failing : botport.Call) (err : error) : botport.BotPort :=
  λ history c,
    if same_kind failing c then (botport.BotMessage_zero, Some err)
    else port_ok history c.

(** The errors that the helpers of the fake adapter make. *)
Definition MessageNotModified (op : string) : error :=
  BotError op "message_not_modified" 0 None.
Definition RateLimited (op : string) (retry : Z) : error :=
  BotError op "rate_limited" retry (Some "rate limited").

Definition question (id prompt type key : string) : config.QuestionConfig :=
  {| config.ID := id; config.Prompt := prompt; config.Type_ := type;
     config.StoreKey := key; config.Options := [];
     config.RatingMin := 0; config.RatingMax := 0;
     config.NextButtonLabel := ""; config.FinishButtonLabel := "" |}.

Definition rating_question (lo hi : Z) : config.QuestionConfig :=
  {| config.ID := "q1"; config.Prompt := "Rate"; config.Type_ := "text_rating";
     config.StoreKey := "rating"; config.Options := [];
     config.RatingMin := lo; config.RatingMax := hi;
     config.NextButtonLabel := ""; config.FinishButtonLabel := "" |}.

(** A schema with the two sections [a] and [b]; [b] has no questions. *)
Definition schema_ab : config.RecordConfig :=
  {| config.Sections := Some (<["a" :=
         {| config.Title := "Section A";
            config.Questions := [question "q1" "P1" "text" "k1";
                                 question "q2" "P2" "text" "k2"] |}]>
       (<["b" := {| config.Title := "Section B"; config.Questions := [] |}]> ∅));
     config.Metadata := ∅ |}.

Definition user0 : state.UserState :=
  {| state.UserID := 42; state.UserName := "Tester"; state.Records := [];
     state.MainMenuFSM := StateIdle; state.RecordFSM := StateRecordIdle;
     state.CurrentRecord := None; state.CurrentSection := "";
     state.CurrentQuestion := 0; state.LastMessageID := 0;
     state.LastPrompt := botport.BotMessage_zero; state.ListOffset := 0 |}.

Definition world0 (h : gmap state.loc state.Record_) (u : state.UserState) : World :=
  {| heap := h; user := u; calls := []; ticks := 0; ranges := 0 |}.

(** The registry after [RegisterBuiltins] and the registration of the
    text_rating strategy. *)
Definition registry : gmap string questions.QuestionStrategy :=
  <["text" := questions.textStrategy (H := runtime)]>
  (<["buttons" := questions.buttonsStrategy]>
  (<["text_rating" := questions.NewTextRatingStrategy (H := runtime)]> ∅)).


(** A stand-in for the absent [showSectionSelectionMenu], for runs that do
    not reach it. *)
Definition no_menu : botport.BotPort → config.RecordConfig → Z → Z
    → option (gmap string string) → M unit :=
  λ _ _ _ _ _, ret tt.

(** A draft at location 1 and the user answering the first question of
    section [a], whose prompt is message 10; the same user in the section
    menu; a user with one saved record; a user on the second page of the
    list of records. *)
Definition w_answering : World :=
  world0 {[ 1%positive := state.NewRecord_value ]}
    (state.set_LastMessageID 10 (state.set_CurrentSection "a"
      (state.set_CurrentRecord (Some 1%positive)
        (state.set_RecordFSM StateAnsweringQuestion user0)))).

Definition w_selecting : World :=
  world0 {[ 1%positive := state.NewRecord_value ]}
    (state.set_CurrentRecord (Some 1%positive)
      (state.set_RecordFSM StateSelectingSection user0)).

Definition saved_record : state.Record_ :=
  {| state.ID := "42-1700000000000000000";
     state.Data := Some {[ "k1" := "answer 1" ]};
     state.IsSaved := true;
     state.CreatedAt := TimeAt 1700000000000000000 |}.

Definition w_saved : World :=
  world0 {[ 1%positive := saved_record ]}
    (state.set_Records [Some 1%positive] user0).

Definition w_list (offset : Z) : World :=
  world0 {[ 1%positive := saved_record ]}
    (state.set_ListOffset offset
      (state.set_MainMenuFSM StateViewingList
        (state.set_Records [Some 1%positive] user0))).

(** The port of the test of a failed forward: sends are rate limited. *)
Definition port_rate_limited : botport.BotPort :=
  port_failing (botport.SendMessage 0 "" tgbotapi.NoMarkup)
    (RateLimited "send_message" 0).

(** The port of the test of an unmodified message: edits return the error
    that [MessageNotModified] of the fake adapter makes. *)
Definition port_not_modified : botport.BotPort :=
  port_failing (botport.EditMessage 0 0 "" tgbotapi.NoMarkup)
    (MessageNotModified "edit_message").

Definition callback (data : string) (messageID : Z) : fsm.CallbackQuery :=
  {| fsm.query_ID := "cb1"; fsm.query_Data := data; fsm.query_ChatID := 42;
     fsm.query_MessageID := messageID; fsm.query_Text := "" |}.

(** The section [a] of the schema [schema_ab]; a buttons question; the
    answer context of a question of section [a] for the user of
    [w_answering]; a text input and a callback input; a message of the
    user. *)
Definition section_a : config.SectionConfig :=
  {| config.Title := "Section A";
     config.Questions := [question "q1" "P1" "text" "k1";
                          question "q2" "P2" "text" "k2"] |}.

Definition buttons_question : config.QuestionConfig :=
  {| config.ID := "q3"; config.Prompt := "Pick"; config.Type_ := "buttons";
     config.StoreKey := "k3";
     config.Options := [ {| config.Text := "Yes"; config.Value := "y" |};
                         {| config.Text := "No"; config.Value := "n" |} ];
     config.RatingMin := 0; config.RatingMax := 0;
     config.NextButtonLabel := ""; config.FinishButtonLabel := "" |}.

Definition answer_ctx (q : config.QuestionConfig) : questions.AnswerContext :=
  fsm.buildAnswerContext (user w_answering) section_a q 42 10 "cb1"
    botport.BotMessage_zero port_ok.

Definition text_input (text : string) : questions.AnswerInput :=
  {| questions.Source := questions.InputSourceText; questions.Input_Text := text;
     questions.CallbackData := ""; questions.Input_MessageID := 10 |}.

Definition callback_input (data : string) : questions.AnswerInput :=
  {| questions.Source := questions.InputSourceCallback; questions.Input_Text := "";
     questions.CallbackData := data; questions.Input_MessageID := 10 |}.

Definition message (text : string) (command : option string) : fsm.Message :=
  {| fsm.msg_ChatID := 42; fsm.msg_Text := text; fsm.msg_Command := command |}.

(** The user of [w_answering] at the last question of section [a]; a user
    without draft in the idle state. *)
Definition w_last_question : World :=
  world0 {[ 1%positive := state.NewRecord_value ]}
    (state.set_CurrentQuestion 1 (user w_answering)).

Definition w_idle : World := world0 ∅ user0.

(** An API that accepts every request; an API that answers every edit
    with the canonical not-modified error; a [json.Marshal] that fails. *)
Definition api_ok : bot.Api :=
  λ log r,
    match r with
    | bot.SendRequest chat text _ =>
        ({| bot.MessageID := 1 + len log; bot.Chat := Some chat; bot.Text := text;
            bot.Caption := "" |}, None)
    | bot.EditRequest chat id text _ =>
        ({| bot.MessageID := id; bot.Chat := Some chat; bot.Text := text;
            bot.Caption := "" |}, None)
    | bot.CallbackRequest _ _ => (bot.Message_zero, None)
    end.

Definition api_not_modified : bot.Api :=
  λ log r,
    match r with
    | bot.EditRequest _ _ _ _ => (bot.Message_zero, Some (bot.Leaf bot.notModified))
    | _ => api_ok log r
    end.

Definition no_json : option tgbotapi.InlineKeyboardMarkup → option string := λ _, None.

End testing.

(** ** Notions used in the statements *)
Module notions.
Import state.

(** What the loop of [Validate] checks of one question of the section
    [sid]: identifier, prompt and storage key are not empty, and the
    validator of the question type accepts it. *)
Definition question_ok (validator : option config.QuestionValidator)
    (sid : string) (q : config.QuestionConfig) : Prop :=
  config.ID q ≠ "" ∧ config.Prompt q ≠ "" ∧ config.StoreKey q ≠ ""
  ∧ config.validateQuestionWithStrategy validator sid q = None.

(** [w'] is [w] after more operations on the port. *)
Definition port_extends (w w' : World) : Prop := ∃ more, calls w' = calls w ++ more.

(** The operation by which [enterSelectingSection] shows the keyboard [kb]:
    an edit of the message of the event when there is one, a send
    otherwise. *)
Definition menu_call (e : fsm.Event) (kb : tgbotapi.InlineKeyboardMarkup) : botport.Call :=
  if decide (fsm.messageID (fsm.Args_ e) ≠ 0)
  then botport.EditMessage (fsm.chatID (fsm.Args_ e)) (fsm.messageID (fsm.Args_ e))
         fsm.sectionPrompt (tgbotapi.InlineKeyboardPtr kb)
  else botport.SendMessage (fsm.chatID (fsm.Args_ e)) fsm.sectionPrompt
         (tgbotapi.InlineKeyboard kb).

(** [w'] is [w] but for the data of the record at [p]: the user state, the
    port, the other records and the other fields of the record are the
    same. *)
Definition only_data_of (p : loc) (w w' : World) : Prop :=
  user w' = user w ∧ calls w' = calls w
  ∧ (∀ p', p' ≠ p → heap w' !! p' = heap w !! p')
  ∧ ID (heap w' !!! p) = ID (heap w !!! p)
  ∧ IsSaved (heap w' !!! p) = IsSaved (heap w !!! p)
  ∧ CreatedAt (heap w' !!! p) = CreatedAt (heap w !!! p).

(** From [w] to [w'] the records, the records list, the draft pointer, the
    main-menu machine, the identity of the user, the list offset and the
    clock are kept, and the port has only got more operations. *)
Definition keeps_records (w w' : World) : Prop :=
  heap w' = heap w
  ∧ Records (user w') = Records (user w)
  ∧ CurrentRecord (user w') = CurrentRecord (user w)
  ∧ MainMenuFSM (user w') = MainMenuFSM (user w)
  ∧ UserID (user w') = UserID (user w)
  ∧ UserName (user w') = UserName (user w)
  ∧ ListOffset (user w') = ListOffset (user w)
  ∧ ticks w' = ticks w
  ∧ port_extends w w'.

(** The operation by which [sendMainMenu] shows the main menu of the user
    [u]. *)
Definition mainMenuCall (u : UserState) : botport.Call :=
  botport.SendMessage (UserID u)
    (("👤 Имя: " +:+ UserName u +:+ fsm.nl +:+ "🆔 ID: " +:+ itoa (UserID u)
        +:+ fsm.nl +:+ "📊 Кол-во записей: " +:+ itoa (len (Records u)))
       +:+ fsm.nl +:+ fsm.nl +:+ "Выберите действие:")
    (tgbotapi.ReplyKeyboard
       [ [ButtonMainMenuShowRecord; ButtonMainMenuFillRecord];
         [ButtonMainMenuSendSelf; ButtonMainMenuSendTherapist] ]).

(** The user state once the input of a record is left: no section, the
    question index and the last message identifier 0. *)
Definition left_input (u : UserState) : UserState :=
  set_LastMessageID 0 (set_CurrentQuestion 0 (set_CurrentSection "" u)).

(** From [u] to [u'] either the record machine, the section and the
    question index are kept, or the machine has become idle with the
    section, the question index and the last message identifier reset. *)
Definition left_or_kept (u u' : UserState) : Prop :=
  (RecordFSM u' = RecordFSM u ∧ CurrentSection u' = CurrentSection u
   ∧ CurrentQuestion u' = CurrentQuestion u)
  ∨ (RecordFSM u' = StateRecordIdle ∧ CurrentSection u' = ""
     ∧ CurrentQuestion u' = 0 ∧ LastMessageID u' = 0).

(** The operation by which [handleMessage] removes the reply keyboard when
    the input of a record starts. *)
Definition hideCall (chatID : Z) : botport.Call :=
  botport.SendMessage chatID "Начинаем ввод/продолжение записи..."
    tgbotapi.ReplyKeyboardRemove.

(** The record [r] with the answer [v] stored under the key [k]. *)
Definition with_answer (k v : string) (r : Record_) : Record_ :=
  {| ID := ID r; Data := Some (<[k := v]> (default ∅ (Data r)));
     IsSaved := IsSaved r; CreatedAt := CreatedAt r |}.


(** The code of the [BotError] that the adapters make of the error of a
    context that is done. *)
Definition context_code (err : context.Err) : string :=
  match err with
  | context.Canceled => "context_canceled"
  | context.DeadlineExceeded => "context_deadline"
  | context.Other _ => "context_error"
  end.

(** The inline keyboard [kb] (a pointer, [None] is nil) as the markup of a
    request. *)
Definition as_pointer (kb : option tgbotapi.InlineKeyboardMarkup) : bot.ReplyMarkup :=
  match kb with
  | Some k => bot.Reply (tgbotapi.InlineKeyboardPtr k)
  | None => bot.NilInlineKeyboardPtr
  end.

(** What precedes "retry after" in the text of a rate-limit error: nothing,
    the words of the Telegram API, and these behind the prefix that the
    client puts before the error of a send. *)
Definition retryPrefixes : list string :=
  [ ""; "Too Many Requests: "; "failed to send message: Too Many Requests: " ].

End notions.
Export notions.

(** * Properties *)

Import state.

(** ** Strings and sorting *)

Lemma string_le_iff a b : string_le a b ↔ a = b ∨ String_as_OT.lt a b.
Proof.
  unfold string_le, String.leb. split.
  - destruct (String.compare a b) eqn:E; intros Hc; try discriminate.
    + left. by apply String.compare_eq_iff.
    + right. by apply String_as_OT.cmp_lt.
  - intros [-> | Hlt].
    + assert (String.compare b b = Eq) as -> by by apply String_as_OT.cmp_eq.
      done.
    + apply String_as_OT.cmp_lt in Hlt. unfold String_as_OT.cmp in Hlt.
      by rewrite Hlt.
Qed.

#[local] Instance string_le_trans : Transitive string_le.
Proof.
  intros a b c Hab Hbc. apply string_le_iff in Hab, Hbc. apply string_le_iff.
  destruct Hab as [-> | Hab], Hbc as [-> | Hbc]; eauto.
  right. eapply String_as_OT.lt_trans; eauto.
Qed.
#[local] Instance string_le_antisym : AntiSymm eq string_le.
Proof. intros a b. apply String.leb_antisym. Qed.
#[local] Instance string_le_total : Total string_le.
Proof. intros a b. apply String.leb_total. Qed.

(** [sort.Strings] forgets the order of its input. *)
Lemma sort_Strings_perm l1 l2 : l1 ≡ₚ l2 → sort_Strings l1 = sort_Strings l2.
Proof.
  intros Hp. unfold sort_Strings.
  apply (StronglySorted_unique string_le).
  - apply StronglySorted_merge_sort; apply _.
  - apply StronglySorted_merge_sort; apply _.
  - by rewrite !merge_sort_Permutation.
Qed.

Lemma fold_left_snoc {A} (l acc : list A) :
  fold_left (λ ids id, ids ++ [id]) l acc = acc ++ l.
Proof.
  revert acc. induction l as [|x l IH]; intros acc; simpl.
  - by rewrite app_nil_r.
  - rewrite IH. by rewrite <- app_assoc.
Qed.

Lemma append_dash_nonempty a b : a +:+ "-" +:+ b ≠ "".
Proof. by destruct a. Qed.

Lemma cut_colon_app q o :
  cut_colon q = None → cut_colon (q +:+ ":" +:+ o) = Some (q, o).
Proof.
  induction q as [|c q IH]; simpl; [done|].
  destruct (Ascii.eqb c ":"); [done|].
  destruct (cut_colon q) as [[a b]|] eqn:E; [done|].
  intros _. by rewrite IH.
Qed.

(** ** The text_rating strategy *)

Lemma getRatingRange_default q :
  config.RatingMin q = 0 → config.RatingMax q = 0 →
  questions.TextRatingStrategy.getRatingRange q = (1, 10).
Proof.
  intros Hmin Hmax. unfold questions.TextRatingStrategy.getRatingRange.
  by rewrite Hmin, Hmax.
Qed.

(** When both bounds are set, [Validate] accepts a question without
    options exactly when [1 <= min <= max <= 20]. *)
Lemma Validate_both_set s q :
  config.Options q = [] → config.RatingMin q ≠ 0 → config.RatingMax q ≠ 0 →
  (questions.TextRatingStrategy.Validate s q = None ↔
   1 <= config.RatingMin q ∧ config.RatingMin q <= config.RatingMax q
   ∧ config.RatingMax q <= 20).
Proof.
  intros Hopt Hmin Hmax. unfold questions.TextRatingStrategy.Validate. rewrite Hopt.
  simpl. repeat case_decide; split; intros; try discriminate; try reflexivity; lia.
Qed.

(** C8 (the code at the failing input): a question that sets [rating_min]
    to 25 and leaves [rating_max] unset is accepted by [Validate], although
    its effective range is [(25, 10)], which violates
    [1 <= min <= max <= 20]; rendering its rating buttons then panics. *)
Theorem C8_validate_accepts_min_above_max :
  let q := testing.rating_question 25 0 in
  questions.TextRatingStrategy.Validate "section1" q = None
  ∧ questions.TextRatingStrategy.getRatingRange q = (25, 10)
  ∧ ¬ (1 <= 25 ∧ 25 <= 10 ∧ 10 <= 20)
  ∧ ∀ ctx w, questions.Question ctx = q →
      questions.TextRatingStrategy.renderRatingButtons ctx w
      = Panic "makeslice: cap out of range".
Proof.
  repeat split; try reflexivity; try lia.
  intros ctx w Hq. unfold questions.TextRatingStrategy.renderRatingButtons.
  by rewrite Hq.
Qed.

(** ** The forward pipeline *)

Section forward.
Context `{GoRuntime}.
Context (targetUserID : Z).
Context (forwardTpl : fsm.forwardPayload → questions.result string).

(** [buildForwardPayload] returns for every record, reads the clock when
    the record has no timestamp, and orders the sections by their sorted
    identifiers, whatever the order of the [range] loop. *)
Lemma buildForwardPayload_spec rc p w :
  fsm.buildForwardPayload rc (Some p) w =
    Ok {| fsm.UserID := UserID (user w); fsm.UserName := UserName (user w);
          fsm.CreatedAt :=
            Format (if IsZero (CreatedAt (heap w !!! p))
                    then TimeAt (clock (ticks w)) else CreatedAt (heap w !!! p))
              "02.01.2006 15:04";
          fsm.Sections :=
            fsm.forwardSections (config.sections rc) (Data (heap w !!! p))
              (sort_Strings (config.keys (config.sections rc))) |}
       (set_ticks (if IsZero (CreatedAt (heap w !!! p)) then S (ticks w) else ticks w)
          (set_ranges (S (ranges w)) w)).
Proof.
  unfold fsm.buildForwardPayload, bind, range_keys, get_user, load, Now, ret. simpl.
  rewrite fold_left_snoc. simpl.
  rewrite (sort_Strings_perm _ _ (range_order_perm (ranges w) _)).
  destruct (IsZero (CreatedAt (heap w !!! p))); reflexivity.
Qed.

Lemma buildForwardPayload_frame rc p w payload w1 :
  fsm.buildForwardPayload rc (Some p) w = Ok payload w1 →
  heap w1 = heap w ∧ user w1 = user w ∧ calls w1 = calls w.
Proof.
  rewrite buildForwardPayload_spec. intros [= <- <-].
  by destruct (IsZero _).
Qed.

(** A forward whose send to the target fails: nothing but the port is
    touched, and the requester gets the failure notice. *)
Lemma forwardWithTarget_failed_send (port : botport.BotPort) rc chatID target
    clear req successText w record payload w1 text msg err :
  fsm.selectRecordForForward w = Ok (Some record) w →
  req && bool_decide (target = 0) = false →
  fsm.buildForwardPayload rc (Some record) w = Ok payload w1 →
  fsm.renderForwardMessage forwardTpl payload = inl text →
  strlen text ≠ 0 →
  port (calls w) (botport.SendMessage target text tgbotapi.NoMarkup) = (msg, Some err) →
  ∃ w', fsm.forwardWithTarget forwardTpl port rc chatID target clear req successText w
          = Ok tt w'
    ∧ user w' = user w ∧ heap w' = heap w
    ∧ calls w' = calls w ++
        [botport.SendMessage target text tgbotapi.NoMarkup;
         botport.SendMessage chatID "Не удалось отправить ответы, попробуйте позже."
           tgbotapi.NoMarkup].
Proof.
  intros Hsel Hreq Hbuild Hrender Hlen Hport.
  destruct (buildForwardPayload_frame _ _ _ _ _ Hbuild) as (Hh & Hu & Hc).
  unfold fsm.forwardWithTarget, bind. rewrite Hsel, Hreq, Hbuild, Hrender.
  destruct (decide (strlen text = 0)) as [|_]; [done|].
  unfold fsm.send, port_call, ret. rewrite Hc, Hport. simpl.
  eexists. split; [reflexivity|]. simpl.
  by rewrite <- app_assoc.
Qed.

(** C1: a forward to the reviewer ([self = false]) or to the requester
    ([self = true]) whose send to the target returns an error leaves the
    user state (records list, draft pointer, current section and question,
    last message and last prompt) and the records themselves as they were,
    and sends the failure notice to the requester.  The send to the target
    is reached when a record is selected, the target is configured (for the
    reviewer) and the rendered text is not empty. *)
Theorem C1_failed_forward_keeps_state (port : botport.BotPort) rc chatID (self : bool)
    w record payload w1 text msg err :
  let target := if self then chatID else targetUserID in
  let forward :=
    if self then fsm.handleForwardToSelf forwardTpl port rc chatID
    else fsm.handleForwardAnsweredSections targetUserID forwardTpl port rc chatID in
  fsm.selectRecordForForward w = Ok (Some record) w →
  (self = false → targetUserID ≠ 0) →
  fsm.buildForwardPayload rc (Some record) w = Ok payload w1 →
  fsm.renderForwardMessage forwardTpl payload = inl text →
  strlen text ≠ 0 →
  port (calls w) (botport.SendMessage target text tgbotapi.NoMarkup) = (msg, Some err) →
  ∃ w', forward w = Ok tt w'
    ∧ user w' = user w ∧ heap w' = heap w
    ∧ calls w' = calls w ++
        [botport.SendMessage target text tgbotapi.NoMarkup;
         botport.SendMessage chatID "Не удалось отправить ответы, попробуйте позже."
           tgbotapi.NoMarkup].
Proof.
  intros target forward Hsel Htarget Hbuild Hrender Hlen Hport.
  subst target forward. destruct self.
  - unfold fsm.handleForwardToSelf.
    by eapply forwardWithTarget_failed_send.
  - unfold fsm.handleForwardAnsweredSections, fsm.handleForwardToTarget.
    eapply forwardWithTarget_failed_send; eauto.
    simpl. apply bool_decide_eq_false. auto.
Qed.

(** ** Record selection *)

Lemma lastSaved_most_recent h (rs : list (option loc)) i p :
  rs !! i = Some (Some p) → IsSaved (h !!! p) = true →
  (∀ j q, (i < j)%nat → rs !! j = Some (Some q) → IsSaved (h !!! q) = false) →
  fsm.lastSaved h rs = Some p.
Proof.
  revert i. induction rs as [|r rs IH]; intros i Hi Hs Hlater; [done|].
  destruct i as [|i]; simpl in *.
  - injection Hi as ->.
    assert (fsm.lastSaved h rs = None) as ->.
    { clear IH. induction rs as [|r rs IH]; [done|]. simpl.
      rewrite IH.
      - destruct r as [q|]; [|done].
        by rewrite (Hlater 1%nat q) by (done || lia).
      - intros j q Hj Hq. destruct j as [|j]; [lia|].
        apply (Hlater (S (S j)) q); [lia|done]. }
    by rewrite Hs.
  - rewrite (IH i); [done..|].
    intros j q Hj Hq. apply (Hlater (S j) q); [lia|done].
Qed.

Lemma lastSaved_none h (rs : list (option loc)) :
  (∀ q, Some q ∈ rs → IsSaved (h !!! q) = false) → fsm.lastSaved h rs = None.
Proof.
  induction rs as [|r rs IH]; intros Hall; [done|]. simpl.
  rewrite IH.
  - destruct r as [q|]; [|done]. rewrite Hall; [done|]. apply list_elem_of_here.
  - intros q Hq. apply Hall. by apply list_elem_of_further.
Qed.

(** C3: the record selected for a forward is the saved record at the
    greatest index of the records list, when one is saved; otherwise it is
    the draft pointer (the draft, or nil); and when there is neither, the
    pipeline sends the nothing-to-send notice to the requester and stops:
    the world after it is the world before it with that one send added. *)
Theorem C3_record_selection (port : botport.BotPort) rc chatID target
    clear req successText w :
  (∀ i p, Records (user w) !! i = Some (Some p) → IsSaved (heap w !!! p) = true →
     (∀ j q, (i < j)%nat → Records (user w) !! j = Some (Some q) →
        IsSaved (heap w !!! q) = false) →
     fsm.selectRecordForForward w = Ok (Some p) w)
  ∧ ((∀ q, Some q ∈ Records (user w) → IsSaved (heap w !!! q) = false) →
     fsm.selectRecordForForward w = Ok (CurrentRecord (user w)) w)
  ∧ ((∀ q, Some q ∈ Records (user w) → IsSaved (heap w !!! q) = false) →
     CurrentRecord (user w) = None →
     fsm.forwardWithTarget forwardTpl port rc chatID target clear req successText w
     = Ok tt (set_calls (calls w ++
         [botport.SendMessage chatID "Нет ответов для отправки." tgbotapi.NoMarkup]) w)).
Proof.
  split; [|split].
  - intros i p Hi Hs Hlater. unfold fsm.selectRecordForForward.
    by rewrite (lastSaved_most_recent _ _ i p).
  - intros Hnone. unfold fsm.selectRecordForForward.
    by rewrite lastSaved_none.
  - intros Hnone Hdraft. unfold fsm.forwardWithTarget, bind, fsm.selectRecordForForward.
    rewrite lastSaved_none by done. by rewrite Hdraft.
Qed.

End forward.

(** ** The record machine and the dispatcher *)

Section dispatch.
Context `{GoRuntime}.
Context (registry : gmap string questions.QuestionStrategy).
Context (targetUserID : Z).
Context (forwardTpl : fsm.forwardPayload → questions.result string).
Context (showSectionSelectionMenu :
  botport.BotPort → config.RecordConfig → Z → Z → option (gmap string string) → M unit).

(** C2: with a draft [p], the event save_full_record fired in the state
    selecting_section succeeds; the draft becomes saved, with the clock's
    instant as its creation time and a non-empty identifier made of the
    user identifier and that instant; the pointer [p] is appended once at
    the end of the records list; the draft pointer is nil; the current
    section, the current question index and the last message identifier
    are zero; the machine is idle. *)
Theorem C2_save_record (args : fsm.Args) w p :
  RecordFSM (user w) = StateSelectingSection →
  CurrentRecord (user w) = Some p →
  ∃ w', fsm.RecordFSM_Event registry EventSaveFullRecord args w = Ok None w'
    ∧ heap w' = <[p := {| ID := itoa (UserID (user w)) +:+ "-" +:+ itoa (clock (ticks w));
                          Data := Data (heap w !!! p);
                          IsSaved := true;
                          CreatedAt := TimeAt (clock (ticks w)) |}]> (heap w)
    ∧ itoa (UserID (user w)) +:+ "-" +:+ itoa (clock (ticks w)) ≠ ""
    ∧ Records (user w') = Records (user w) ++ [Some p]
    ∧ CurrentRecord (user w') = None
    ∧ CurrentSection (user w') = ""
    ∧ CurrentQuestion (user w') = 0
    ∧ LastMessageID (user w') = 0
    ∧ RecordFSM (user w') = StateRecordIdle.
Proof.
  intros Hst Hcur.
  unfold fsm.RecordFSM_Event, fsm.fire, bind, get_user. rewrite Hst. simpl.
  unfold fsm.enterRecordIdle, bind, get_user, modify_user, ret. simpl.
  rewrite Hcur. unfold load, Now, store. simpl.
  destruct (decide (fsm.messageID args ≠ 0)); unfold fsm.send, port_call; simpl.
  - destruct (fsm.botPort args _ _) as [m [e|]]; simpl.
    + destruct (fsm.not_modified_text e); simpl;
        (eexists; split; [reflexivity|]; simpl; repeat split;
         auto using append_dash_nonempty).
    + eexists; split; [reflexivity|]; simpl; repeat split;
        auto using append_dash_nonempty.
  - eexists; split; [reflexivity|]; simpl; repeat split;
      auto using append_dash_nonempty.
Qed.

(** The decoding of a payload [<id>:<value>] whose identifier has no
    colon. *)
Lemma SplitN2_answer q o :
  cut_colon q = None → SplitN2 (q +:+ ":" +:+ o) = [q; o].
Proof. intros Hq. unfold SplitN2. by rewrite cut_colon_app. Qed.

(** C5: in the state answering_question, a callback whose data is
    [answer:] followed by a payload that decodes (by the cut at its first
    colon) into a question identifier and an option value, with a question
    identifier that is not the identifier of the current question, changes
    nothing but the port: the world after the dispatch is the world before
    it with two acknowledgements of the callback added, the empty one that
    every callback gets and the stale-button notice. *)
Theorem C5_stale_answer_callback (query : fsm.CallbackQuery) (port : botport.BotPort)
    rc w payload questionID optionValue :
  RecordFSM (user w) = StateAnsweringQuestion →
  fsm.query_Data query = "answer:" +:+ payload →
  SplitN2 payload = [questionID; optionValue] →
  questionID ≠ fsm.currentQuestionID rc (user w) →
  fsm.handleCallbackQuery registry forwardTpl showSectionSelectionMenu query port rc w
  = Ok tt (set_calls (calls w ++
      [botport.AnswerCallback (fsm.query_ID query) "";
       botport.AnswerCallback (fsm.query_ID query) "⚠️ Ответ на предыдущий вопрос?"]) w).
Proof.
  intros Hst Hdata Hsplit Hne.
  unfold fsm.handleCallbackQuery. rewrite Hdata.
  unfold bind at 1. unfold port_call at 1.
  change (SplitN2 ("answer:" +:+ payload)) with [ "answer"; payload ].
  cbn [hd nth]. change ("answer" +:+ ":") with CallbackAnswerPrefix.
  destruct (decide (CallbackAnswerPrefix = CallbackAnswerPrefix)) as [_|]; [|done].
  unfold bind, get_user. cbn [user set_calls]. rewrite Hst.
  destruct (decide (StateAnsweringQuestion = StateAnsweringQuestion)) as [_|]; [|done].
  rewrite Hsplit.
  destruct (decide (fsm.currentQuestionID rc (user w) = questionID)) as [<-|_]; [done|].
  unfold port_call, ret. simpl. by rewrite <- app_assoc.
Qed.

(** A forced exit fired by a callback is the forced exit of the machine. *)
Lemma fire_nested_force_exit args w :
  fsm.fire_nested EventForceExit args w
  = fsm.RecordFSM_Event registry EventForceExit args w.
Proof.
  unfold fsm.fire_nested, fsm.RecordFSM_Event, fsm.fire, bind, get_user.
  by destruct (RecordFSM (user w)).
Qed.

End dispatch.

(** ** Aggregation *)

Section aggregation.
Context `{GoRuntime}.

Lemma forwardQuestions_lookup data qs j q :
  qs !! j = Some q →
  fsm.forwardQuestions data qs !! j =
    Some {| fsm.Prompt := config.Prompt q;
            fsm.Answer := if decide (data_get data (config.StoreKey q) = "")
                          then "no_answer" else data_get data (config.StoreKey q) |}.
Proof.
  intros Hq. unfold fsm.forwardQuestions. by rewrite list_lookup_fmap, Hq.
Qed.

Lemma keys_lookup {A} (m : gmap string A) sid :
  sid ∈ config.keys m ↔ is_Some (m !! sid).
Proof.
  unfold config.keys. split.
  - intros Hin. apply list_elem_of_fmap in Hin as [[k v] [-> Hin]].
    apply elem_of_map_to_list in Hin. eauto.
  - intros [v Hv]. apply list_elem_of_fmap. exists (sid, v). split; [done|].
    by apply elem_of_map_to_list.
Qed.

Lemma sorted_keys_lookup {A} (m : gmap string A) i sid :
  sort_Strings (config.keys m) !! i = Some sid → is_Some (m !! sid).
Proof.
  intros Hi. apply keys_lookup.
  apply list_elem_of_lookup_2 in Hi. unfold sort_Strings in Hi.
  by rewrite merge_sort_Permutation in Hi.
Qed.

Lemma sorted_keys_length {A} (m : gmap string A) :
  length (sort_Strings (config.keys m)) = size m.
Proof.
  unfold sort_Strings, config.keys.
  rewrite merge_sort_Permutation, length_fmap. apply length_map_to_list.
Qed.

Lemma sorted_keys_elem {A} (m : gmap string A) sid :
  is_Some (m !! sid) → ∃ i, sort_Strings (config.keys m) !! i = Some sid.
Proof.
  intros Hsid. apply list_elem_of_lookup_1. unfold sort_Strings.
  rewrite merge_sort_Permutation. by apply keys_lookup.
Qed.

(** C4: the payload built for a record [p] has one section for each
    section of the schema, at the position of its identifier among the
    sorted section identifiers, with its title and with one slot for each
    of its questions in their declared order, carrying the prompt of the
    question.  A slot whose storage key is absent from the data of [p], or
    maps to the empty string there, has the answer no_answer; a slot whose
    key maps to another string has that string as its answer.  The payload
    built for any other record [p'] (the fully-answered one, say) has the
    same sections and slots, and a slot is the same in both payloads
    whenever the two records store the same value under its key. *)
Theorem C4_missing_answer_substitution rc w p w' p' :
  ∃ payload w1 payload' w1',
    fsm.buildForwardPayload rc (Some p) w = Ok payload w1
    ∧ fsm.buildForwardPayload rc (Some p') w' = Ok payload' w1'
    ∧ length (fsm.Sections payload) = size (config.sections rc)
    ∧ length (fsm.Sections payload') = size (config.sections rc)
    ∧ (∀ sid, is_Some (config.sections rc !! sid) →
         ∃ i, sort_Strings (config.keys (config.sections rc)) !! i = Some sid)
    ∧ (∀ i, is_Some (fsm.Sections payload !! i) →
         is_Some (sort_Strings (config.keys (config.sections rc)) !! i))
    ∧ ∀ i sid, sort_Strings (config.keys (config.sections rc)) !! i = Some sid →
        ∃ sec s s',
          config.sections rc !! sid = Some sec
          ∧ fsm.Sections payload !! i = Some s
          ∧ fsm.Sections payload' !! i = Some s'
          ∧ fsm.Title s = config.Title sec ∧ fsm.Title s' = config.Title sec
          ∧ length (fsm.Questions s) = length (config.Questions sec)
          ∧ length (fsm.Questions s') = length (config.Questions sec)
          ∧ ∀ j q, config.Questions sec !! j = Some q →
              ∃ fq fq',
                fsm.Questions s !! j = Some fq ∧ fsm.Questions s' !! j = Some fq'
                ∧ fsm.Prompt fq = config.Prompt q
                ∧ fsm.Prompt fq' = config.Prompt q
                ∧ (data_lookup (Data (heap w !!! p)) (config.StoreKey q) = None
                   ∨ data_lookup (Data (heap w !!! p)) (config.StoreKey q) = Some ""
                   → fsm.Answer fq = "no_answer")
                ∧ (∀ v, data_lookup (Data (heap w !!! p)) (config.StoreKey q) = Some v
                        → v ≠ "" → fsm.Answer fq = v)
                ∧ (∀ v, data_lookup (Data (heap w' !!! p')) (config.StoreKey q) = Some v
                        → v ≠ "" → fsm.Answer fq' = v)
                ∧ (data_get (Data (heap w !!! p)) (config.StoreKey q)
                   = data_get (Data (heap w' !!! p')) (config.StoreKey q)
                   → fq = fq').
Proof.
  do 4 eexists. split; [apply buildForwardPayload_spec|].
  split; [apply buildForwardPayload_spec|]. simpl.
  unfold fsm.forwardSections.
  split; [by rewrite length_map, sorted_keys_length|].
  split; [by rewrite length_map, sorted_keys_length|].
  split; [apply sorted_keys_elem|].
  split.
  { intros i [s Hs]. rewrite list_lookup_fmap in Hs.
    destruct (sort_Strings _ !! i); [eauto|done]. }
  intros i sid Hsid.
  destruct (sorted_keys_lookup _ _ _ Hsid) as [sec Hsec].
  exists sec. do 2 eexists. split; [done|].
  rewrite !list_lookup_fmap, Hsid.
  split; [reflexivity|]. split; [reflexivity|]. simpl.
  rewrite Hsec. simpl. unfold fsm.forwardQuestions at 1 2. rewrite !length_map.
  do 4 (split; [done|]).
  intros j q Hq. do 2 eexists.
  split; [by apply forwardQuestions_lookup|].
  split; [by apply forwardQuestions_lookup|]. simpl.
  split; [done|]. split; [done|]. split.
  { unfold data_get, data_lookup. intros [Hd | Hd]; rewrite Hd; simpl;
      try case_decide; done. }
  split.
  { intros v Hv Hne. unfold data_get. unfold data_lookup in Hv. rewrite Hv. simpl.
    by rewrite decide_False. }
  split.
  { intros v Hv Hne. unfold data_get. unfold data_lookup in Hv. rewrite Hv. simpl.
    by rewrite decide_False. }
  by intros ->.
Qed.

End aggregation.

(** ** Schema validation *)

Lemma validate_questions_ok validator sid i qs seen :
  (∀ q, q ∈ qs → question_ok validator sid q) →
  NoDup (config.StoreKey <$> qs) →
  (∀ q, q ∈ qs → config.StoreKey q ∉ seen) →
  config.validate_questions validator sid i qs seen
  = inr (list_to_set (config.StoreKey <$> qs) ∪ seen).
Proof.
  revert i seen. induction qs as [|q qs IH]; intros i seen Hok Hnd Hfresh; simpl.
  - f_equal. by rewrite union_empty_l_L.
  - destruct (Hok q) as (Hid & Hp & Hk & Hv); [apply list_elem_of_here|].
    repeat (case_decide; [done|]).
    case_decide as Hin; [by apply Hfresh in Hin; [|apply list_elem_of_here]|].
    rewrite Hv. apply NoDup_cons in Hnd as [Hq Hnd].
    rewrite IH.
    + f_equal. apply set_eq. intros x.
      rewrite !elem_of_union, elem_of_singleton. tauto.
    + intros q' Hq'. apply Hok. by apply list_elem_of_further.
    + done.
    + intros q' Hq'. apply not_elem_of_union. split.
      * apply not_elem_of_singleton. intros Heq. apply Hq. rewrite <- Heq.
        apply list_elem_of_fmap. eauto.
      * apply Hfresh. by apply list_elem_of_further.
Qed.

Section schema.
Context (validator : option config.QuestionValidator).
Context (secs : gmap string config.SectionConfig).
Hypothesis titles : ∀ sid sec, secs !! sid = Some sec → config.Title sec ≠ "".
Hypothesis questions_ok : ∀ sid sec q,
  secs !! sid = Some sec → q ∈ config.Questions sec → question_ok validator sid q.
Hypothesis keys_unique : ∀ sid1 sec1 i1 q1 sid2 sec2 i2 q2,
  secs !! sid1 = Some sec1 → config.Questions sec1 !! i1 = Some q1 →
  secs !! sid2 = Some sec2 → config.Questions sec2 !! i2 = Some q2 →
  config.StoreKey q1 = config.StoreKey q2 → sid1 = sid2 ∧ i1 = i2.

Lemma section_keys_NoDup sid sec :
  secs !! sid = Some sec → NoDup (config.StoreKey <$> config.Questions sec).
Proof.
  intros Hsec. apply NoDup_alt. intros i j k Hi Hj.
  rewrite list_lookup_fmap in Hi, Hj.
  destruct (config.Questions sec !! i) as [qi|] eqn:Ei; [|done].
  destruct (config.Questions sec !! j) as [qj|] eqn:Ej; [|done].
  simpl in *. injection Hi as Hi. injection Hj as Hj.
  eapply (keys_unique sid sec i qi sid sec j qj); eauto. congruence.
Qed.

(** The loop over the sections, in whatever order [it] without
    repetition: [seen] holds storage keys of sections visited before. *)
Lemma validate_sections_ok it seen :
  NoDup it →
  (∀ k, k ∈ seen → ∃ sid sec q, (sid ∉ it) ∧ (secs !! sid = Some sec)
      ∧ q ∈ config.Questions sec ∧ config.StoreKey q = k) →
  config.validate_sections validator secs it seen = None.
Proof.
  revert seen. induction it as [|sid it IH]; intros seen Hnd Hseen; [done|]. simpl.
  apply NoDup_cons in Hnd as [Hsid Hnd].
  assert (∀ k, k ∈ seen → ∃ s c q, (s ∉ it) ∧ (secs !! s = Some c)
            ∧ q ∈ config.Questions c ∧ config.StoreKey q = k) as Hseen'.
  { intros k Hk. destruct (Hseen k Hk) as (s & c & q & Hs & ?).
    exists s, c, q. split; [|done]. intros Hin. apply Hs.
    by apply list_elem_of_further. }
  destruct (secs !! sid) as [sec|] eqn:Hsec; [|by apply IH].
  case_decide as Ht.
  { by apply titles in Hsec. }
  case_decide as Hlen.
  { by apply IH. }
  rewrite validate_questions_ok.
  - apply IH; [done|]. intros k Hk. apply elem_of_union in Hk as [Hk|Hk].
    2: { by apply Hseen'. }
    apply elem_of_list_to_set, list_elem_of_fmap in Hk as (q & -> & Hq).
    by exists sid, sec, q.
  - intros q Hq. by eapply questions_ok.
  - by eapply section_keys_NoDup.
  - intros q Hq Hin. destruct (Hseen _ Hin) as (s & c & q' & Hs & Hc & Hq' & Hk).
    apply list_elem_of_lookup in Hq as [i Hi].
    apply list_elem_of_lookup in Hq' as [i' Hi'].
    destruct (keys_unique s c i' q' sid sec i q) as [-> _]; auto.
    apply Hs. apply list_elem_of_here.
Qed.

End schema.

(** ** The section menu *)

Section menu.
Context `{GoRuntime}.

Lemma sendMainMenu_ok port w :
  ∃ w', fsm.sendMainMenu port w = Ok tt w' ∧ port_extends w w'
        ∧ user w' = user w ∧ heap w' = heap w.
Proof.
  unfold fsm.sendMainMenu, bind, get_user, fsm.send, port_call, ret. simpl.
  eexists. split; [reflexivity|]. simpl. split; [|done]. by eexists.
Qed.

(** Entering the idle state never panics. *)
Lemma enterRecordIdle_ok e w :
  ∃ w', fsm.enterRecordIdle e w = Ok tt w' ∧ port_extends w w'.
Proof.
  unfold fsm.enterRecordIdle, bind, get_user, modify_user, ret, load, store, Now,
    fsm.sendMainMenu, bind, get_user, fsm.send, port_call, ret.
  destruct (fsm.Event_name e); simpl;
    repeat match goal with
    | |- context [match CurrentRecord ?u with _ => _ end] =>
        destruct (CurrentRecord u); simpl
    | |- context [decide ?P] => destruct (decide P); simpl
    | |- context [fsm.botPort ?a ?h ?c] =>
        destruct (fsm.botPort a h c) as [? [?|]]; simpl
    | |- context [fsm.not_modified_text ?x] =>
        destruct (fsm.not_modified_text x); simpl
    end;
    (eexists; split; [reflexivity|]; simpl; eexists; rewrite <- ?app_assoc;
     reflexivity).
Qed.

Lemma fire_nested_ok ev args w :
  ∃ r w', fsm.fire_nested ev args w = Ok r w' ∧ port_extends w w'.
Proof.
  unfold fsm.fire_nested, fsm.fire, bind, get_user, modify_user, ret.
  destruct (fsm.transition _ _ _) as [dst|]; simpl.
  - destruct (decide _); simpl.
    + do 2 eexists. split; [reflexivity|]. exists []. by rewrite app_nil_r.
    + unfold fsm.nested_callbacks. destruct dst.
      * match goal with |- context [fsm.enterRecordIdle ?e ?w0] =>
          destruct (enterRecordIdle_ok e w0) as (w' & -> & Hext) end.
        do 2 eexists. split; [reflexivity|]. done.
      * do 2 eexists. split; [reflexivity|]. exists []. by rewrite app_nil_r.
      * do 2 eexists. split; [reflexivity|]. exists []. by rewrite app_nil_r.
  - do 2 eexists. split; [reflexivity|]. exists []. by rewrite app_nil_r.
Qed.

(** With a schema and a draft that has data, [enterSelectingSection]
    first shows the keyboard of the sections in the order of its [range]
    loop. *)
Lemma enterSelectingSection_menu e w secs cur d :
  config.Sections (fsm.recordConfig (fsm.Args_ e)) = Some secs →
  CurrentRecord (user w) = Some cur →
  Data (heap w !!! cur) = Some d →
  ∃ w' more, fsm.enterSelectingSection e w = Ok tt w'
    ∧ calls w' = calls w ++
        menu_call e (fsm.sectionKeyboard secs (Some d)
                       (range_order (ranges w) (config.keys secs))) :: more.
Proof.
  intros Hsecs Hcur Hd.
  unfold fsm.enterSelectingSection, bind, get_user. rewrite Hsecs, Hcur.
  unfold load at 1. rewrite Hd.
  unfold fsm.getSortedSectionIDs, bind, range_keys, ret. rewrite fold_left_snoc. simpl.
  unfold menu_call.
  destruct (decide (fsm.messageID (fsm.Args_ e) ≠ 0)); unfold fsm.send, port_call; simpl.
  all: match goal with |- context [fsm.botPort ?a ?h ?c] =>
         destruct (fsm.botPort a h c) as [m [er|]] end; simpl.
  all: try destruct (fsm.not_modified_text er); simpl.
  all: try match goal with |- context [fsm.fire_nested ?ev ?a ?w0] =>
         destruct (fire_nested_ok ev a w0) as (r & w' & -> & [more Hmore]) end.
  all: unfold modify_user, ret; simpl.
  all: do 2 eexists; (split; [reflexivity|]); simpl.
  all: try (rewrite Hmore; simpl; rewrite <- app_assoc; reflexivity).
  all: reflexivity.
Qed.

(** A section without questions has its button, without the check mark,
    in the keyboard built for any order that visits it. *)
Lemma sectionKeyboard_empty_section secs data order sid sec :
  secs !! sid = Some sec → config.Questions sec = [] → sid ∈ order →
  [tgbotapi.NewInlineKeyboardButtonData (config.Title sec) ("section:" +:+ sid)]
    ∈ fsm.sectionKeyboard secs data order.
Proof.
  intros Hsec Hqs Hin. unfold fsm.sectionKeyboard, fsm.sectionRows.
  apply elem_of_app. left. apply list_elem_of_fmap. exists sid. split; [|done].
  rewrite Hsec. simpl. unfold fsm.sectionHasData. rewrite Hqs.
  by destruct data.
Qed.

(** C9: a schema with at least one section, all of whose sections have a
    title, all of whose questions pass the checks of the loop (identifier,
    prompt, storage key, strategy) and whose storage keys are unique, is
    accepted by [Validate], in whatever order the [range] loop visits the
    sections, whether or not some sections have no questions; and for every
    section [sid0] without questions, entering the section menu with that
    schema shows a keyboard in which that section has its button. *)
Theorem C9_empty_section_accepted validator rc secs it :
  config.Sections rc = Some secs →
  secs ≠ ∅ →
  it ≡ₚ config.keys secs →
  (∀ sid sec, secs !! sid = Some sec → config.Title sec ≠ "") →
  (∀ sid sec q, secs !! sid = Some sec → q ∈ config.Questions sec →
     question_ok validator sid q) →
  (∀ sid1 sec1 i1 q1 sid2 sec2 i2 q2,
     secs !! sid1 = Some sec1 → config.Questions sec1 !! i1 = Some q1 →
     secs !! sid2 = Some sec2 → config.Questions sec2 !! i2 = Some q2 →
     config.StoreKey q1 = config.StoreKey q2 → sid1 = sid2 ∧ i1 = i2) →
  config.Validate validator it (Some rc) = None
  ∧ ∀ sid0 sec0 e w cur d,
      secs !! sid0 = Some sec0 →
      config.Questions sec0 = [] →
      fsm.recordConfig (fsm.Args_ e) = rc →
      CurrentRecord (user w) = Some cur →
      Data (heap w !!! cur) = Some d →
      ∃ w' kb more,
        fsm.enterSelectingSection e w = Ok tt w'
        ∧ calls w' = calls w ++ menu_call e kb :: more
        ∧ [tgbotapi.NewInlineKeyboardButtonData (config.Title sec0) ("section:" +:+ sid0)]
            ∈ kb.
Proof.
  intros Hsecs Hne Hit Htitles Hqs Huniq. split.
  - unfold config.Validate, config.sections. rewrite Hsecs. simpl.
    case_decide as Hsize.
    { by apply map_size_empty_inv in Hsize. }
    apply (validate_sections_ok validator secs Htitles Hqs Huniq).
    + rewrite Hit. apply NoDup_fst_map_to_list.
    + intros k Hk. by apply not_elem_of_empty in Hk.
  - intros sid0 sec0 e w cur d Hsec0 Hempty Hrc Hcur Hd. subst rc.
    destruct (enterSelectingSection_menu e w secs cur d) as (w' & more & Hrun & Hcalls);
      try done.
    exists w'. do 2 eexists. split; [done|]. split; [done|].
    apply sectionKeyboard_empty_section; try done.
    rewrite range_order_perm. apply keys_lookup. eauto.
Qed.

End menu.

(** ** The list of saved records *)

Lemma int_wrap_id z : int_min <= z <= int_max → int_wrap z = z.
Proof.
  unfold int_min, int_max, int_wrap. intros Hz.
  rewrite Z.mod_small; lia.
Qed.

(** Without overflow the window lies within the saved records. *)
Lemma listWindow_bounds offset total :
  0 <= offset <= int_max - 5 → 0 < total <= int_max →
  0 <= (fsm.listWindow offset total).1
  ∧ (fsm.listWindow offset total).1 <= (fsm.listWindow offset total).2
  ∧ (fsm.listWindow offset total).2 <= total.
Proof.
  intros Hoff Htot.
  unfold fsm.listWindow, fsm.pageSize, int_add, int_mul, int_div, int_sub.
  assert (∀ z, - 2 ^ 63 <= z <= 2 ^ 63 - 1 → int_wrap z = z) as Hwrap.
  { intros z Hz. by apply int_wrap_id. }
  unfold int_max in *.
  assert (0 <= total `quot` 5 ∧ total `quot` 5 * 5 <= total) as [Hq1 Hq2].
  { split; [apply Z.quot_pos; lia|]. rewrite Z.mul_comm. apply Z.mul_quot_le; lia. }
  rewrite (Hwrap (offset + 5)) by lia.
  rewrite (Hwrap (total `quot` 5)) by lia.
  rewrite (Hwrap (total `quot` 5 * 5)) by lia.
  rewrite (Hwrap (total - 5)) by lia.
  repeat case_decide; simpl; lia.
Qed.

Section list_view.
Context `{GoRuntime}.
Context (registry : gmap string questions.QuestionStrategy).
Context (forwardTpl : fsm.forwardPayload → questions.result string).
Context (showSectionSelectionMenu :
  botport.BotPort → config.RecordConfig → Z → Z → option (gmap string string) → M unit).

Lemma savedRecordsOf_ok (rs : list (option loc)) w :
  Forall is_Some rs →
  ∃ l, fsm.savedRecordsOf rs w = Ok l w ∧ (length l <= length rs)%nat.
Proof.
  induction 1 as [|r rs [p ->] _ (l & IH & Hlen)]; simpl.
  - by exists [].
  - unfold bind, load, ret. rewrite IH.
    destruct (IsSaved _); eexists; (split; [reflexivity|]); simpl; lia.
Qed.

(** The renderer of the list returns, and leaves the offset, the records
    list and the records as they were. *)
Lemma viewListHandler_ok port chatID messageID w :
  Forall is_Some (Records (user w)) →
  len (Records (user w)) <= int_max →
  0 <= ListOffset (user w) <= int_max - 5 →
  ∃ w', fsm.viewListHandler port chatID messageID w = Ok tt w'
    ∧ ListOffset (user w') = ListOffset (user w)
    ∧ Records (user w') = Records (user w)
    ∧ heap w' = heap w.
Proof.
  intros Hnil Hlen Hoff.
  unfold fsm.viewListHandler, bind, get_user.
  destruct (savedRecordsOf_ok _ w Hnil) as (saved & -> & Hsaved).
  case_decide as Htot.
  - unfold fsm.send, port_call, ret, fsm.MainMenuFSM_Event, bind, get_user, modify_user.
    destruct (MainMenuFSM (user w)) eqn:Hm;
      destruct (decide (messageID ≠ 0)); simpl; repeat (rewrite Hm; simpl);
      eexists; (split; [reflexivity|]); done.
  - assert (0 < len saved <= int_max) as Htotal.
    { unfold len in *. lia. }
    pose proof (listWindow_bounds _ _ Hoff Htotal) as (Hs & Hse & He).
    destruct (fsm.listWindow _ _) as [start end_]. simpl in Hs, Hse, He.
    unfold int_max in *.
    case_decide as Hlt.
    + unfold int_sub. rewrite !int_wrap_id by (unfold int_min, int_max; lia).
      unfold fsm.slice. rewrite decide_True.
      2: { case_decide; lia. }
      unfold ret, fsm.send, port_call.
      destruct (decide (messageID ≠ 0)); simpl; eexists; (split; [reflexivity|]); done.
    + unfold ret, fsm.send, port_call.
      destruct (decide (messageID ≠ 0)); simpl; eexists; (split; [reflexivity|]); done.
Qed.

(** The dispatch of a navigation callback of the list, without overflow. *)
Lemma list_nav_dispatch (query : fsm.CallbackQuery) (port : botport.BotPort) rc w nav :
  fsm.query_Data query = "list_nav:" +:+ nav →
  nav = "next" ∨ nav = "back" ∨ nav = "tomenu" →
  0 <= ListOffset (user w) <= int_max - 10 →
  Forall is_Some (Records (user w)) →
  len (Records (user w)) <= int_max →
  ∃ w', fsm.handleCallbackQuery registry forwardTpl showSectionSelectionMenu query port rc w
          = Ok tt w'
    ∧ Records (user w') = Records (user w)
    ∧ ListOffset (user w') =
        (if decide (MainMenuFSM (user w) = StateViewingList) then
           if decide (nav = "next") then ListOffset (user w) + 5
           else if decide (nav = "back") then Z.max (ListOffset (user w) - 5) 0
           else ListOffset (user w)
         else ListOffset (user w)).
Proof.
  intros Hdata Hnav Hoff Hnil Hlen.
  assert (∀ z, - 2 ^ 63 <= z <= 2 ^ 63 - 1 → int_wrap z = z) as Hwrap.
  { intros z Hz. by apply int_wrap_id. }
  unfold fsm.handleCallbackQuery. rewrite Hdata.
  unfold bind at 1. unfold port_call at 1.
  change (SplitN2 ("list_nav:" +:+ nav)) with [ "list_nav"; nav ].
  cbn [hd nth]. change ("list_nav" +:+ ":") with CallbackListNavPrefix.
  destruct (decide (CallbackListNavPrefix = CallbackAnswerPrefix)); [done|].
  destruct (decide (CallbackListNavPrefix = CallbackSectionPrefix)); [done|].
  destruct (decide (CallbackListNavPrefix = CallbackActionPrefix)); [done|].
  destruct (decide (CallbackListNavPrefix = CallbackListNavPrefix)); [|done].
  unfold bind at 1. unfold get_user at 1. cbn [user set_calls].
  destruct (decide (MainMenuFSM (user w) = StateViewingList)) as [Hm|Hm].
  2: { unfold bind, port_call, ret. eexists. split; [reflexivity|]. done. }
  unfold int_max in *.
  destruct Hnav as [-> | [-> | ->]].
  - destruct (decide ("next" = "next")); [|done].
    unfold bind, modify_user.
    match goal with |- context [fsm.viewListHandler ?p ?c ?m ?w0] =>
      destruct (viewListHandler_ok p c m w0) as (w' & -> & Ho & Hr & Hh) end; simpl.
    + done.
    + done.
    + unfold int_add. rewrite Hwrap by lia. unfold int_max. lia.
    + eexists. split; [reflexivity|]. rewrite Hr, Ho. simpl.
      unfold int_add. rewrite Hwrap by lia. done.
  - destruct (decide ("back" = "next")); [done|].
    destruct (decide ("back" = "back")); [|done].
    unfold bind, modify_user.
    match goal with |- context [fsm.viewListHandler ?p ?c ?m ?w0] =>
      destruct (viewListHandler_ok p c m w0) as (w' & -> & Ho & Hr & Hh) end; simpl.
    + done.
    + done.
    + unfold int_sub. rewrite Hwrap by lia. unfold int_max. case_decide; lia.
    + eexists. split; [reflexivity|]. rewrite Hr, Ho. simpl.
      unfold int_sub. rewrite Hwrap by lia. split; [done|].
      destruct (decide (ListOffset (user w) - 5 < 0)); lia.
  - destruct (decide ("tomenu" = "next")); [done|].
    destruct (decide ("tomenu" = "back")); [done|].
    destruct (decide ("tomenu" = "tomenu")); [|done].
    unfold bind, fsm.MainMenuFSM_Event, bind, get_user, modify_user, ret, port_call,
      fsm.sendMainMenu, bind, get_user, fsm.send, port_call, ret.
    simpl. rewrite Hm. simpl.
    eexists. split; [reflexivity|]. done.
Qed.

(** C10, amended: when the offset is between 0 and the largest [int] minus
    10, the records list has no nil entry and its length is an [int], the
    dispatch of a navigation callback of the list (next, back or tomenu)
    returns with an offset that is still at least 0; the back action in the
    list state sets it to [max (offset - 5) 0]; and the window that the
    renderer derives from the new offset and a non-empty list of saved
    records satisfies [0 <= start <= end <= number of saved records]. *)
Theorem C10_list_offset_nonnegative (query : fsm.CallbackQuery)
    (port : botport.BotPort) rc w nav :
  fsm.query_Data query = "list_nav:" +:+ nav →
  nav = "next" ∨ nav = "back" ∨ nav = "tomenu" →
  0 <= ListOffset (user w) <= int_max - 10 →
  Forall is_Some (Records (user w)) →
  len (Records (user w)) <= int_max →
  ∃ w', fsm.handleCallbackQuery registry forwardTpl showSectionSelectionMenu query port rc w
          = Ok tt w'
    ∧ 0 <= ListOffset (user w')
    ∧ (MainMenuFSM (user w) = StateViewingList → nav = "back" →
       ListOffset (user w') = Z.max (ListOffset (user w) - 5) 0)
    ∧ ∀ saved w'', fsm.savedRecordsOf (Records (user w')) w' = Ok saved w'' →
        saved ≠ [] →
        0 <= (fsm.listWindow (ListOffset (user w')) (len saved)).1
        ∧ (fsm.listWindow (ListOffset (user w')) (len saved)).1
          <= (fsm.listWindow (ListOffset (user w')) (len saved)).2
        ∧ (fsm.listWindow (ListOffset (user w')) (len saved)).2 <= len saved.
Proof.
  intros Hdata Hnav Hoff Hnil Hlen.
  destruct (list_nav_dispatch query port rc w nav) as (w' & Hrun & Hrec & Hnew); try done.
  exists w'. split; [done|].
  assert (0 <= ListOffset (user w') <= int_max - 5) as Hoff'.
  { rewrite Hnew. unfold int_max in *. repeat case_decide; lia. }
  split; [lia|]. split.
  - intros Hm ->. rewrite Hnew. rewrite decide_True by done.
    rewrite decide_False by done. by rewrite decide_True by done.
  - intros saved w'' Hsaved Hne.
    destruct (savedRecordsOf_ok (Records (user w')) w') as (l & Hl & Hlen').
    { by rewrite Hrec. }
    rewrite Hl in Hsaved. injection Hsaved as -> _.
    apply listWindow_bounds; [done|].
    rewrite Hrec in Hlen'. unfold len in *.
    destruct saved; [done|]. simpl in *. lia.
Qed.

End list_view.

(** ** The engine at concrete inputs *)

(** C6 (the code at the failing input): for the schema with the sections
    [a] and [b] and one draft, [enterSelectingSection] run twice builds the
    keyboard first with [a] before [b] and then with [b] before [a]:
    [getSortedSectionIDs] returns the keys in the order of its [range]
    loop, which the runtime is free to change from one loop to the next.
    The forward aggregation of the same schema puts section [a] first in
    both worlds. *)
Theorem C6_section_order_follows_range_order :
  let e := {| fsm.Event_name := EventStartRecord; fsm.Src := StateRecordIdle;
              fsm.Dst := StateSelectingSection;
              fsm.Args_ := fsm.mkArgs testing.port_ok testing.schema_ab 42 0 |} in
  let buttons (c : botport.Call) : list (list string) :=
    match c with
    | botport.SendMessage _ _ (tgbotapi.InlineKeyboard kb) =>
        List.map (List.map tgbotapi.CallbackData) kb
    | _ => []
    end in
  ∃ w1 w2 p1 w3 p2 w4,
    fsm.enterSelectingSection (H := testing.runtime) e testing.w_selecting = Ok tt w1
    ∧ fsm.enterSelectingSection (H := testing.runtime) e w1 = Ok tt w2
    ∧ heap w1 = heap testing.w_selecting
    ∧ CurrentRecord (user w1) = CurrentRecord (user testing.w_selecting)
    ∧ buttons <$> calls w2 =
        [ [["section:a"]; ["section:b"]; ["action:save_record"; "action:exit_menu"]];
          [["section:b"]; ["section:a"]; ["action:save_record"; "action:exit_menu"]] ]
    ∧ fsm.buildForwardPayload (H := testing.runtime) testing.schema_ab (Some 1%positive)
        testing.w_selecting = Ok p1 w3
    ∧ fsm.buildForwardPayload (H := testing.runtime) testing.schema_ab (Some 1%positive)
        w1 = Ok p2 w4
    ∧ fsm.Title <$> fsm.Sections p1 = ["Section A"; "Section B"]
    ∧ fsm.Title <$> fsm.Sections p2 = ["Section A"; "Section B"].
Proof.
  intros e buttons. do 6 eexists.
  split; [vm_compute; reflexivity|].
  split; [vm_compute; reflexivity|].
  split; [vm_compute; reflexivity|].
  split; [vm_compute; reflexivity|].
  split; [vm_compute; reflexivity|].
  split; [vm_compute; reflexivity|].
  split; [vm_compute; reflexivity|].
  split; vm_compute; reflexivity.
Qed.

(** C7 (the code at the failing input): the edit returns the port's
    message-not-modified error as the fake adapter makes it (code
    [message_not_modified], nothing wrapped).  [askCurrentQuestion], which
    looks at the code, keeps the last message identifier 10 and stays in
    answering_question.  [enterSelectingSection], which looks for the text
    "message is not modified" in the message of the error, does not find it
    there: entering the section menu by cancel_section fires force_exit,
    the machine ends idle, the last message identifier is 0, and the
    requester gets the error notice. *)
Theorem C7_section_menu_treats_not_modified_as_failure :
  let err := testing.MessageNotModified "edit_message" in
  botport.IsCode (Some err) "message_not_modified" = true
  ∧ fsm.not_modified_text err = false
  ∧ (∃ w', fsm.askCurrentQuestion (H := testing.runtime) testing.registry
             testing.port_not_modified testing.schema_ab 10 testing.w_answering
           = Ok tt w'
       ∧ LastMessageID (user w') = 10
       ∧ botport.MessageID (LastPrompt (user w')) = 10
       ∧ RecordFSM (user w') = StateAnsweringQuestion)
  ∧ ∃ w', fsm.RecordFSM_Event (H := testing.runtime) testing.registry EventCancelSection
            (fsm.mkArgs testing.port_not_modified testing.schema_ab 42 10)
            testing.w_answering
          = Ok None w'
      ∧ LastMessageID (user w') = 0
      ∧ RecordFSM (user w') = StateRecordIdle
      ∧ calls w' !! 1%nat = Some (botport.SendMessage 42
          "⚠️ Произошла ошибка (error displaying section menu). Ввод прерван. Черновик сохранен."
          tgbotapi.NoMarkup).
Proof.
  intros err. split; [reflexivity|]. split; [reflexivity|]. split.
  - eexists. split; [vm_compute; reflexivity|].
    repeat split; vm_compute; reflexivity.
  - eexists. split; [vm_compute; reflexivity|].
    repeat split; vm_compute; reflexivity.
Qed.

(** C10 (counterexample): with the offset at the largest [int], which is
    not negative, the next action makes the offset negative. *)
Lemma C10_offset_overflows :
  ∃ w', 0 <= ListOffset (user (testing.w_list int_max))
    ∧ fsm.handleCallbackQuery (H := testing.runtime) testing.registry
        fsm.forwardTpl_Execute testing.no_menu (testing.callback "list_nav:next" 7)
        testing.port_ok testing.schema_ab (testing.w_list int_max) = Ok tt w'
    ∧ ListOffset (user w') < 0.
Proof.
  eexists. split; [by vm_compute|].
  split; [vm_compute; reflexivity|]. by vm_compute.
Qed.

(** ** The prompt of a question that is not modified *)

Section prompt.
Context `{GoRuntime}.
Context (registry : gmap string questions.QuestionStrategy).

(** When the strategy renders a prompt that may be edited, the edit is
    attempted with the last message identifier and the port returns the
    error of code [message_not_modified], [askCurrentQuestion] stores that
    identifier again, with a prompt handle for it, and touches no machine. *)
Lemma askCurrentQuestion_not_modified (port : botport.BotPort) rc messageIDToEdit w
    sectionConf question strategy prompt w1 msg err :
  config.sections rc !! CurrentSection (user w) = Some sectionConf →
  0 <= CurrentQuestion (user w) < len (config.Questions sectionConf) →
  config.Questions sectionConf !! Z.to_nat (CurrentQuestion (user w)) = Some question →
  questions.Get registry (config.Type_ question) = Some strategy →
  questions.Render strategy
    {| questions.Bot := port;
       questions.LastPrompt := LastPrompt (user w);
       questions.ChatID := UserID (user w);
       questions.MessageID := messageIDToEdit;
       questions.Rec := CurrentRecord (user w);
       questions.SectionID := CurrentSection (user w);
       questions.Section_ := sectionConf;
       questions.Question := question;
       questions.CallbackPrefix := CallbackAnswerPrefix |} w = Ok (inl prompt) w1 →
  questions.ForceNew prompt = false →
  LastMessageID (user w) ≠ 0 →
  messageIDToEdit = 0 ∨ messageIDToEdit = LastMessageID (user w) →
  port (calls w1)
    (botport.EditMessage (UserID (user w1)) (LastMessageID (user w))
       (questions.Text prompt)
       (tgbotapi.InlineKeyboardPtr (default [] (questions.Keyboard prompt)
                                      ++ [fsm.cancelRow])))
    = (msg, Some err) →
  botport.IsCode (Some err) "message_not_modified" = true →
  ∃ w', fsm.askCurrentQuestion registry port rc messageIDToEdit w = Ok tt w'
    ∧ LastMessageID (user w') = LastMessageID (user w)
    ∧ botport.MessageID (LastPrompt (user w')) = LastMessageID (user w)
    ∧ botport.ChatID (LastPrompt (user w')) = UserID (user w1)
    ∧ RecordFSM (user w') = RecordFSM (user w1)
    ∧ CurrentRecord (user w') = CurrentRecord (user w1)
    ∧ heap w' = heap w1.
Proof.
  intros Hsec Hidx Hq Hstrat Hrender Hforce Hlast Hedit Hport Hcode.
  unfold fsm.askCurrentQuestion, bind, get_user. rewrite Hsec.
  rewrite decide_False by lia. rewrite Hq, Hstrat, Hrender, Hforce.
  assert ((if bool_decide (messageIDToEdit = 0) && bool_decide (LastMessageID (user w) ≠ 0)
              && negb false then LastMessageID (user w) else messageIDToEdit)
          = LastMessageID (user w)) as Heff.
  { destruct Hedit as [-> | ->]; repeat case_bool_decide; simpl; congruence. }
  assert ((if bool_decide (messageIDToEdit = 0) && bool_decide (LastMessageID (user w) ≠ 0)
              && negb false then true
           else bool_decide (messageIDToEdit ≠ 0) && negb false) = true) as His.
  { destruct Hedit as [-> | ->]; repeat case_bool_decide; simpl; congruence. }
  rewrite Heff, His. rewrite bool_decide_eq_true_2 by done. simpl.
  unfold port_call. rewrite Hport. simpl in Hcode |- *. rewrite Hcode.
  unfold modify_user. simpl. eexists. split; [reflexivity|]. done.
Qed.

End prompt.

(** ** The theorems at concrete inputs *)

(** The forward to the reviewer 777 of the saved record of user 42 on a
    port whose sends are rate limited (C1). *)
Lemma C1_witness :
  ∃ w', fsm.handleForwardAnsweredSections (H := testing.runtime) 777
          fsm.forwardTpl_Execute testing.port_rate_limited testing.schema_ab 42
          testing.w_saved = Ok tt w'
    ∧ user w' = user testing.w_saved ∧ heap w' = heap testing.w_saved.
Proof.
  edestruct (C1_failed_forward_keeps_state (H := testing.runtime) 777
               fsm.forwardTpl_Execute testing.port_rate_limited testing.schema_ab 42
               false testing.w_saved)
    as (w' & Hrun & Hu & Hh & Hc).
  - vm_compute. reflexivity.
  - intros _. lia.
  - vm_compute. reflexivity.
  - vm_compute. reflexivity.
  - vm_compute. discriminate.
  - vm_compute. reflexivity.
  - exists w'. auto.
Defined.

(** Saving the draft of user 42 from the section menu (C2). *)
Lemma C2_witness :
  ∃ w', fsm.RecordFSM_Event (H := testing.runtime) testing.registry EventSaveFullRecord
          (fsm.mkArgs testing.port_ok testing.schema_ab 42 7) testing.w_selecting
        = Ok None w'
    ∧ Records (user w') = [Some 1%positive]
    ∧ CurrentRecord (user w') = None.
Proof.
  destruct (C2_save_record (H := testing.runtime) testing.registry
              (fsm.mkArgs testing.port_ok testing.schema_ab 42 7) testing.w_selecting
              1%positive)
    as (w' & Hrun & _ & _ & Hrec & Hcur & _); [reflexivity..|].
  exists w'. auto.
Defined.

(** The selection among the records of a user with one saved record (C3). *)
Lemma C3_witness :
  fsm.selectRecordForForward testing.w_saved = Ok (Some 1%positive) testing.w_saved.
Proof.
  apply (proj1 (C3_record_selection (H := testing.runtime) fsm.forwardTpl_Execute
                  testing.port_ok testing.schema_ab 42 777 false true (λ _, "")
                  testing.w_saved)
           0%nat 1%positive).
  - reflexivity.
  - reflexivity.
  - intros j q Hj Hq. destruct j; [lia|]. done.
Defined.

(** A button of question [q2] pressed while [q1] is asked (C5). *)
Lemma C5_witness :
  fsm.handleCallbackQuery (H := testing.runtime) testing.registry fsm.forwardTpl_Execute
    testing.no_menu (testing.callback "answer:q2:tb" 10) testing.port_ok
    testing.schema_ab testing.w_answering
  = Ok tt (set_calls
      [botport.AnswerCallback "cb1" "";
       botport.AnswerCallback "cb1" "⚠️ Ответ на предыдущий вопрос?"]
      testing.w_answering).
Proof.
  apply (C5_stale_answer_callback (H := testing.runtime) testing.registry
           fsm.forwardTpl_Execute testing.no_menu (testing.callback "answer:q2:tb" 10)
           testing.port_ok testing.schema_ab testing.w_answering "q2:tb" "q2" "tb").
  - reflexivity.
  - reflexivity.
  - reflexivity.
  - vm_compute. discriminate.
Defined.

(** Case analysis on a lookup in the schema with the sections [a] and [b]. *)
Ltac schema_ab_cases H :=
  apply lookup_insert_Some in H as [[<- <-]|[_ H]];
  [|apply lookup_insert_Some in H as [[<- <-]|[_ H]];
    [|by rewrite lookup_empty in H]].

(** The schema with the sections [a] and [b], of which [b] has no
    questions, validated in the order [b], [a] (C9). *)
Lemma C9_witness :
  config.Validate None ["b"; "a"] (Some testing.schema_ab) = None.
Proof.
  eapply (C9_empty_section_accepted (H := testing.runtime) None testing.schema_ab _
            ["b"; "a"]).
  - reflexivity.
  - intros Hempty. apply (f_equal (λ m, m !! "b")) in Hempty. by vm_compute in Hempty.
  - vm_compute. apply perm_swap.
  - intros sid sec Hsec. schema_ab_cases Hsec; done.
  - intros sid sec q Hsec Hq. schema_ab_cases Hsec; simpl in Hq.
    + repeat (apply elem_of_cons in Hq as [->|Hq]); [by vm_compute..|].
      by apply elem_of_nil in Hq.
    + by apply elem_of_nil in Hq.
  - intros sid1 sec1 i1 q1 sid2 sec2 i2 q2 Hs1 Hq1 Hs2 Hq2 Hk.
    schema_ab_cases Hs1; schema_ab_cases Hs2; simpl in Hq1, Hq2;
      try done;
      destruct i1 as [|[|i1]], i2 as [|[|i2]]; simpl in *; try done;
      injection Hq1 as <-; injection Hq2 as <-; done.
Defined.

(** The back action on the second page of the list (C10). *)
Lemma C10_witness :
  ∃ w', fsm.handleCallbackQuery (H := testing.runtime) testing.registry
          fsm.forwardTpl_Execute testing.no_menu (testing.callback "list_nav:back" 7)
          testing.port_ok testing.schema_ab (testing.w_list 5) = Ok tt w'
    ∧ ListOffset (user w') = 0.
Proof.
  destruct (C10_list_offset_nonnegative (H := testing.runtime) testing.registry
              fsm.forwardTpl_Execute testing.no_menu (testing.callback "list_nav:back" 7)
              testing.port_ok testing.schema_ab (testing.w_list 5) "back")
    as (w' & Hrun & _ & Hback & _).
  - reflexivity.
  - right. left. reflexivity.
  - vm_compute. split; discriminate.
  - repeat constructor. by eexists.
  - vm_compute. discriminate.
  - exists w'. split; [done|]. by rewrite Hback.
Defined.

(** * Further properties of the engine and of the adapters *)


(** ** The schema that [Validate] accepts *)

Lemma validate_questions_inv validator sid i qs seen seen' :
  config.validate_questions validator sid i qs seen = inr seen' →
  (∀ q, q ∈ qs → question_ok validator sid q ∧ config.StoreKey q ∉ seen)
  ∧ NoDup (config.StoreKey <$> qs)
  ∧ seen' = list_to_set (config.StoreKey <$> qs) ∪ seen.
Proof.
  revert i seen. induction qs as [|q qs IH]; intros i seen; simpl.
  - intros [= <-]. split; [intros q Hq; by apply elem_of_nil in Hq|].
    split; [constructor|]. by rewrite union_empty_l_L.
  - repeat (case_decide; [discriminate|]).
    destruct (config.validateQuestionWithStrategy validator sid q) eqn:Hv; [discriminate|].
    intros Hrest. apply IH in Hrest as (Hall & Hnd & ->).
    split; [|split].
    + intros q' Hq'. apply elem_of_cons in Hq' as [->|Hq'].
      * done.
      * destruct (Hall q' Hq') as [Hok Hfresh]. split; [done|].
        intros Hin. apply Hfresh. apply elem_of_union. by right.
    + constructor; [|done]. intros Hin.
      apply list_elem_of_fmap in Hin as (q' & Hk & Hq').
      destruct (Hall q' Hq') as [_ Hfresh]. apply Hfresh.
      apply elem_of_union. left. apply elem_of_singleton. done.
    + apply set_eq. intros x. rewrite !elem_of_union, elem_of_singleton. tauto.
Qed.

Lemma validate_sections_inv validator secs it seen :
  config.validate_sections validator secs it seen = None →
  NoDup it →
  (∀ sid sec, sid ∈ it → secs !! sid = Some sec →
     config.Title sec ≠ ""
     ∧ ∀ q, q ∈ config.Questions sec →
         question_ok validator sid q ∧ config.StoreKey q ∉ seen)
  ∧ (∀ sid1 sec1 i1 q1 sid2 sec2 i2 q2,
       sid1 ∈ it → sid2 ∈ it →
       secs !! sid1 = Some sec1 → config.Questions sec1 !! i1 = Some q1 →
       secs !! sid2 = Some sec2 → config.Questions sec2 !! i2 = Some q2 →
       config.StoreKey q1 = config.StoreKey q2 → sid1 = sid2 ∧ i1 = i2).
Proof.
  revert seen. induction it as [|sid it IH]; intros seen Hrun Hnd.
  { split; intros; exfalso; eapply elem_of_nil; eauto. }
  apply NoDup_cons in Hnd as [Hsid Hnd]. simpl in Hrun.
  destruct (secs !! sid) as [sec|] eqn:Hsec.
  2: { destruct (IH _ Hrun Hnd) as [IH1 IH2]. split.
       - intros s c Hin Hc. apply elem_of_cons in Hin as [->|Hin]; [congruence|eauto].
       - intros s1 c1 i1 q1 s2 c2 i2 q2 Hin1 Hin2 Hc1 Hq1 Hc2 Hq2.
         apply elem_of_cons in Hin1 as [->|Hin1]; [congruence|].
         apply elem_of_cons in Hin2 as [->|Hin2]; [congruence|]. eauto. }
  case_decide as Ht; [discriminate|].
  case_decide as Hlen.
  { assert (config.Questions sec = []) as Hnil.
    { destruct (config.Questions sec); [done|]. unfold len in Hlen. simpl in Hlen. lia. }
    destruct (IH _ Hrun Hnd) as [IH1 IH2]. split.
    - intros s c Hin Hc. apply elem_of_cons in Hin as [->|Hin]; [|eauto].
      assert (c = sec) as -> by congruence. split; [done|].
      intros q Hq. rewrite Hnil in Hq. by apply elem_of_nil in Hq.
    - intros s1 c1 i1 q1 s2 c2 i2 q2 Hin1 Hin2 Hc1 Hq1 Hc2 Hq2.
      apply elem_of_cons in Hin1 as [->|Hin1].
      { assert (c1 = sec) as -> by congruence. by rewrite Hnil in Hq1. }
      apply elem_of_cons in Hin2 as [->|Hin2].
      { assert (c2 = sec) as -> by congruence. by rewrite Hnil in Hq2. }
      eauto. }
  destruct (config.validate_questions _ _ _ _ _) as [|seen1] eqn:Hqs; [discriminate|].
  apply validate_questions_inv in Hqs as (Hall & Hkeys & ->).
  destruct (IH _ Hrun Hnd) as [IH1 IH2].
  assert (∀ c i q, secs !! sid = Some c → config.Questions c !! i = Some q →
            config.StoreKey q ∈ (list_to_set (config.StoreKey <$> config.Questions sec)
                                   : gset string)) as Hmine.
  { intros c i q Hc Hq. assert (c = sec) as -> by congruence.
    apply elem_of_list_to_set, list_elem_of_fmap. exists q. split; [done|].
    by eapply list_elem_of_lookup_2. }
  assert (∀ s c i q, s ∈ it → secs !! s = Some c → config.Questions c !! i = Some q →
            config.StoreKey q ∉ (list_to_set (config.StoreKey <$> config.Questions sec)
                                   : gset string)) as Hother.
  { intros s c i q Hin Hc Hq Hk. destruct (IH1 s c Hin Hc) as [_ Hfresh].
    destruct (Hfresh q) as [_ Hf]; [by eapply list_elem_of_lookup_2|].
    apply Hf. apply elem_of_union. by left. }
  split.
  - intros s c Hin Hc. apply elem_of_cons in Hin as [->|Hin].
    + assert (c = sec) as -> by congruence. split; [done|]. apply Hall.
    + destruct (IH1 s c Hin Hc) as [Htitle Hfresh]. split; [done|].
      intros q Hq. destruct (Hfresh q Hq) as [Hok Hf]. split; [done|].
      intros Hk. apply Hf. apply elem_of_union. by right.
  - intros s1 c1 i1 q1 s2 c2 i2 q2 Hin1 Hin2 Hc1 Hq1 Hc2 Hq2 Hk.
    apply elem_of_cons in Hin1 as [->|Hin1]; apply elem_of_cons in Hin2 as [->|Hin2].
    + split; [done|]. assert (c1 = sec) as -> by congruence.
      assert (c2 = sec) as -> by congruence.
      eapply (NoDup_lookup _ i1 i2 (config.StoreKey q1)); [exact Hkeys|..].
      * by rewrite list_lookup_fmap, Hq1.
      * rewrite list_lookup_fmap, Hq2. simpl. by rewrite Hk.
    + exfalso. eapply Hother; eauto. rewrite <- Hk. eauto.
    + exfalso. eapply Hother; eauto. rewrite Hk. eauto.
    + eauto.
Qed.

(** X1: a schema that [Validate] accepts, in whatever order its [range]
    loop visits the sections, has at least one section; every section has
    a title; every question has an identifier, a prompt and a storage key
    and passes the validator of its type; and no storage key occurs twice
    in the schema, within a section or across sections. *)
Theorem X1_Validate_sound validator it rc :
  it ≡ₚ config.keys (config.sections rc) →
  config.Validate validator it (Some rc) = None →
  config.sections rc ≠ ∅
  ∧ (∀ sid sec, config.sections rc !! sid = Some sec →
       config.Title sec ≠ ""
       ∧ ∀ q, q ∈ config.Questions sec → question_ok validator sid q)
  ∧ (∀ sid1 sec1 i1 q1 sid2 sec2 i2 q2,
       config.sections rc !! sid1 = Some sec1 → config.Questions sec1 !! i1 = Some q1 →
       config.sections rc !! sid2 = Some sec2 → config.Questions sec2 !! i2 = Some q2 →
       config.StoreKey q1 = config.StoreKey q2 → sid1 = sid2 ∧ i1 = i2).
Proof.
  intros Hit Hrun. unfold config.Validate in Hrun.
  case_decide as Hsize; [discriminate|].
  assert (NoDup it) as Hnd.
  { rewrite Hit. apply NoDup_fst_map_to_list. }
  assert (∀ sid sec, config.sections rc !! sid = Some sec → sid ∈ it) as Hin.
  { intros sid sec Hsec. rewrite Hit. apply keys_lookup. eauto. }
  destruct (validate_sections_inv _ _ _ _ Hrun Hnd) as [H1 H2].
  split; [|split].
  - intros Hempty. apply Hsize. rewrite Hempty. apply map_size_empty.
  - intros sid sec Hsec. destruct (H1 sid sec (Hin _ _ Hsec) Hsec) as [Ht Hq].
    split; [done|]. intros q Hqin. by destruct (Hq q Hqin).
  - intros s1 c1 i1 q1 s2 c2 i2 q2 Hc1 Hq1 Hc2 Hq2. eapply H2; eauto.
Qed.

(** X2: whether [Validate] accepts a schema does not depend on the order
    in which its [range] loop visits the sections: accepted in one order,
    the schema is accepted in every order. *)
Theorem X2_Validate_order_independent validator it1 it2 rc :
  it1 ≡ₚ config.keys (config.sections rc) →
  it2 ≡ₚ config.keys (config.sections rc) →
  config.Validate validator it1 (Some rc) = None →
  config.Validate validator it2 (Some rc) = None.
Proof.
  intros Hit1 Hit2 Hrun.
  assert (NoDup it1) as Hnd1 by (rewrite Hit1; apply NoDup_fst_map_to_list).
  assert (NoDup it2) as Hnd2 by (rewrite Hit2; apply NoDup_fst_map_to_list).
  unfold config.Validate in *.
  case_decide as Hsize; [discriminate|].
  destruct (validate_sections_inv _ _ _ _ Hrun Hnd1) as [H1 H2].
  assert (∀ sid sec, config.sections rc !! sid = Some sec → sid ∈ it1) as Hin.
  { intros sid sec Hsec. rewrite Hit1. apply keys_lookup. eauto. }
  apply validate_sections_ok.
  - intros sid sec Hsec. by destruct (H1 sid sec (Hin _ _ Hsec) Hsec).
  - intros sid sec q Hsec Hq. destruct (H1 sid sec (Hin _ _ Hsec) Hsec) as [_ Hall].
    by destruct (Hall q Hq).
  - intros s1 c1 i1 q1 s2 c2 i2 q2 Hc1 Hq1 Hc2 Hq2. eapply H2; eauto.
  - done.
  - intros k Hk. by apply not_elem_of_empty in Hk.
Qed.

(** ** The registry of strategies *)

Section registry_props.
Context `{GoRuntime}.

(** X3: after [MustRegister] has registered a strategy, [Get] returns it
    for every name that normalizes (lower case, trimmed) to the normalized
    name of the strategy; the other names resolve as before; and
    registering another strategy whose name normalizes to the same key is
    refused ([None] is the panic of [MustRegister]). *)
Theorem X3_MustRegister_Get strategy registry registry' :
  questions.MustRegister strategy registry = Some registry' →
  (∀ name, questions.normalize name = questions.normalize (questions.Name strategy) →
     questions.Get registry' name = Some strategy)
  ∧ (∀ name, questions.normalize name ≠ questions.normalize (questions.Name strategy) →
       questions.Get registry' name = questions.Get registry name)
  ∧ (∀ other, questions.normalize (questions.Name other)
              = questions.normalize (questions.Name strategy) →
       questions.MustRegister other registry' = None).
Proof.
  unfold questions.MustRegister, questions.Get.
  destruct (registry !! _) eqn:Hfree; [discriminate|]. intros [= <-].
  split; [|split].
  - intros name ->. apply lookup_insert_eq.
  - intros name Hne. by apply lookup_insert_ne.
  - intros other ->. by rewrite lookup_insert_eq.
Qed.

End registry_props.

(** ** The question strategies *)

Lemma only_data_of_refl p w : only_data_of p w w.
Proof. by repeat split. Qed.

Lemma only_data_of_trans p w1 w2 w3 :
  only_data_of p w1 w2 → only_data_of p w2 w3 → only_data_of p w1 w3.
Proof.
  intros (Hu & Hc & Hh & Hi & Hs & Ht) (Hu' & Hc' & Hh' & Hi' & Hs' & Ht').
  repeat split; try congruence. intros p' Hp'. rewrite Hh' by done. by apply Hh.
Qed.

Lemma only_data_of_store p w d :
  only_data_of p w
    (set_heap (<[p := {| ID := ID (heap w !!! p); Data := d;
                         IsSaved := IsSaved (heap w !!! p);
                         CreatedAt := CreatedAt (heap w !!! p) |}]> (heap w)) w).
Proof.
  repeat split; simpl; try by rewrite lookup_total_insert_eq.
  intros p' Hp'. by apply lookup_insert_ne.
Qed.

Section strategy_props.
Context `{GoRuntime}.

(** Writing a key of the data of a record. *)
Lemma data_set_spec p k v w d :
  Data (heap w !!! p) = Some d →
  questions.data_set p k v w =
    Ok tt (set_heap (<[p := {| ID := ID (heap w !!! p); Data := Some (<[k := v]> d);
                               IsSaved := IsSaved (heap w !!! p);
                               CreatedAt := CreatedAt (heap w !!! p) |}]> (heap w)) w).
Proof. intros Hd. unfold questions.data_set, bind, load, store. by rewrite Hd. Qed.

(** X4: the text strategy, given a text input and a draft [p]: an input
    that is empty once trimmed changes nothing and asks again with the
    empty-text notice; any other input is stored, trimmed, under the
    storage key of the question, the other keys of the draft, its other
    fields, the other records, the user state and the port are left as
    they were, and the result tells the engine to advance. *)
Theorem X4_text_answer_stored (ctx : questions.AnswerContext) (input : questions.AnswerInput)
    p w :
  questions.Rec (questions.Render_ctx ctx) = Some p →
  questions.Source input = questions.InputSourceText →
  let key := config.StoreKey (questions.Question (questions.Render_ctx ctx)) in
  let value := TrimSpace (questions.Input_Text input) in
  (value = "" →
     questions.HandleAnswer questions.textStrategy ctx input w
     = Ok (inl {| questions.Advance := false; questions.Repeat := true;
                  questions.Feedback := "Текст не должен быть пустым, попробуйте ещё раз." |}) w)
  ∧ (value ≠ "" →
     ∃ w', questions.HandleAnswer questions.textStrategy ctx input w
           = Ok (inl {| questions.Advance := true; questions.Repeat := false;
                        questions.Feedback := "" |}) w'
       ∧ data_lookup (Data (heap w' !!! p)) key = Some value
       ∧ (∀ k, k ≠ key →
            data_lookup (Data (heap w' !!! p)) k = data_lookup (Data (heap w !!! p)) k)
       ∧ ID (heap w' !!! p) = ID (heap w !!! p)
       ∧ IsSaved (heap w' !!! p) = IsSaved (heap w !!! p)
       ∧ CreatedAt (heap w' !!! p) = CreatedAt (heap w !!! p)
       ∧ (∀ p', p' ≠ p → heap w' !! p' = heap w !! p')
       ∧ user w' = user w ∧ calls w' = calls w).
Proof.
  intros Hrec Hsrc key value. subst key value. simpl.
  rewrite decide_False by (intros Hne; by apply Hne).
  split.
  - intros Hempty. by rewrite decide_True.
  - intros Hvalue. rewrite decide_False by done.
    unfold bind, questions.ensureRecord. rewrite Hrec.
    unfold bind, load, store, ret.
    destruct (Data (heap w !!! p)) as [d|] eqn:Hd; simpl.
    + erewrite data_set_spec by done. simpl.
      eexists. split; [reflexivity|]. simpl. rewrite lookup_total_insert_eq. simpl.
      unfold data_lookup. simpl.
      split; [apply lookup_insert_eq|].
      split; [intros k Hk; by apply lookup_insert_ne|].
      repeat (split; [done|]).
      split; [|done]. intros p' Hp'. by apply lookup_insert_ne.
    + erewrite data_set_spec by (simpl; by rewrite lookup_total_insert_eq). simpl.
      eexists. split; [reflexivity|]. simpl. rewrite !lookup_total_insert_eq. simpl.
      unfold data_lookup. simpl.
      split; [apply lookup_insert_eq|].
      split; [intros k Hk; by rewrite lookup_insert_ne|].
      repeat (split; [done|]).
      split; [|done]. intros p' Hp'. by rewrite !lookup_insert_ne.
Qed.

Lemma findOption_Some question value opt :
  questions.findOption question value = Some opt →
  opt ∈ config.Options question ∧ config.Value opt = value.
Proof.
  unfold questions.findOption. intros Hf. apply find_some in Hf as [Hin Hv].
  split; [by apply list_elem_of_In|]. by apply bool_decide_eq_true in Hv.
Qed.

Lemma findOption_is_Some question opt :
  opt ∈ config.Options question →
  is_Some (questions.findOption question (config.Value opt)).
Proof.
  unfold questions.findOption. intros Hin.
  destruct (find _ _) eqn:Hf; [eauto|].
  apply list_elem_of_In in Hin. eapply find_none in Hf; [|exact Hin].
  simpl in Hf. by apply bool_decide_eq_false in Hf.
Qed.

(** X5: the buttons strategy with a draft [p] never fails and never
    touches the user state, the port or another record.  Its result tells
    the engine to advance exactly when the input is a callback whose value
    is the value of one of the options of the question.  Then that value
    is what is stored under the storage key of the question, the other
    keys being unchanged, and there is no notice.  Otherwise nothing at all
    has changed and the question is repeated, with the notice to use the
    buttons for an input that is no callback, and the notice that the
    option is no longer available for a callback of another value. *)
Theorem X5_buttons_answer_is_an_option (ctx : questions.AnswerContext)
    (input : questions.AnswerInput) p w :
  questions.Rec (questions.Render_ctx ctx) = Some p →
  let question := questions.Question (questions.Render_ctx ctx) in
  ∃ result w',
    questions.HandleAnswer questions.buttonsStrategy ctx input w = Ok (inl result) w'
    ∧ user w' = user w ∧ calls w' = calls w
    ∧ (∀ p', p' ≠ p → heap w' !! p' = heap w !! p')
    ∧ (questions.Advance result = true ↔
         questions.Source input = questions.InputSourceCallback
         ∧ ∃ opt, opt ∈ config.Options question
                  ∧ config.Value opt = questions.CallbackData input)
    ∧ if questions.Advance result then
        questions.Source input = questions.InputSourceCallback
        ∧ (∃ opt, opt ∈ config.Options question
                  ∧ config.Value opt = questions.CallbackData input)
        ∧ data_lookup (Data (heap w' !!! p)) (config.StoreKey question)
          = Some (questions.CallbackData input)
        ∧ (∀ k, k ≠ config.StoreKey question →
             data_lookup (Data (heap w' !!! p)) k = data_lookup (Data (heap w !!! p)) k)
        ∧ questions.Repeat result = false ∧ questions.Feedback result = ""
      else w' = w ∧ questions.Repeat result = true
           ∧ questions.Feedback result =
               if decide (questions.Source input = questions.InputSourceCallback)
               then "Выбранный вариант больше недоступен. Попробуйте снова."
               else "Пожалуйста, выберите ответ с помощью кнопок ниже.".
Proof.
  intros Hrec question. subst question. simpl.
  destruct (decide (questions.Source input ≠ questions.InputSourceCallback)) as [Hsrc|Hsrc].
  { do 2 eexists. split; [reflexivity|]. simpl. do 3 (split; [done|]).
    split; [split; [done|by intros [? _]]|].
    rewrite decide_False by done. done. }
  assert (questions.Source input = questions.InputSourceCallback) as Hsrc'.
  { destruct (decide (questions.Source input = questions.InputSourceCallback));
      [done|by exfalso; apply Hsrc]. }
  destruct (questions.findOption _ _) as [opt|] eqn:Hopt.
  2: { do 2 eexists. split; [reflexivity|]. simpl. do 3 (split; [done|]).
       split; [|by rewrite decide_True by done].
       split; [done|]. intros [_ (opt & Hin & Hval)].
       destruct (findOption_is_Some _ _ Hin) as [o Ho].
       rewrite Hval in Ho. congruence. }
  apply findOption_Some in Hopt as [Hin Hval].
  unfold bind, questions.ensureRecord. rewrite Hrec.
  unfold bind, load, store, ret.
  destruct (Data (heap w !!! p)) as [d|] eqn:Hd; simpl.
  - erewrite data_set_spec by done. simpl.
    do 2 eexists. split; [reflexivity|]. simpl. rewrite lookup_total_insert_eq. simpl.
    split; [done|]. split; [done|].
    split; [intros p' Hp'; by apply lookup_insert_ne|].
    split; [split; [eauto|done]|].
    split; [done|]. split; [eauto|]. unfold data_lookup. simpl. rewrite Hval.
    split; [apply lookup_insert_eq|].
    split; [|done]. intros k Hk. by apply lookup_insert_ne.
  - erewrite data_set_spec by (simpl; by rewrite lookup_total_insert_eq). simpl.
    do 2 eexists. split; [reflexivity|]. simpl. rewrite !lookup_total_insert_eq. simpl.
    split; [done|]. split; [done|].
    split; [intros p' Hp'; by rewrite !lookup_insert_ne|].
    split; [split; [eauto|done]|].
    split; [done|]. split; [eauto|]. unfold data_lookup. simpl. rewrite Hval.
    split; [apply lookup_insert_eq|].
    split; [|done]. intros k Hk. by rewrite lookup_insert_ne.
Qed.

(** X6: what the buttons strategy renders is read back by the dispatcher
    of callbacks.  For a question whose identifier has no colon, rendered
    with the prefix [answer:], every option has a row with one button
    labelled with the text of the option; the data of the button splits at
    its first colon into [answer] and a payload; the payload splits into
    the identifier of the question and the value of the option; and
    [findOption] finds an option for that value. *)
Theorem X6_buttons_render_roundtrip (ctx : questions.RenderContext) w opt :
  questions.CallbackPrefix ctx = CallbackAnswerPrefix →
  cut_colon (config.ID (questions.Question ctx)) = None →
  opt ∈ config.Options (questions.Question ctx) →
  ∃ prompt kb data payload,
    questions.Render questions.buttonsStrategy ctx w = Ok (inl prompt) w
    ∧ questions.Keyboard prompt = Some kb
    ∧ [tgbotapi.NewInlineKeyboardButtonData (config.Text opt) data] ∈ kb
    ∧ SplitN2 data = ["answer"; payload]
    ∧ SplitN2 payload = [config.ID (questions.Question ctx); config.Value opt]
    ∧ is_Some (questions.findOption (questions.Question ctx) (config.Value opt)).
Proof.
  intros Hprefix Hid Hopt. simpl. do 4 eexists.
  split; [reflexivity|]. simpl. split; [reflexivity|].
  split.
  { apply list_elem_of_fmap. exists opt. split; [reflexivity|done]. }
  rewrite Hprefix.
  split; [reflexivity|].
  split; [by apply SplitN2_answer|].
  by apply findOption_is_Some.
Qed.

(** Writing and deleting a key of the data of a record change its data
    only. *)
Lemma data_set_ok p k v w d :
  Data (heap w !!! p) = Some d →
  ∃ w', questions.data_set p k v w = Ok tt w'
    ∧ Data (heap w' !!! p) = Some (<[k := v]> d) ∧ only_data_of p w w'.
Proof.
  intros Hd. rewrite (data_set_spec _ _ _ _ d Hd). eexists. split; [reflexivity|].
  split; [simpl; by rewrite lookup_total_insert_eq|]. apply only_data_of_store.
Qed.

Lemma data_delete_ok p k w d :
  Data (heap w !!! p) = Some d →
  ∃ w', questions.data_delete p k w = Ok tt w'
    ∧ Data (heap w' !!! p) = Some (delete k d) ∧ only_data_of p w w'.
Proof.
  intros Hd. unfold questions.data_delete, bind, load, store. rewrite Hd.
  eexists. split; [reflexivity|].
  split; [simpl; by rewrite lookup_total_insert_eq|]. apply only_data_of_store.
Qed.

Lemma ensureRecord_ok (ctx : questions.RenderContext) p w :
  questions.Rec ctx = Some p →
  ∃ w', questions.ensureRecord ctx w = Ok (inl p) w'
    ∧ Data (heap w' !!! p) = Some (default ∅ (Data (heap w !!! p)))
    ∧ only_data_of p w w'.
Proof.
  intros Hrec. unfold questions.ensureRecord, bind, load, store, ret. rewrite Hrec.
  destruct (Data (heap w !!! p)) as [d|] eqn:Hd; simpl.
  - eexists. split; [reflexivity|]. split; [done|]. apply only_data_of_refl.
  - eexists. split; [reflexivity|].
    split; [simpl; by rewrite lookup_total_insert_eq|]. apply only_data_of_store.
Qed.

Lemma rows_of_5_spec {A} fuel (l : list A) :
  (length l ≤ fuel)%nat →
  concat (questions.TextRatingStrategy.rows_of_5 fuel l) = l
  ∧ Forall (λ row, (0 < length row ≤ 5)%nat) (questions.TextRatingStrategy.rows_of_5 fuel l).
Proof.
  revert l. induction fuel as [|fuel IH]; intros l Hlen.
  { destruct l; [|simpl in Hlen; lia]. by split. }
  destruct l as [|x l]; [by split|].
  change (questions.TextRatingStrategy.rows_of_5 (S fuel) (x :: l))
    with (take 5 (x :: l) :: questions.TextRatingStrategy.rows_of_5 fuel (drop 5 (x :: l))).
  destruct (IH (drop 5 (x :: l))) as [IH1 IH2].
  { rewrite length_drop. simpl in *. lia. }
  split.
  - etransitivity; [|apply (take_drop 5)]. cbn [concat]. by rewrite IH1.
  - constructor; [|done]. rewrite length_take. cbn [length]. lia.
Qed.

(** The capacity check of [make] in [renderRatingButtons]: when the
    difference of the bounds does not wrap around, the call panics exactly
    when the number of ratings is negative or their buttons take more than
    [maxAlloc] bytes. *)
Lemma renderRatingButtons_panics (ctx : questions.RenderContext) w lo hi :
  questions.TextRatingStrategy.getRatingRange (questions.Question ctx) = (lo, hi) →
  int_min <= hi - lo < int_max →
  (questions.TextRatingStrategy.renderRatingButtons ctx w
     = Panic "makeslice: cap out of range"
   ↔ hi - lo + 1 < 0 ∨ maxAlloc < tgbotapi.sizeof_InlineKeyboardButton * (hi - lo + 1)).
Proof.
  intros Hrange Hspan.
  unfold questions.TextRatingStrategy.renderRatingButtons.
  rewrite Hrange. unfold int_add, int_sub.
  rewrite (int_wrap_id (hi - lo)) by (unfold int_min, int_max in *; lia).
  rewrite (int_wrap_id (hi - lo + 1)) by (unfold int_min, int_max in *; lia).
  case_decide as Hcap; unfold cap_out_of_range in Hcap; split; try done.
Qed.

(** X7: for a rating range [lo..hi] within the limits that [Validate]
    sets, [1 <= lo <= hi <= 20], [renderRatingButtons] returns the prompt
    "Оцените от lo до hi:" and a keyboard whose buttons, read row after
    row, are the ratings [lo], ..., [hi] in order, one button for each,
    labelled with the number and carrying the data prefix, question
    identifier, colon, number; no row is empty or has more than five
    buttons; and the number on every button is a rating that
    [isValidRating] accepts, provided that scanning the decimal numeral of
    a rating of the range gives the rating back. *)
Theorem X7_rating_keyboard (ctx : questions.RenderContext) w lo hi :
  questions.TextRatingStrategy.getRatingRange (questions.Question ctx) = (lo, hi) →
  1 <= lo → lo <= hi → hi <= 20 →
  (∀ i, lo <= i <= hi → Sscanf_d (itoa i) = Some i) →
  ∃ kb,
    questions.TextRatingStrategy.renderRatingButtons ctx w
    = Ok (inl {| questions.Text :=
                   "Оцените от " +:+ itoa lo +:+ " до " +:+ itoa hi +:+ ":";
                 questions.Keyboard := Some kb;
                 questions.ForceNew := false |}) w
    ∧ concat kb =
        (λ i, tgbotapi.NewInlineKeyboardButtonData (itoa i)
                (questions.CallbackPrefix ctx +:+ config.ID (questions.Question ctx)
                   +:+ ":" +:+ itoa i)) <$> seqZ lo (hi - lo + 1)
    ∧ length (concat kb) = Z.to_nat (hi - lo + 1)
    ∧ Forall (λ row, (0 < length row ≤ 5)%nat) kb
    ∧ ∀ button, button ∈ concat kb →
        questions.TextRatingStrategy.isValidRating (questions.Question ctx)
          (tgbotapi.Text button) = true.
Proof.
  intros Hrange Hlo Hspan Hhi Hscan.
  unfold questions.TextRatingStrategy.renderRatingButtons.
  rewrite Hrange. unfold int_add, int_sub.
  rewrite (int_wrap_id (hi - lo)) by (unfold int_min, int_max in *; lia).
  rewrite (int_wrap_id (hi - lo + 1)) by (unfold int_min, int_max in *; lia).
  rewrite decide_False
    by (unfold cap_out_of_range, maxAlloc, tgbotapi.sizeof_InlineKeyboardButton; lia).
  eexists. split; [reflexivity|].
  match goal with |- context [questions.TextRatingStrategy.rows_of_5 ?n ?l] =>
    destruct (rows_of_5_spec n l) as [Hc Hr]; [done|] end.
  split; [exact Hc|].
  split; [rewrite Hc, length_fmap, length_seqZ; reflexivity|].
  split; [exact Hr|].
  intros button Hin. rewrite Hc in Hin.
  apply list_elem_of_fmap in Hin as (i & -> & Hi).
  apply elem_of_seqZ in Hi.
  unfold questions.TextRatingStrategy.isValidRating. rewrite Hrange.
  cbn [tgbotapi.Text tgbotapi.NewInlineKeyboardButtonData].
  rewrite Hscan by lia.
  apply andb_true_intro. split; apply bool_decide_eq_true; lia.
Qed.

Import questions.TextRatingStrategy.

Lemma data_get_ensure (d : option (gmap string string)) k :
  data_get (Some (default ∅ d)) k = data_get d k.
Proof. by destruct d. Qed.

Lemma currentStep_ensure (r r' : Record_) k :
  Data r' = Some (default ∅ (Data r)) → currentStep r' k = currentStep r k.
Proof. intros Hd. unfold currentStep. by rewrite Hd, data_get_ensure. Qed.

Lemma temp_keys_distinct id :
  getStepKey id ≠ getTempTextKey id ∧ getStepKey id ≠ getTempRatingKey id
  ∧ getTempTextKey id ≠ getTempRatingKey id.
Proof. repeat split; discriminate. Qed.

Section flow.
Context (ctx : questions.AnswerContext) (p : loc).
Hypothesis Hrec : questions.Rec (questions.Render_ctx ctx) = Some p.
Let question := questions.Question (questions.Render_ctx ctx).
Let sk := getStepKey (config.ID question).
Let tk := getTempTextKey (config.ID question).
Let rk := getTempRatingKey (config.ID question).

Lemma step_text (input : questions.AnswerInput) w :
  currentStep (heap w !!! p) sk = stepCollectText →
  questions.Source input = questions.InputSourceText →
  TrimSpace (questions.Input_Text input) ≠ "" →
  ∃ w', HandleAnswer ctx input w
        = Ok (inl {| questions.Advance := false; questions.Repeat := true;
                     questions.Feedback := "" |}) w'
    ∧ Data (heap w' !!! p)
      = Some (<[sk := stepCollectRating]>
                (<[tk := TrimSpace (questions.Input_Text input)]>
                   (default ∅ (Data (heap w !!! p)))))
    ∧ only_data_of p w w'.
Proof.
  intros Hstep Hsrc Htext. unfold HandleAnswer, bind.
  destruct (ensureRecord_ok _ p w Hrec) as (w0 & -> & Hd0 & Hf0).
  unfold load. fold question. fold sk.
  rewrite (currentStep_ensure (heap w !!! p)) by done. rewrite Hstep.
  rewrite decide_True by done.
  unfold handleTextInput. rewrite decide_False by (by rewrite Hsrc; intros Hn; apply Hn).
  rewrite decide_False by done. unfold bind. fold question. fold tk.
  destruct (data_set_ok p tk (TrimSpace (questions.Input_Text input)) w0 _ Hd0)
    as (w1 & -> & Hd1 & Hf1).
  destruct (data_set_ok p sk stepCollectRating w1 _ Hd1) as (w2 & -> & Hd2 & Hf2).
  eexists. split; [reflexivity|]. split; [done|].
  eauto using only_data_of_trans.
Qed.

Lemma step_rating (input : questions.AnswerInput) w :
  currentStep (heap w !!! p) sk = stepCollectRating →
  questions.Source input = questions.InputSourceCallback →
  isValidRating question (questions.CallbackData input) = true →
  ∃ w', HandleAnswer ctx input w
        = Ok (inl {| questions.Advance := false; questions.Repeat := true;
                     questions.Feedback := "" |}) w'
    ∧ Data (heap w' !!! p)
      = Some (<[sk := stepNextOrFinish]>
                (<[rk := questions.CallbackData input]>
                   (default ∅ (Data (heap w !!! p)))))
    ∧ only_data_of p w w'.
Proof.
  intros Hstep Hsrc Hvalid. unfold HandleAnswer, bind.
  destruct (ensureRecord_ok _ p w Hrec) as (w0 & -> & Hd0 & Hf0).
  unfold load. fold question. fold sk.
  rewrite (currentStep_ensure (heap w !!! p)) by done. rewrite Hstep.
  rewrite decide_False by done. rewrite decide_True by done.
  unfold handleRatingInput. rewrite decide_False by (by rewrite Hsrc; intros Hn; apply Hn).
  fold question. rewrite Hvalid. change (negb true) with false. cbv beta iota.
  unfold bind. fold rk.
  destruct (data_set_ok p rk (questions.CallbackData input) w0 _ Hd0)
    as (w1 & -> & Hd1 & Hf1).
  destruct (data_set_ok p sk stepNextOrFinish w1 _ Hd1) as (w2 & -> & Hd2 & Hf2).
  eexists. split; [reflexivity|]. split; [done|].
  eauto using only_data_of_trans.
Qed.

Lemma step_next_finish (input : questions.AnswerInput) w :
  let d := Data (heap w !!! p) in
  let action := questions.CallbackData input in
  let entry := formatEntry (data_get d tk) (data_get d rk) in
  let existing := data_get d (config.StoreKey question) in
  let stored :=
    <[config.StoreKey question :=
        if decide (existing ≠ "") then existing +:+ questions.nl +:+ entry else entry]>
      (default ∅ d) in
  let cleaned := delete rk (delete tk (delete sk stored)) in
  currentStep (heap w !!! p) sk = stepNextOrFinish →
  questions.Source input = questions.InputSourceCallback →
  action = "next" ∨ action = "finish" →
  data_get d tk ≠ "" → data_get d rk ≠ "" →
  ∃ w', HandleAnswer ctx input w
        = Ok (inl {| questions.Advance := bool_decide (action = "finish");
                     questions.Repeat := bool_decide (action = "next");
                     questions.Feedback := "" |}) w'
    ∧ Data (heap w' !!! p)
      = Some (if decide (action = "next") then <[sk := stepCollectText]> cleaned
              else cleaned)
    ∧ only_data_of p w w'.
Proof.
  intros d action entry existing stored cleaned Hstep Hsrc Haction Htext Hrating.
  unfold HandleAnswer, bind.
  destruct (ensureRecord_ok _ p w Hrec) as (w0 & -> & Hd0 & Hf0).
  unfold load. fold question. fold sk.
  rewrite (currentStep_ensure (heap w !!! p)) by done. rewrite Hstep.
  rewrite decide_False by done. rewrite decide_False by done. rewrite decide_True by done.
  unfold handleNextFinishInput.
  rewrite decide_False by (by rewrite Hsrc; intros Hn; apply Hn).
  fold action. rewrite decide_False by (destruct Haction as [-> | ->]; intros [? ?]; done).
  fold question. fold tk. fold rk. unfold bind, load. rewrite Hd0.
  rewrite !data_get_ensure. fold d.
  rewrite decide_False by (intros [?|?]; done).
  fold entry. fold existing.
  assert (∃ w1, (if decide (existing ≠ "")
                 then questions.data_set p (config.StoreKey question)
                        (existing +:+ questions.nl +:+ entry)
                 else questions.data_set p (config.StoreKey question) entry) w0 = Ok tt w1
                ∧ Data (heap w1 !!! p) = Some stored ∧ only_data_of p w0 w1)
    as (w1 & -> & Hd1 & Hf1).
  { subst stored. destruct (decide (existing ≠ "")); by apply data_set_ok. }
  destruct (data_delete_ok p sk w1 _ Hd1) as (w2 & -> & Hd2 & Hf2).
  destruct (data_delete_ok p tk w2 _ Hd2) as (w3 & -> & Hd3 & Hf3).
  destruct (data_delete_ok p rk w3 _ Hd3) as (w4 & -> & Hd4 & Hf4).
  assert (only_data_of p w w4) as Hf by eauto using only_data_of_trans.
  destruct Haction as [Ha | Ha]; rewrite Ha.
  - rewrite decide_True by done. rewrite decide_True by done.
    destruct (data_set_ok p sk stepCollectText w4 _ Hd4) as (w5 & -> & Hd5 & Hf5).
    eexists. split; [reflexivity|]. split; [done|]. eauto using only_data_of_trans.
  - rewrite decide_False by done. rewrite decide_False by done.
    eexists. split; [reflexivity|]. done.
Qed.

End flow.

(** X8: one round of the text_rating strategy on a draft [p] whose step
    for the question is the first one (or absent): a non-empty text, then a
    valid rating pressed on the keyboard, then the button [next] or
    [finish].  The three calls succeed; the first two repeat the question;
    the third repeats it for [next] and advances for [finish].  Afterwards
    the storage key holds the entry made of the text and the rating,
    appended on a new line to what the key held before when that was not
    empty; the temporary keys of the text and of the rating are gone; the
    step key is back to the first step for [next] and gone for [finish];
    every other key of the draft, the other fields of the draft, the other
    records, the user state and the port are unchanged.  The storage key is
    assumed to differ from the three bookkeeping keys of the question. *)
Theorem X8_text_rating_flow (ctx : questions.AnswerContext) p w
    (in1 in2 in3 : questions.AnswerInput) :
  let question := questions.Question (questions.Render_ctx ctx) in
  let key := config.StoreKey question in
  let sk := getStepKey (config.ID question) in
  let tk := getTempTextKey (config.ID question) in
  let rk := getTempRatingKey (config.ID question) in
  let d := Data (heap w !!! p) in
  let text := TrimSpace (questions.Input_Text in1) in
  let rating := questions.CallbackData in2 in
  let action := questions.CallbackData in3 in
  let entry := formatEntry text rating in
  questions.Rec (questions.Render_ctx ctx) = Some p →
  currentStep (heap w !!! p) sk = stepCollectText →
  key ≠ sk → key ≠ tk → key ≠ rk →
  questions.Source in1 = questions.InputSourceText → text ≠ "" →
  questions.Source in2 = questions.InputSourceCallback →
  rating ≠ "" → isValidRating question rating = true →
  questions.Source in3 = questions.InputSourceCallback →
  action = "next" ∨ action = "finish" →
  ∃ r1 w1 r2 w2 r3 w3,
    HandleAnswer ctx in1 w = Ok (inl r1) w1
    ∧ HandleAnswer ctx in2 w1 = Ok (inl r2) w2
    ∧ HandleAnswer ctx in3 w2 = Ok (inl r3) w3
    ∧ questions.Advance r1 = false ∧ questions.Repeat r1 = true
    ∧ questions.Advance r2 = false ∧ questions.Repeat r2 = true
    ∧ questions.Advance r3 = bool_decide (action = "finish")
    ∧ questions.Repeat r3 = bool_decide (action = "next")
    ∧ data_lookup (Data (heap w3 !!! p)) key
      = Some (if decide (data_get d key ≠ "")
              then data_get d key +:+ questions.nl +:+ entry else entry)
    ∧ data_lookup (Data (heap w3 !!! p)) tk = None
    ∧ data_lookup (Data (heap w3 !!! p)) rk = None
    ∧ data_lookup (Data (heap w3 !!! p)) sk
      = (if decide (action = "next") then Some stepCollectText else None)
    ∧ (∀ k, k ≠ key → k ≠ sk → k ≠ tk → k ≠ rk →
         data_lookup (Data (heap w3 !!! p)) k = data_lookup d k)
    ∧ only_data_of p w w3.
Proof.
  intros question key sk tk rk d text rating action entry
    Hrec Hstep Hsk Htk Hrk Hs1 Htext Hs2 Hrating Hvalid Hs3 Haction.
  destruct (temp_keys_distinct (config.ID question)) as (Hst & Hsr & Htr).
  fold sk tk rk in Hst, Hsr, Htr.
  destruct (step_text ctx p Hrec in1 w) as (w1 & Hrun1 & Hd1 & Hf1); try done.
  destruct (step_rating ctx p Hrec in2 w1) as (w2 & Hrun2 & Hd2 & Hf2); try done.
  { fold question sk tk. unfold currentStep. rewrite Hd1. unfold data_get. simpl.
    fold question sk tk. by rewrite lookup_insert_eq. }
  fold question sk tk rk text rating in Hd1, Hd2. fold d in Hd1. rewrite Hd1 in Hd2.
  simpl in Hd2.
  assert (data_get (Data (heap w2 !!! p)) tk = text) as Hgt.
  { rewrite Hd2. unfold data_get. simpl.
    rewrite lookup_insert_ne by done. rewrite lookup_insert_ne by done.
    rewrite lookup_insert_ne by done. by rewrite lookup_insert_eq. }
  assert (data_get (Data (heap w2 !!! p)) rk = rating) as Hgr.
  { rewrite Hd2. unfold data_get. simpl.
    rewrite lookup_insert_ne by done. by rewrite lookup_insert_eq. }
  assert (data_get (Data (heap w2 !!! p)) key = data_get d key) as Hgk.
  { rewrite Hd2. unfold data_get. simpl.
    by rewrite !lookup_insert_ne by done. }
  destruct (step_next_finish ctx p Hrec in3 w2) as (w3 & Hrun3 & Hd3 & Hf3); try done.
  { fold question sk. unfold currentStep. rewrite Hd2. unfold data_get. simpl.
    by rewrite lookup_insert_eq. }
  { fold question tk. by rewrite Hgt. }
  { fold question rk. by rewrite Hgr. }
  fold question sk tk rk key action in Hd3. rewrite Hgt, Hgr, Hgk in Hd3. fold entry in Hd3.
  do 6 eexists. split; [exact Hrun1|]. split; [exact Hrun2|]. split; [exact Hrun3|].
  simpl. do 6 (split; [done|]).
  rewrite Hd3, Hd2. unfold data_lookup. simpl.
  assert (only_data_of p w w3) as Hf by eauto using only_data_of_trans.
  assert (sk ≠ key ∧ tk ≠ key ∧ rk ≠ key ∧ tk ≠ sk ∧ rk ≠ sk ∧ rk ≠ tk)
    as (? & ? & ? & ? & ? & ?) by (repeat split; congruence).
  refine (conj _ (conj _ (conj _ (conj _ (conj _ Hf)))));
    destruct (decide (action = "next")); simpl;
    try (intros k Hk1 Hk2 Hk3 Hk4);
    repeat first
      [ rewrite lookup_insert_eq | rewrite lookup_delete_eq
      | rewrite lookup_insert_ne by congruence
      | rewrite lookup_delete_ne by congruence ];
    try done; by destruct d.
Qed.

End strategy_props.

(** ** The forward handlers *)

Section forward_props.
Context `{GoRuntime}.
Context (targetUserID : Z).
Context (forwardTpl : fsm.forwardPayload → questions.result string).

Lemma selectRecordForForward_frame w :
  ∃ r, fsm.selectRecordForForward w = Ok r w.
Proof. unfold fsm.selectRecordForForward. destruct (fsm.lastSaved _ _); eauto. Qed.

Lemma forwardWithTarget_no_clear (port : botport.BotPort) rc chatID target req
    successText w :
  ∃ w', fsm.forwardWithTarget forwardTpl port rc chatID target false req successText w
        = Ok tt w'
    ∧ user w' = user w ∧ heap w' = heap w ∧ port_extends w w'.
Proof.
  unfold fsm.forwardWithTarget, bind.
  destruct (selectRecordForForward_frame w) as [r ->].
  destruct r as [p|].
  2: { unfold fsm.send, port_call, ret. eexists. split; [reflexivity|]. simpl.
       split; [done|]. split; [done|]. by eexists. }
  destruct (req && bool_decide (target = 0)).
  { unfold fsm.send, port_call, ret. eexists. split; [reflexivity|]. simpl.
    split; [done|]. split; [done|]. by eexists. }
  rewrite buildForwardPayload_spec.
  destruct (fsm.renderForwardMessage _ _) as [text|err].
  2: { unfold fsm.send, port_call, ret. eexists. split; [reflexivity|]. simpl.
       destruct (IsZero _); simpl; (split; [done|]); (split; [done|]); by eexists. }
  destruct (decide (strlen text = 0)).
  { unfold fsm.send, port_call, ret. eexists. split; [reflexivity|]. simpl.
    destruct (IsZero _); simpl; (split; [done|]); (split; [done|]); by eexists. }
  unfold fsm.send, port_call, ret. simpl.
  destruct (port _ _) as [msg [err|]]; simpl.
  - eexists. split; [reflexivity|]. simpl.
    destruct (IsZero _); simpl; (split; [done|]); (split; [done|]);
      eexists; by rewrite <- app_assoc.
  - eexists. split; [reflexivity|]. simpl.
    destruct (IsZero _); simpl; (split; [done|]); (split; [done|]);
      eexists; by rewrite <- app_assoc.
Qed.

(** X9: the two forward handlers that the main menu reaches,
    [handleForwardToSelf] and [handleForwardAnsweredSections], never panic
    and never change the user state or any record, whatever the port
    answers; they only perform operations on the port. *)
Theorem X9_forward_handlers_keep_state (port : botport.BotPort) rc chatID w :
  (∃ w', fsm.handleForwardToSelf forwardTpl port rc chatID w = Ok tt w'
     ∧ user w' = user w ∧ heap w' = heap w ∧ port_extends w w')
  ∧ (∃ w', fsm.handleForwardAnsweredSections targetUserID forwardTpl port rc chatID w
           = Ok tt w'
       ∧ user w' = user w ∧ heap w' = heap w ∧ port_extends w w').
Proof.
  split.
  - apply forwardWithTarget_no_clear.
  - apply forwardWithTarget_no_clear.
Qed.

Lemma List_filter_sublist {A} (f : A → bool) (l : list A) :
  List.filter f l `sublist_of` l.
Proof.
  induction l as [|x l IH]; simpl; [done|].
  destruct (f x); by constructor.
Qed.

(** X10: a forward by [handleForwardToTarget] with [clearOnSuccess] that
    is delivered to a configured target: the records list loses exactly its
    nil entries and the forwarded record and keeps the order of the others;
    the draft pointer becomes nil when the draft was the forwarded record
    and is kept otherwise; the section, the question index, the last
    message identifier and the last prompt are reset; the record machine
    and the records themselves are untouched; the port gets the forwarded
    text for the target and then the confirmation for the requester. *)
Theorem X10_forward_clears_forwarded (port : botport.BotPort) rc chatID target
    w record payload w1 text msg :
  fsm.selectRecordForForward w = Ok (Some record) w →
  target ≠ 0 →
  fsm.buildForwardPayload rc (Some record) w = Ok payload w1 →
  fsm.renderForwardMessage forwardTpl payload = inl text →
  strlen text ≠ 0 →
  port (calls w) (botport.SendMessage target text tgbotapi.NoMarkup) = (msg, None) →
  ∃ w', fsm.handleForwardToTarget forwardTpl port rc chatID target true w = Ok tt w'
    ∧ heap w' = heap w
    ∧ (∀ r, r ∈ Records (user w') ↔
            r ∈ Records (user w) ∧ r ≠ None ∧ r ≠ Some record)
    ∧ Records (user w') `sublist_of` Records (user w)
    ∧ CurrentRecord (user w')
      = (if decide (CurrentRecord (user w) = Some record) then None
         else CurrentRecord (user w))
    ∧ CurrentSection (user w') = "" ∧ CurrentQuestion (user w') = 0
    ∧ LastMessageID (user w') = 0
    ∧ LastPrompt (user w') = botport.BotMessage_zero
    ∧ RecordFSM (user w') = RecordFSM (user w)
    ∧ calls w' = calls w ++
        [botport.SendMessage target text tgbotapi.NoMarkup;
         botport.SendMessage chatID ("Ответы отправлены на ID " +:+ itoa target +:+ ".")
           tgbotapi.NoMarkup].
Proof.
  intros Hsel Htarget Hbuild Hrender Hlen Hport.
  destruct (buildForwardPayload_frame _ _ _ _ _ Hbuild) as (Hh & Hu & Hc).
  unfold fsm.handleForwardToTarget, fsm.forwardWithTarget, bind.
  rewrite Hsel. rewrite bool_decide_eq_false_2 by done. simpl.
  rewrite Hbuild, Hrender.
  destruct (decide (strlen text = 0)) as [|_]; [done|].
  unfold fsm.send, port_call, ret. rewrite Hc, Hport. simpl.
  unfold fsm.clearUserAnswers, bind, modify_user, get_user. simpl.
  rewrite Hu.
  destruct (decide (CurrentRecord (user w) = Some record)) as [Hcur|Hcur]; simpl.
  all: eexists; split; [reflexivity|]; simpl.
  all: split; [done|].
  all: split; [intros r; rewrite !list_elem_of_In, filter_In, negb_true_iff,
                 orb_false_iff, !bool_decide_eq_false; tauto|].
  all: split; [apply List_filter_sublist|].
  all: rewrite <- app_assoc; done.
Qed.

(** The two ways of finding the last saved record agree on a list of
    records without nil entries. *)

End forward_props.

(** ** The dispatcher of messages *)

Lemma port_extends_refl w : port_extends w w.
Proof. exists []. by rewrite app_nil_r. Qed.

Lemma port_extends_trans w1 w2 w3 :
  port_extends w1 w2 → port_extends w2 w3 → port_extends w1 w3.
Proof.
  intros [m1 H1] [m2 H2]. exists (m1 ++ m2). by rewrite H2, H1, app_assoc.
Qed.

Lemma keeps_records_refl w : keeps_records w w.
Proof. repeat split. apply port_extends_refl. Qed.

Lemma keeps_records_trans w1 w2 w3 :
  keeps_records w1 w2 → keeps_records w2 w3 → keeps_records w1 w3.
Proof.
  intros (?&?&?&?&?&?&?&?&?) (?&?&?&?&?&?&?&?&?).
  repeat split; try congruence. by eapply port_extends_trans.
Qed.

Section engine_props.
Context `{GoRuntime}.
Context (registry : gmap string questions.QuestionStrategy).
Context (targetUserID : Z).
Context (forwardTpl : fsm.forwardPayload → questions.result string).

Lemma sendMainMenu_spec port w :
  fsm.sendMainMenu port w = Ok tt (set_calls (calls w ++ [mainMenuCall (user w)]) w).
Proof. reflexivity. Qed.


Ltac give_more :=
  simpl; rewrite <- ?app_assoc; simpl;
  first [ by exists [] | by eexists [_] | by eexists [_; _] | by eexists [_; _; _] ].

Lemma enterRecordIdle_keeps_draft e w :
  fsm.Event_name e = EventForceExit ∨ fsm.Event_name e = EventExitToMainMenu →
  ∃ w', fsm.enterRecordIdle e w = Ok tt w'
    ∧ user w' = left_input (user w)
    ∧ heap w' = heap w ∧ ticks w' = ticks w ∧ ranges w' = ranges w
    ∧ ∃ more, calls w' = calls w ++ more ++ [mainMenuCall (user w)].
Proof.
  intros Hev.
  unfold fsm.enterRecordIdle, bind, get_user, modify_user, ret, fsm.sendMainMenu,
    bind, get_user, fsm.send, port_call, ret.
  destruct Hev as [-> | ->]; simpl.
  all: destruct (decide (fsm.messageID (fsm.Args_ e) ≠ 0)); simpl.
  all: try match goal with |- context [fsm.botPort ?a ?h ?c] =>
         destruct (fsm.botPort a h c) as [? [er|]]; simpl end.
  all: try destruct (fsm.not_modified_text er); simpl.
  all: eexists; split; [reflexivity|]; simpl.
  all: do 4 (split; [reflexivity|]).
  all: give_more.
Qed.


(** The forced exit: from selecting_section and from answering_question
    the machine becomes idle and keeps the draft; in the idle state the
    event is refused and nothing happens. *)
Lemma fire_force_exit callbacks args w :
  callbacks StateRecordIdle = fsm.enterRecordIdle →
  RecordFSM (user w) ≠ StateRecordIdle →
  ∃ w', fsm.fire callbacks EventForceExit args w = Ok None w'
    ∧ user w' = left_input (set_RecordFSM StateRecordIdle (user w))
    ∧ heap w' = heap w ∧ ticks w' = ticks w ∧ ranges w' = ranges w
    ∧ ∃ more, calls w' = calls w ++ more ++ [mainMenuCall (user w)].
Proof.
  intros Hcb Hst. unfold fsm.fire, bind, get_user.
  destruct (RecordFSM (user w)) eqn:Hs; [exfalso; by apply Hst|..].
  all: cbn [fsm.transition fsm.RecordFSM_events List.find fmap option_fmap option_map
            bool_decide decide_rel andb fst snd]; simpl.
  all: rewrite Hcb.
  all: match goal with |- context [fsm.enterRecordIdle ?e ?w0] =>
         destruct (enterRecordIdle_keeps_draft e w0)
           as (w' & -> & Hu & Hh & Ht & Hr & more & Hc); [by left|] end.
  all: exists w'; unfold ret; split; [reflexivity|].
  all: rewrite Hu, Hh, Ht, Hr.
  all: do 4 (split; [reflexivity|]).
  all: exists more; exact Hc.
Qed.

Lemma fire_force_exit_idle callbacks args w :
  RecordFSM (user w) = StateRecordIdle →
  ∃ err, fsm.fire callbacks EventForceExit args w = Ok (Some err) w.
Proof.
  intros Hst. unfold fsm.fire, bind, get_user. rewrite Hst. simpl. by eexists.
Qed.


Lemma keeps_records_calls w l : keeps_records w (set_calls (calls w ++ l) w).
Proof. repeat split. by exists l. Qed.

Lemma fire_nested_force_exit_frame args w :
  ∃ r w', fsm.fire_nested EventForceExit args w = Ok r w'
    ∧ keeps_records w w' ∧ ranges w' = ranges w
    ∧ (user w' = user w
       ∨ user w' = left_input (set_RecordFSM StateRecordIdle (user w))).
Proof.
  destruct (decide (RecordFSM (user w) = StateRecordIdle)) as [Hst|Hst].
  - destruct (fire_force_exit_idle fsm.nested_callbacks args w Hst) as [err Hrun].
    exists (Some err), w. split; [exact Hrun|].
    split; [apply keeps_records_refl|]. split; [done|]. by left.
  - destruct (fire_force_exit fsm.nested_callbacks args w eq_refl Hst)
      as (w' & Hrun & Hu & Hh & Ht & Hr & more & Hc).
    exists None, w'. split; [exact Hrun|]. split.
    { unfold keeps_records. rewrite Hu, Hh, Ht. repeat split.
      exists (more ++ [mainMenuCall (user w)]). exact Hc. }
    split; [done|]. by right.
Qed.

Lemma logAndForceExit_frame e msg w :
  ∃ w', fsm.logAndForceExit e msg w = Ok tt w'
    ∧ keeps_records w w' ∧ left_or_kept (user w) (user w').
Proof.
  unfold fsm.logAndForceExit, bind.
  match goal with |- context [fsm.fire_nested ?ev ?a ?w0] =>
    destruct (fire_nested_force_exit_frame a w0) as (r & w' & -> & Hk & _ & Hu) end.
  exists w'. split; [reflexivity|]. split; [done|].
  destruct Hu as [-> | ->]; [by left|by right].
Qed.

(** Entering the section menu never panics, keeps the draft and the
    records, and leaves the machine where it is or, when the menu cannot be
    shown, idle. *)
Lemma enterSelectingSection_frame e w :
  ∃ w', fsm.enterSelectingSection e w = Ok tt w'
    ∧ keeps_records w w' ∧ left_or_kept (user w) (user w').
Proof.
  unfold fsm.enterSelectingSection, bind, get_user.
  destruct (config.Sections _) as [secs|]; [|apply logAndForceExit_frame].
  destruct (CurrentRecord (user w)) as [cur|] eqn:Hcur; [|apply logAndForceExit_frame].
  unfold load at 1.
  destruct (Data (heap w !!! cur)) as [d|]; [|apply logAndForceExit_frame].
  unfold fsm.getSortedSectionIDs, bind, range_keys, ret.
  destruct (decide (fsm.messageID (fsm.Args_ e) ≠ 0)); unfold fsm.send, port_call.
  all: match goal with |- context [fsm.botPort ?a ?h ?c] =>
         destruct (fsm.botPort a h c) as [m [er|]] end.
  all: try destruct (fsm.not_modified_text er) eqn:Hnm.
  all: cbn [negb].
  all: try match goal with |- context [fsm.fire_nested ?ev ?a ?w0] =>
         destruct (fire_nested_force_exit_frame a w0)
           as (r & w' & -> & Hk & _ & Hu) end.
  all: unfold modify_user, ret; cbn [negb].
  all: try rewrite Hnm.
  all: eexists; (split; [reflexivity|]).
  all: try (split; [|destruct Hu as [-> | ->]; [by left|by right]]).
  all: try (split; [|by left]).
  all: try (eapply keeps_records_trans; [|exact Hk]).
  all: repeat split; try done; by eexists.
Qed.


(** When the port accepts the menu, it is shown once and remembered as the
    last prompt. *)
Lemma enterSelectingSection_shown e w secs cur d msg :
  config.Sections (fsm.recordConfig (fsm.Args_ e)) = Some secs →
  CurrentRecord (user w) = Some cur →
  Data (heap w !!! cur) = Some d →
  let kb := fsm.sectionKeyboard secs (Some d) (range_order (ranges w) (config.keys secs)) in
  fsm.botPort (fsm.Args_ e) (calls w) (menu_call e kb) = (msg, None) →
  ∃ w', fsm.enterSelectingSection e w = Ok tt w'
    ∧ user w' =
        set_LastPrompt
          (fsm.toBotMessageFromPort (fsm.chatID (fsm.Args_ e)) (botport.MessageID msg)
             fsm.sectionPrompt (tgbotapi.InlineKeyboardPtr kb))
          (set_LastMessageID (botport.MessageID msg) (user w))
    ∧ heap w' = heap w
    ∧ calls w' = calls w ++ [menu_call e kb].
Proof.
  intros Hsecs Hcur Hd kb Hport.
  unfold fsm.enterSelectingSection, bind, get_user. rewrite Hsecs, Hcur.
  unfold load at 1. rewrite Hd.
  unfold fsm.getSortedSectionIDs, bind, range_keys, ret. rewrite fold_left_snoc.
  cbn [app calls set_ranges]. fold kb.
  unfold menu_call in Hport.
  destruct (decide (fsm.messageID (fsm.Args_ e) ≠ 0)); unfold fsm.send, port_call.
  all: cbn [calls set_ranges]; rewrite Hport.
  all: unfold modify_user; eexists; (split; [reflexivity|]).
  all: unfold menu_call; rewrite ?decide_True by done; rewrite ?decide_False by done.
  all: done.
Qed.


Lemma last_more {A} (l more : list A) x : last (l ++ more ++ [x]) = Some x.
Proof. by rewrite app_assoc, last_snoc. Qed.

(** X11: the command /start always ends with the record machine idle and
    the main menu as the last operation on the port; it never panics and
    keeps the records, the draft and the main-menu machine.  From the idle
    state the user state is unchanged; from the section menu or from a
    question, the section, the question index and the last message
    identifier are reset. *)
Theorem X11_start_command_returns_to_menu (message : fsm.Message)
    (port : botport.BotPort) rc w :
  fsm.msg_Command message = Some "start" →
  ∃ w', fsm.handleMessage registry targetUserID forwardTpl message port rc w = Ok tt w'
    ∧ RecordFSM (user w') = StateRecordIdle
    ∧ keeps_records w w'
    ∧ ranges w' = ranges w
    ∧ (RecordFSM (user w) = StateRecordIdle → user w' = user w)
    ∧ (RecordFSM (user w) ≠ StateRecordIdle →
         CurrentSection (user w') = "" ∧ CurrentQuestion (user w') = 0
         ∧ LastMessageID (user w') = 0)
    ∧ last (calls w') = Some (mainMenuCall (user w)).
Proof.
  intros Hcmd. unfold fsm.handleMessage. rewrite Hcmd.
  rewrite decide_True by done. unfold bind at 1, get_user at 1.
  destruct (decide (RecordFSM (user w) ≠ StateRecordIdle)) as [Hst|Hst].
  - unfold bind.
    destruct (fire_force_exit (fsm.callbacks registry)
                (fsm.mkArgsReason port rc (fsm.msg_ChatID message)
                   (LastMessageID (user w)) "command /start used") w eq_refl Hst)
      as (w' & Hrun & Hu & Hh & Ht & Hr & more & Hc).
    unfold fsm.RecordFSM_Event. rewrite Hrun.
    exists w'. split; [reflexivity|]. rewrite Hu. split; [reflexivity|].
    split.
    { unfold keeps_records. rewrite Hu, Hh, Ht. repeat split.
      exists (more ++ [mainMenuCall (user w)]). exact Hc. }
    split; [done|]. split; [done|]. split; [done|].
    rewrite Hc. apply last_more.
  - assert (RecordFSM (user w) = StateRecordIdle) as Hidle.
    { destruct (decide (RecordFSM (user w) = StateRecordIdle)); [done|].
      exfalso. by apply Hst. }
    rewrite sendMainMenu_spec. eexists. split; [reflexivity|].
    split; [exact Hidle|]. split; [apply keeps_records_calls|].
    split; [done|]. split; [done|]. split; [done|].
    cbn [calls set_calls]. apply last_snoc.
Qed.

(** X12: messages that the dispatcher does not act on.  A command other
    than /start is answered with the unknown-command notice; a message that
    is not a command, received in the section menu or while the list of
    records is shown, is answered with the use-the-buttons notice; in both
    cases nothing but the port changes.  In the idle state a text that is
    not one of the four buttons of the main menu is ignored: the world is
    unchanged and nothing is sent. *)
Theorem X12_unexpected_message (message : fsm.Message) (port : botport.BotPort) rc w :
  (∀ command, fsm.msg_Command message = Some command → command ≠ "start" →
     fsm.handleMessage registry targetUserID forwardTpl message port rc w
     = Ok tt (set_calls (calls w ++
         [botport.SendMessage (fsm.msg_ChatID message) "Неизвестная команда."
            tgbotapi.NoMarkup]) w))
  ∧ (fsm.msg_Command message = None →
     RecordFSM (user w) = StateSelectingSection
     ∨ (RecordFSM (user w) = StateRecordIdle ∧ MainMenuFSM (user w) = StateViewingList) →
     fsm.handleMessage registry targetUserID forwardTpl message port rc w
     = Ok tt (set_calls (calls w ++
         [botport.SendMessage (fsm.msg_ChatID message)
            "Пожалуйста, используйте предложенные кнопки или завершите текущее действие."
            tgbotapi.NoMarkup]) w))
  ∧ (fsm.msg_Command message = None →
     RecordFSM (user w) = StateRecordIdle → MainMenuFSM (user w) = StateIdle →
     fsm.msg_Text message ∉ [ButtonMainMenuFillRecord; ButtonMainMenuShowRecord;
                              ButtonMainMenuSendSelf; ButtonMainMenuSendTherapist] →
     fsm.handleMessage registry targetUserID forwardTpl message port rc w = Ok tt w).
Proof.
  split; [|split].
  - intros command Hcmd Hne. unfold fsm.handleMessage. rewrite Hcmd.
    by rewrite decide_False by done.
  - intros Hcmd Hst. unfold fsm.handleMessage. rewrite Hcmd.
    unfold bind at 1, get_user at 1.
    destruct Hst as [Hst | [Hst Hmain]]; rewrite Hst.
    + rewrite decide_False by done. rewrite decide_False by (intros [_ ?]; done).
      reflexivity.
    + rewrite decide_False by done. rewrite Hmain.
      rewrite decide_False by (intros [? _]; done). reflexivity.
  - intros Hcmd Hst Hmain Htext. unfold fsm.handleMessage. rewrite Hcmd.
    unfold bind at 1, get_user at 1. rewrite Hst, Hmain.
    rewrite decide_False by done. rewrite decide_True by done.
    rewrite !not_elem_of_cons in Htext. destruct Htext as (? & ? & ? & ? & _).
    by rewrite !decide_False by done.
Qed.


Lemma fire_start_record args w :
  RecordFSM (user w) = StateRecordIdle →
  fsm.RecordFSM_Event registry EventStartRecord args w
  = (fsm.enterSelectingSection
       {| fsm.Event_name := EventStartRecord; fsm.Src := StateRecordIdle;
          fsm.Dst := StateSelectingSection; fsm.Args_ := args |};; ret None)
      (set_user (set_RecordFSM StateSelectingSection (user w)) w).
Proof.
  intros Hst. unfold fsm.RecordFSM_Event, fsm.fire, bind at 1, get_user. by rewrite Hst.
Qed.

(** X13: the button "Заполнить запись" pressed in the idle state.  The
    dispatcher never panics; an existing draft is kept as the draft and no
    record is touched, and without a draft a fresh record with empty data
    is allocated at a location that was free; the records list is
    unchanged; the section and the question index are reset; the record
    machine ends in the section menu or, when the menu could not be shown,
    idle; the last operation on the port is the message that removes the
    reply keyboard.  When the schema has sections, the data of the draft
    is not nil (that of a fresh draft never is) and the port accepts the
    section menu, the machine is in the section menu and the last message
    identifier is the identifier of the menu message. *)
Theorem X13_fill_record_resumes_draft (message : fsm.Message) (port : botport.BotPort) rc w :
  fsm.msg_Command message = None →
  fsm.msg_Text message = ButtonMainMenuFillRecord →
  MainMenuFSM (user w) = StateIdle →
  RecordFSM (user w) = StateRecordIdle →
  let draft := default (fresh (dom (heap w))) (CurrentRecord (user w)) in
  ∃ w', fsm.handleMessage registry targetUserID forwardTpl message port rc w = Ok tt w'
    ∧ CurrentRecord (user w') = Some draft
    ∧ heap w' = (if CurrentRecord (user w) is None
                 then <[draft := NewRecord_value]> (heap w) else heap w)
    ∧ (CurrentRecord (user w) = None → heap w !! draft = None)
    ∧ Records (user w') = Records (user w)
    ∧ CurrentSection (user w') = "" ∧ CurrentQuestion (user w') = 0
    ∧ (RecordFSM (user w') = StateSelectingSection
       ∨ RecordFSM (user w') = StateRecordIdle)
    ∧ last (calls w') = Some (hideCall (fsm.msg_ChatID message))
    ∧ ∀ secs d msg,
        config.Sections rc = Some secs →
        Data (heap w' !!! draft) = Some d →
        port (calls w)
          (botport.SendMessage (fsm.msg_ChatID message) fsm.sectionPrompt
             (tgbotapi.InlineKeyboard
                (fsm.sectionKeyboard secs (Some d)
                   (range_order (ranges w) (config.keys secs))))) = (msg, None) →
        RecordFSM (user w') = StateSelectingSection
        ∧ LastMessageID (user w') = botport.MessageID msg.
Proof.
  intros Hcmd Htext Hmain Hst draft.
  unfold fsm.handleMessage. rewrite Hcmd. unfold bind at 1, get_user at 1.
  rewrite Hst, Hmain. rewrite decide_False by done. rewrite decide_True by done.
  rewrite Htext. rewrite decide_True by done.
  unfold fsm.startOrResumeRecordCreation.
  set (args := fsm.mkArgs port rc (fsm.msg_ChatID message) 0).
  set (e := {| fsm.Event_name := EventStartRecord; fsm.Src := StateRecordIdle;
               fsm.Dst := StateSelectingSection; fsm.Args_ := args |}).
  (* the world in which the event is fired *)
  set (w0 := set_user
               (set_CurrentQuestion 0 (set_CurrentSection ""
                  (set_CurrentRecord (Some draft) (user w))))
               (if CurrentRecord (user w) is None
                then set_heap (<[draft := NewRecord_value]> (heap w)) w else w)).
  assert (∀ k : unit → M unit,
            (do u <- get_user;
             (if CurrentRecord u is None
              then do p <- NewRecord; modify_user (set_CurrentRecord (Some p))
              else ret tt);;
             modify_user (set_CurrentSection "");;
             modify_user (set_CurrentQuestion 0);;
             k tt) w = k tt w0) as Hprefix.
  { intros k. unfold bind, get_user, NewRecord, modify_user, ret. subst w0 draft.
    destruct (CurrentRecord (user w)) as [p|] eqn:Hcur; simpl.
    - f_equal. destruct w as [h u c t r]. destruct u. simpl in *. subst.
      reflexivity.
    - reflexivity. }
  unfold bind at 1.
  match goal with |- context [bind get_user ?f w] =>
    change (bind get_user f w) with
      ((do u <- get_user;
        (if CurrentRecord u is None
         then do p <- NewRecord; modify_user (set_CurrentRecord (Some p))
         else ret tt);;
        modify_user (set_CurrentSection "");;
        modify_user (set_CurrentQuestion 0);;
        (λ _ : unit,
           do err <- fsm.RecordFSM_Event registry EventStartRecord args;
           match err with
           | Some _ =>
               fsm.send port (fsm.msg_ChatID message)
                 "Не удалось начать ввод записи. Попробуйте позже." tgbotapi.NoMarkup;;
               do u <- get_user;
               if decide (RecordFSM u ≠ StateRecordIdle)
               then fsm.RecordFSM_SetState StateRecordIdle
               else ret tt
           | None => ret tt
           end) tt) w) end.
  rewrite Hprefix. unfold bind at 1.
  assert (RecordFSM (user w0) = StateRecordIdle) as Hst0 by (subst w0; simpl; done).
  rewrite (fire_start_record args w0 Hst0). fold e. unfold bind at 1.
  destruct (enterSelectingSection_frame e
              (set_user (set_RecordFSM StateSelectingSection (user w0)) w0))
    as (w1 & Hrun & Hk & Hlk).
  rewrite Hrun. unfold ret at 1. unfold ret at 1. unfold fsm.hideKeyboard, bind, fsm.send,
    port_call, ret.
  eexists. split; [reflexivity|]. cbn [user heap calls set_calls].
  destruct Hk as (Hh & Hrec & Hcur & _ & _ & _ & _ & _ & Hext).
  cbn [user heap set_user] in Hh, Hrec, Hcur.
  split.
  { rewrite Hcur. subst w0. simpl. done. }
  split.
  { rewrite Hh. subst w0. simpl. by destruct (CurrentRecord (user w)). }
  split.
  { intros Hnone. subst draft. rewrite Hnone. simpl.
    apply not_elem_of_dom. apply is_fresh. }
  split.
  { rewrite Hrec. subst w0. simpl. done. }
  assert (CurrentSection (user w1) = "" ∧ CurrentQuestion (user w1) = 0
          ∧ (RecordFSM (user w1) = StateSelectingSection
             ∨ RecordFSM (user w1) = StateRecordIdle)) as (Hsec & Hq & Hfsm).
  { destruct Hlk as [(H1 & H2 & H3) | (H1 & H2 & H3 & _)].
    - rewrite H1, H2, H3. subst w0. simpl. auto.
    - rewrite H1, H2, H3. auto. }
  split; [done|]. split; [done|]. split; [done|].
  split; [apply last_snoc|].
  intros secs d msg Hsecs Hd Hport.
  destruct (enterSelectingSection_shown e
              (set_user (set_RecordFSM StateSelectingSection (user w0)) w0)
              secs draft d msg) as (w1' & Hrun' & Hu' & _).
  - done.
  - subst w0. simpl. done.
  - rewrite <- Hd, Hh. reflexivity.
  - unfold menu_call. subst e args. simpl.
    subst w0. simpl. destruct (CurrentRecord (user w)); simpl; exact Hport.
  - rewrite Hrun in Hrun'. injection Hrun' as <-. rewrite Hu'. simpl. done.
Qed.


Lemma textStrategy_stores (ctx : questions.AnswerContext) (input : questions.AnswerInput)
    p w :
  questions.Rec (questions.Render_ctx ctx) = Some p →
  questions.Source input = questions.InputSourceText →
  TrimSpace (questions.Input_Text input) ≠ "" →
  questions.HandleAnswer questions.textStrategy ctx input w
  = Ok (inl {| questions.Advance := true; questions.Repeat := false;
               questions.Feedback := "" |})
       (set_heap (<[p := with_answer
                          (config.StoreKey (questions.Question (questions.Render_ctx ctx)))
                          (TrimSpace (questions.Input_Text input)) (heap w !!! p)]> (heap w)) w).
Proof.
  intros Hrec Hsrc Hval. cbn [questions.HandleAnswer questions.textStrategy].
  rewrite decide_False by (intros Hn; by apply Hn).
  rewrite decide_False by done.
  unfold questions.ensureRecord, bind. rewrite Hrec. unfold load at 1.
  unfold with_answer.
  destruct (Data (heap w !!! p)) as [d|] eqn:Hd.
  - unfold ret at 1. unfold ret at 1. unfold questions.data_set, bind, load, store, ret.
    rewrite Hd. reflexivity.
  - unfold store at 1. unfold ret at 1. unfold questions.data_set, bind, load, store, ret.
    cbn [heap set_heap]. rewrite lookup_total_insert_eq. cbn [Data ID IsSaved CreatedAt].
    destruct w; cbn [heap set_heap world.heap]. by rewrite insert_insert_eq.
Qed.

(** After an answer that advances: the event answer_question goes from
    answering_question to itself, which the machine refuses, and the
    engine then asks the next question itself. *)
Lemma processAnswer_next (port : botport.BotPort) rc messageID w sec :
  RecordFSM (user w) = StateAnsweringQuestion →
  config.sections rc !! CurrentSection (user w) = Some sec →
  0 <= CurrentQuestion (user w) →
  CurrentQuestion (user w) + 1 < len (config.Questions sec) →
  len (config.Questions sec) <= int_max →
  fsm.processAnswer registry port rc messageID w
  = fsm.askCurrentQuestion registry port rc messageID
      (set_user (set_CurrentQuestion (CurrentQuestion (user w) + 1) (user w)) w).
Proof.
  intros Hst Hsec Hlo Hhi Hmax.
  unfold fsm.processAnswer, bind at 1, get_user at 1. rewrite Hsec.
  change (default fsm.SectionConfig_zero (Some sec)) with sec.
  rewrite decide_False by (intros [?|[?|?]]; [done|lia|lia]).
  assert (int_add (CurrentQuestion (user w)) 1 = CurrentQuestion (user w) + 1) as ->.
  { unfold int_add. apply int_wrap_id. unfold int_min, int_max in *. lia. }
  rewrite decide_True by done.
  unfold bind, modify_user, ret, get_user. cbn [user set_user].
  unfold fsm.RecordFSM_Event, fsm.fire, bind, get_user. cbn [user set_user].
  replace (RecordFSM (set_CurrentQuestion (CurrentQuestion (user w) + 1) (user w)))
    with StateAnsweringQuestion by (by rewrite <- Hst).
  reflexivity.
Qed.

Lemma processAnswer_last (port : botport.BotPort) rc messageID w sec :
  RecordFSM (user w) = StateAnsweringQuestion →
  config.sections rc !! CurrentSection (user w) = Some sec →
  0 <= CurrentQuestion (user w) →
  CurrentQuestion (user w) + 1 = len (config.Questions sec) →
  len (config.Questions sec) <= int_max →
  fsm.processAnswer registry port rc messageID w
  = (fsm.enterSelectingSection
       {| fsm.Event_name := EventSectionComplete; fsm.Src := StateAnsweringQuestion;
          fsm.Dst := StateSelectingSection;
          fsm.Args_ := fsm.mkArgs port rc (UserID (user w)) messageID |};; ret tt)
      (set_user (set_RecordFSM StateSelectingSection
                   (set_CurrentSection "" (set_CurrentQuestion 0 (user w)))) w).
Proof.
  intros Hst Hsec Hlo Hhi Hmax.
  unfold fsm.processAnswer, bind at 1, get_user at 1. rewrite Hsec.
  change (default fsm.SectionConfig_zero (Some sec)) with sec.
  rewrite decide_False by (intros [?|[?|?]]; [done|lia|lia]).
  assert (int_add (CurrentQuestion (user w)) 1 = CurrentQuestion (user w) + 1) as ->.
  { unfold int_add. apply int_wrap_id. unfold int_min, int_max in *. lia. }
  rewrite decide_False by lia.
  unfold bind, modify_user, ret, get_user. cbn [user set_user].
  unfold fsm.RecordFSM_Event, fsm.fire, bind, get_user, modify_user, ret.
  cbn [user set_user].
  replace (RecordFSM (set_CurrentSection "" (set_CurrentQuestion 0 (user w))))
    with StateAnsweringQuestion by (by rewrite <- Hst).
  cbn [fsm.transition fsm.RecordFSM_events List.find fmap option_fmap option_map
       bool_decide decide_rel andb fst snd]. simpl.
  unfold set_user. cbn [user heap calls ticks ranges].
  match goal with |- context [fsm.enterSelectingSection ?e ?w0] =>
    destruct (fsm.enterSelectingSection e w0) end; reflexivity.
Qed.

(** X14: [processAnswer] in the state answering_question, at a valid
    question index of a section of the schema.  When another question
    follows, the index is incremented; the event answer_question, which
    leads from answering_question to itself, is refused by the machine as
    no transition, and the engine then asks the next question itself, so
    that the outcome is that of [askCurrentQuestion] at the incremented
    index.  After the last question the index and the section are reset
    and the event section_complete enters the section menu. *)
Theorem X14_processAnswer_steps (port : botport.BotPort) rc messageID w sec :
  RecordFSM (user w) = StateAnsweringQuestion →
  config.sections rc !! CurrentSection (user w) = Some sec →
  0 <= CurrentQuestion (user w) < len (config.Questions sec) →
  len (config.Questions sec) <= int_max →
  fsm.processAnswer registry port rc messageID w
  = if decide (CurrentQuestion (user w) + 1 < len (config.Questions sec))
    then fsm.askCurrentQuestion registry port rc messageID
           (set_user (set_CurrentQuestion (CurrentQuestion (user w) + 1) (user w)) w)
    else (fsm.enterSelectingSection
            {| fsm.Event_name := EventSectionComplete; fsm.Src := StateAnsweringQuestion;
               fsm.Dst := StateSelectingSection;
               fsm.Args_ := fsm.mkArgs port rc (UserID (user w)) messageID |};; ret tt)
           (set_user (set_RecordFSM StateSelectingSection
                        (set_CurrentSection "" (set_CurrentQuestion 0 (user w)))) w).
Proof.
  intros Hst Hsec [Hlo Hhi] Hmax. case_decide.
  - by apply (processAnswer_next port rc messageID w sec).
  - apply (processAnswer_last port rc messageID w sec); try done. lia.
Qed.

Lemma sectionKeyboard_answered secs d order sid sec q :
  secs !! sid = Some sec → q ∈ config.Questions sec →
  (∃ v, d !! config.StoreKey q = Some v ∧ v ≠ "") → sid ∈ order →
  [tgbotapi.NewInlineKeyboardButtonData (config.Title sec +:+ " ✅") ("section:" +:+ sid)]
    ∈ fsm.sectionKeyboard secs (Some d) order.
Proof.
  intros Hsec Hq (v & Hv & Hne) Hin. unfold fsm.sectionKeyboard, fsm.sectionRows.
  apply elem_of_app. left. apply list_elem_of_fmap. exists sid. split; [|done].
  rewrite Hsec. change (default fsm.SectionConfig_zero (Some sec)) with sec. cbv zeta.
  assert (fsm.sectionHasData sec (Some d) = true) as ->; [|done].
  unfold fsm.sectionHasData. apply existsb_exists. exists q. split.
  - by apply list_elem_of_In.
  - change (data_lookup (Some d) (config.StoreKey q)) with (d !! config.StoreKey q).
    rewrite Hv. by apply bool_decide_eq_true.
Qed.

(** X15: a text message that answers the last question of a section,
    when that question is of the text type, the user has a draft [p] and
    the text is not empty once trimmed.  The dispatcher succeeds; the
    trimmed text is stored under the storage key of the question; the next
    operation on the port shows the section menu (an edit of the last
    prompt when there is one), and in its keyboard the button of the
    section just completed carries the check mark; the section and the
    question index are reset, the draft and the records list are kept, and
    the machine is in the section menu (or idle when the menu could not be
    shown). *)
Theorem X15_text_answer_completes_section (message : fsm.Message) (port : botport.BotPort)
    rc w secs sec q p :
  fsm.msg_Command message = None →
  RecordFSM (user w) = StateAnsweringQuestion →
  config.Sections rc = Some secs →
  secs !! CurrentSection (user w) = Some sec →
  fsm.index (config.Questions sec) (CurrentQuestion (user w)) = Some q →
  CurrentQuestion (user w) + 1 = len (config.Questions sec) →
  len (config.Questions sec) <= int_max →
  questions.Get registry (config.Type_ q) = Some questions.textStrategy →
  CurrentRecord (user w) = Some p →
  TrimSpace (fsm.msg_Text message) ≠ "" →
  let d' := <[config.StoreKey q := TrimSpace (fsm.msg_Text message)]>
              (default ∅ (Data (heap w !!! p))) in
  let kb := fsm.sectionKeyboard secs (Some d') (range_order (ranges w) (config.keys secs)) in
  let e := {| fsm.Event_name := EventSectionComplete; fsm.Src := StateAnsweringQuestion;
              fsm.Dst := StateSelectingSection;
              fsm.Args_ := fsm.mkArgs port rc (UserID (user w)) (LastMessageID (user w)) |} in
  ∃ w' more,
    fsm.handleMessage registry targetUserID forwardTpl message port rc w = Ok tt w'
    ∧ heap w' = <[p := with_answer (config.StoreKey q) (TrimSpace (fsm.msg_Text message))
                          (heap w !!! p)]> (heap w)
    ∧ calls w' = calls w ++ menu_call e kb :: more
    ∧ [tgbotapi.NewInlineKeyboardButtonData (config.Title sec +:+ " ✅")
         ("section:" +:+ CurrentSection (user w))] ∈ kb
    ∧ CurrentSection (user w') = "" ∧ CurrentQuestion (user w') = 0
    ∧ CurrentRecord (user w') = Some p
    ∧ Records (user w') = Records (user w)
    ∧ (RecordFSM (user w') = StateSelectingSection
       ∨ RecordFSM (user w') = StateRecordIdle).
Proof.
  intros Hcmd Hst Hsecs Hsec Hq Hlast Hmax Hget Hcur Hval d' kb e.
  assert (config.sections rc !! CurrentSection (user w) = Some sec) as Hsec'.
  { unfold config.sections. by rewrite Hsecs. }
  assert (0 <= CurrentQuestion (user w)
          ∧ config.Questions sec !! Z.to_nat (CurrentQuestion (user w)) = Some q)
    as [Hlo Hq'].
  { unfold fsm.index in Hq. case_decide; [done|]. split; [lia|done]. }
  unfold fsm.handleMessage. rewrite Hcmd. unfold bind at 1, get_user at 1.
  rewrite Hst. rewrite decide_True by done.
  unfold fsm.resolveCurrentQuestion, bind at 1, bind at 1, get_user at 1.
  rewrite Hsec'. rewrite decide_False by lia. rewrite Hq. unfold ret at 1.
  rewrite Hget. unfold bind at 1, get_user at 1. unfold bind at 1.
  rewrite (textStrategy_stores _ _ p w); [|done|done|done].
  cbn [questions.Input_Text questions.Render_ctx fsm.buildAnswerContext questions.Question].
  set (w1 := set_heap _ w).
  unfold bind at 1, get_user at 1. cbn [user set_heap].
  unfold fsm.handleAnswerResult. cbn [questions.Feedback questions.Repeat questions.Advance].
  rewrite decide_False by (intros Hn; by apply Hn).
  unfold bind at 1, ret at 1. cbn [andb negb].
  change (user w1) with (user w).
  rewrite (processAnswer_last port rc (LastMessageID (user w)) w1 sec); [|done..].
  change (user w1) with (user w). fold e.
  set (w2 := set_user _ w1).
  destruct (enterSelectingSection_menu e w2 secs p d') as (w' & more & Hrun & Hcalls).
  { done. } { done. }
  { subst w2 w1. cbn [heap set_user set_heap]. by rewrite lookup_total_insert_eq. }
  destruct (enterSelectingSection_frame e w2) as (w'' & Hrun' & Hk & Hlk).
  rewrite Hrun in Hrun'. injection Hrun' as <-.
  exists w', more. unfold bind. rewrite Hrun. split; [reflexivity|].
  destruct Hk as (Hh & Hrec & Hc & _).
  split; [by rewrite Hh|].
  split; [exact Hcalls|].
  split.
  { apply (sectionKeyboard_answered secs d' _ _ sec q); try done.
    - by apply list_elem_of_lookup_2 in Hq'.
    - exists (TrimSpace (fsm.msg_Text message)). subst d'.
      by rewrite lookup_insert_eq.
    - rewrite range_order_perm. apply keys_lookup. eauto. }
  assert (CurrentSection (user w') = "" ∧ CurrentQuestion (user w') = 0
          ∧ (RecordFSM (user w') = StateSelectingSection
             ∨ RecordFSM (user w') = StateRecordIdle)) as (Hs & Hqq & Hfsm).
  { destruct Hlk as [(H1 & H2 & H3) | (H1 & H2 & H3 & _)].
    - rewrite H1, H2, H3. auto.
    - rewrite H1, H2, H3. auto. }
  split; [done|]. split; [done|]. split; [by rewrite Hc|]. split; [by rewrite Hrec|done].
Qed.

End engine_props.

(** ** The dispatcher of callbacks *)

Section callback_props.
Context `{GoRuntime}.
Context (registry : gmap string questions.QuestionStrategy).
Context (forwardTpl : fsm.forwardPayload → questions.result string).
Context (showSectionSelectionMenu :
  botport.BotPort → config.RecordConfig → Z → Z → option (gmap string string) → M unit).

(** X16: in the section menu, the callback [section:sid] for a [sid]
    that is not a section of the schema, or that is a section without
    questions, leaves the record machine in answering_question with [sid]
    as the current section and the question index 0: the callback is
    acknowledged, the user gets one error notice (of the configuration for
    an unknown section, of the navigation for an empty one), no exit is
    forced and nothing else changes. *)
Theorem X16_select_section_without_questions (query : fsm.CallbackQuery)
    (port : botport.BotPort) rc w sid :
  RecordFSM (user w) = StateSelectingSection →
  fsm.query_Data query = "section:" +:+ sid →
  (∀ sec, config.sections rc !! sid = Some sec → config.Questions sec = []) →
  fsm.handleCallbackQuery registry forwardTpl showSectionSelectionMenu query port rc w
  = Ok tt
      (set_calls
         (calls w ++
            [botport.AnswerCallback (fsm.query_ID query) "";
             botport.SendMessage (UserID (user w))
               (if config.sections rc !! sid is None
                then "Ошибка конфигурации секции."
                else "Ошибка навигации по вопросам.")
               tgbotapi.NoMarkup])
         (set_user
            (set_RecordFSM StateAnsweringQuestion
               (set_CurrentQuestion 0 (set_CurrentSection sid (user w)))) w)).
Proof.
  intros Hst Hdata Hempty.
  unfold fsm.handleCallbackQuery. rewrite Hdata.
  unfold bind at 1. unfold port_call at 1.
  change (SplitN2 ("section:" +:+ sid)) with [ "section"; sid ].
  cbn [hd nth]. change ("section" +:+ ":") with CallbackSectionPrefix.
  unfold bind at 1, get_user at 1. cbn [user set_calls]. rewrite Hst.
  rewrite decide_False by done. rewrite decide_True by done.
  rewrite decide_True by done.
  unfold bind at 1, modify_user at 1. unfold bind at 1, modify_user at 1.
  unfold bind at 1. unfold fsm.RecordFSM_Event, fsm.fire, bind at 1, get_user at 1.
  cbn [user set_user set_calls].
  replace (RecordFSM (set_CurrentQuestion 0 (set_CurrentSection sid (user w))))
    with StateSelectingSection by (by rewrite <- Hst).
  cbn [fsm.transition fsm.RecordFSM_events List.find fmap option_fmap option_map
       bool_decide decide_rel andb fst snd]. simpl.
  unfold fsm.enterAnsweringQuestion, fsm.askCurrentQuestion, bind, get_user, modify_user.
  cbn [user set_user set_calls fsm.Args_ fsm.mkArgs fsm.botPort fsm.recordConfig
       fsm.messageID].
  change (CurrentSection (set_RecordFSM StateAnsweringQuestion
            (set_CurrentQuestion 0 (set_CurrentSection sid (user w))))) with sid.
  destruct (config.sections rc !! sid) as [sec|] eqn:Hsec.
  - rewrite (Hempty sec eq_refl). simpl.
    unfold fsm.send, port_call, ret. simpl. by rewrite <- app_assoc.
  - unfold fsm.send, port_call, ret. simpl. by rewrite <- app_assoc.
Qed.


(** X17: the callbacks [action:exit_menu] and [action:cancel_section]
    never panic and keep the draft, all records, the records list and the
    main-menu machine.  [exit_menu] from the section menu makes the machine
    idle, resets the section, the question index and the last message
    identifier, and ends with the main menu; [cancel_section] from a
    question goes back to the section menu keeping the current section and
    question index (or ends idle with them reset when the menu cannot be
    shown); in any other state the callback is only acknowledged. *)
Theorem X17_navigation_keeps_draft (query : fsm.CallbackQuery) (port : botport.BotPort)
    rc w action :
  fsm.query_Data query = "action:" +:+ action →
  action = ActionExitMenu ∨ action = ActionCancelSection →
  ∃ w', fsm.handleCallbackQuery registry forwardTpl showSectionSelectionMenu query port rc w
        = Ok tt w'
    ∧ keeps_records w w'
    ∧ (action = ActionExitMenu → RecordFSM (user w) = StateSelectingSection →
         user w' = left_input (set_RecordFSM StateRecordIdle (user w))
         ∧ last (calls w') = Some (mainMenuCall (user w)))
    ∧ (action = ActionCancelSection → RecordFSM (user w) = StateAnsweringQuestion →
         left_or_kept (set_RecordFSM StateSelectingSection (user w)) (user w'))
    ∧ (RecordFSM (user w)
         ≠ (if decide (action = ActionExitMenu) then StateSelectingSection
            else StateAnsweringQuestion) →
       w' = set_calls (calls w ++ [botport.AnswerCallback (fsm.query_ID query) ""]) w).
Proof.
  intros Hdata Haction.
  unfold fsm.handleCallbackQuery. rewrite Hdata.
  unfold bind at 1. unfold port_call at 1.
  change (SplitN2 ("action:" +:+ action)) with [ "action"; action ].
  cbn [hd nth]. change ("action" +:+ ":") with CallbackActionPrefix.
  unfold bind at 1, get_user at 1. cbn [user set_calls].
  rewrite decide_False by done. rewrite decide_False by done.
  rewrite decide_True by done.
  set (w0 := set_calls _ w).
  assert (keeps_records w w0) as Hk0 by apply keeps_records_calls.
  destruct Haction as [-> | ->].
  - rewrite decide_False by done. rewrite decide_False by done.
    rewrite decide_False by done. rewrite decide_True by done.
    rewrite (decide_True (P := ActionExitMenu = ActionExitMenu)) by done.
    case_decide as Hst.
    + unfold bind. unfold fsm.RecordFSM_Event, fsm.fire, bind, get_user.
      change (user w0) with (user w). rewrite Hst.
      cbn [fsm.transition fsm.RecordFSM_events List.find fmap option_fmap option_map
           bool_decide decide_rel andb fst snd]. simpl.
      match goal with |- context [fsm.enterRecordIdle ?e ?w1] =>
        destruct (enterRecordIdle_keeps_draft e w1)
          as (w' & -> & Hu & Hh & Ht & Hr & more & Hc); [by right|] end.
      exists w'. unfold ret. split; [reflexivity|].
      cbn [user set_user heap calls ticks] in Hu, Hh, Ht, Hc.
      change (user w0) with (user w) in Hu, Hc.
      split.
      { unfold keeps_records. rewrite Hu, Hh, Ht. subst w0. cbn [heap ticks set_calls calls].
        repeat split.
        exists ([botport.AnswerCallback (fsm.query_ID query) ""] ++ more
                ++ [mainMenuCall (user w)]).
        rewrite Hc. cbn [calls set_calls]. by rewrite <- app_assoc. }
      split.
      { intros _ _. rewrite Hu, Hc. split; [done|].
        etransitivity; [apply last_more|reflexivity]. }
      split; [done|]. intros Hne. by exfalso.
    + exists w0. split; [reflexivity|]. split; [done|].
      split; [by intros _ ?|]. split; [done|]. done.
  - rewrite decide_True by done.
    rewrite (decide_False (P := ActionCancelSection = ActionExitMenu)) by done.
    case_decide as Hst.
    + unfold bind. unfold fsm.RecordFSM_Event, fsm.fire, bind, get_user.
      change (user w0) with (user w). rewrite Hst.
      cbn [fsm.transition fsm.RecordFSM_events List.find fmap option_fmap option_map
           bool_decide decide_rel andb fst snd]. simpl.
      match goal with |- context [fsm.enterSelectingSection ?e ?w1] =>
        destruct (enterSelectingSection_frame e w1) as (w' & -> & Hk & Hlk) end.
      exists w'. unfold ret. split; [reflexivity|].
      split.
      { eapply keeps_records_trans; [exact Hk0|].
        eapply keeps_records_trans; [|exact Hk].
        repeat split. exists []. by rewrite app_nil_r. }
      split; [done|].
      split.
      { intros _ _. exact Hlk. }
      intros Hne. by exfalso.
    + exists w0. split; [reflexivity|]. split; [done|].
      split; [done|]. split; [by intros _ ?|]. done.
Qed.

(** X27: in the section menu, the callback [section:sid] for a section
    whose first question is of the text type, when the port accepts the
    edit: the callback is acknowledged and the message that carried the
    menu is edited into the prompt of the first question, addressed to the
    user's own chat, with the row of the cancel button as its only row; the
    machine is in answering_question at question 0 of the section, and the
    edited message is remembered as the last prompt.  Nothing else
    changes. *)
Theorem X27_select_section_asks_first_question (query : fsm.CallbackQuery)
    (port : botport.BotPort) rc w sid sec q msg :
  RecordFSM (user w) = StateSelectingSection →
  fsm.query_Data query = "section:" +:+ sid →
  config.sections rc !! sid = Some sec →
  config.Questions sec !! 0%nat = Some q →
  questions.Get registry (config.Type_ q) = Some questions.textStrategy →
  fsm.query_MessageID query ≠ 0 →
  let ask := botport.EditMessage (UserID (user w)) (fsm.query_MessageID query)
               (config.Prompt q) (tgbotapi.InlineKeyboardPtr [fsm.cancelRow]) in
  port (calls w ++ [botport.AnswerCallback (fsm.query_ID query) ""]) ask = (msg, None) →
  fsm.handleCallbackQuery registry forwardTpl showSectionSelectionMenu query port rc w
  = Ok tt
      (set_calls (calls w ++ [botport.AnswerCallback (fsm.query_ID query) ""; ask])
         (set_user
            (set_LastPrompt msg
               (set_LastMessageID (botport.MessageID msg)
                  (set_RecordFSM StateAnsweringQuestion
                     (set_CurrentQuestion 0 (set_CurrentSection sid (user w)))))) w)).
Proof.
  intros Hst Hdata Hsec Hq Hget Hmid ask Hport.
  unfold fsm.handleCallbackQuery. rewrite Hdata.
  unfold bind at 1. unfold port_call at 1.
  change (SplitN2 ("section:" +:+ sid)) with [ "section"; sid ].
  cbn [hd nth]. change ("section" +:+ ":") with CallbackSectionPrefix.
  unfold bind at 1, get_user at 1. cbn [user set_calls]. rewrite Hst.
  rewrite decide_False by done. rewrite decide_True by done.
  rewrite decide_True by done.
  unfold bind at 1, modify_user at 1. unfold bind at 1, modify_user at 1.
  unfold bind at 1. unfold fsm.RecordFSM_Event, fsm.fire, bind at 1, get_user at 1.
  cbn [user set_user set_calls].
  replace (RecordFSM (set_CurrentQuestion 0 (set_CurrentSection sid (user w))))
    with StateSelectingSection by (by rewrite <- Hst).
  cbn [fsm.transition fsm.RecordFSM_events List.find fmap option_fmap option_map
       bool_decide decide_rel andb fst snd]. simpl.
  unfold fsm.enterAnsweringQuestion, fsm.askCurrentQuestion, bind, get_user, modify_user.
  cbn [user set_user set_calls fsm.Args_ fsm.mkArgs fsm.botPort fsm.recordConfig
       fsm.messageID].
  change (CurrentSection (set_RecordFSM StateAnsweringQuestion
            (set_CurrentQuestion 0 (set_CurrentSection sid (user w))))) with sid.
  rewrite Hsec.
  assert (0 < len (config.Questions sec)) as Hlen.
  { destruct (config.Questions sec); [done|]. unfold len. simpl. lia. }
  change (CurrentQuestion (set_RecordFSM StateAnsweringQuestion
            (set_CurrentQuestion 0 (set_CurrentSection sid (user w))))) with 0.
  rewrite decide_False by lia. change (Z.to_nat 0) with 0%nat. rewrite Hq, Hget.
  cbn [questions.Render questions.textStrategy]. unfold ret at 1.
  cbn [questions.ForceNew questions.Keyboard questions.Text negb default app
       questions.Question].
  rewrite (bool_decide_eq_false_2 (fsm.query_MessageID query = 0)) by done.
  rewrite (bool_decide_eq_true_2 (fsm.query_MessageID query ≠ 0)) by done.
  cbn [andb].
  rewrite (bool_decide_eq_true_2 (fsm.query_MessageID query ≠ 0)) by done.
  unfold port_call. cbn [user set_user calls set_calls UserID set_RecordFSM
    set_CurrentQuestion set_CurrentSection].
  fold ask. rewrite Hport. cbn [botport.IsCode]. unfold ret.
  cbn [user set_user calls set_calls]. by rewrite <- app_assoc.
Qed.

End callback_props.

(** ** The last saved record *)

Lemma findLastSaved_lastSaved (rs : list (option loc)) w :
  Forall is_Some rs →
  fsm.findLastSaved (rev rs) w = Ok (fsm.lastSaved (heap w) rs) w.
Proof.
  induction 1 as [|r rs [p ->] _ IH]; [done|].
  simpl. revert IH. generalize (fsm.lastSaved (heap w) rs). intros o IH.
  assert (∀ l, fsm.findLastSaved l w = Ok o w →
            fsm.findLastSaved (l ++ [Some p]) w
            = Ok (match o with
                  | Some q => Some q
                  | None => if IsSaved (heap w !!! p) then Some p else None
                  end) w) as Happ.
  { clear. intros l. induction l as [|x l IHl]; simpl.
    - intros [= <-]. unfold bind, load, ret. by destruct (IsSaved _).
    - destruct x as [q|]; [|done]. unfold bind, load.
      destruct (IsSaved (heap w !!! q)).
      + by intros [= <-].
      + apply IHl. }
  by apply Happ.
Qed.


Section share_props.
Context `{GoRuntime}.
Context (forwardTpl : fsm.forwardPayload → questions.result string).

(** X28: [handleShareLastRecord], for a records list without nil entries,
    never panics, sends exactly one message to the chat, without a
    keyboard, and changes neither the user state nor any record.  It shares
    the saved record of greatest index only, never the draft: without a
    saved record the message is the no-records notice and nothing but the
    port changes; with one, and a template that renders, the message is
    the rendered text between two rules under the copy instruction. *)
Theorem X28_share_last_record (port : botport.BotPort) rc chatID w :
  Forall is_Some (Records (user w)) →
  ∃ text w',
    fsm.handleShareLastRecord forwardTpl port rc chatID w = Ok tt w'
    ∧ user w' = user w ∧ heap w' = heap w
    ∧ calls w' = calls w ++ [botport.SendMessage chatID text tgbotapi.NoMarkup]
    ∧ (fsm.lastSaved (heap w) (Records (user w)) = None →
         text = "Нет сохраненных записей для пересылки." ∧ w' = set_calls (calls w') w)
    ∧ (∀ p payload w1 shareText,
         fsm.lastSaved (heap w) (Records (user w)) = Some p →
         fsm.buildForwardPayload rc (Some p) w = Ok payload w1 →
         forwardTpl payload = inl shareText →
         text = "Чтобы поделиться, скопируйте текст ниже:" +:+ fsm.nl +:+ fsm.nl
                  +:+ "---" +:+ fsm.nl +:+ shareText +:+ fsm.nl +:+ "---").
Proof.
  intros Hrs. unfold fsm.handleShareLastRecord, bind at 1, get_user at 1.
  unfold bind at 1. rewrite (findLastSaved_lastSaved _ w Hrs).
  destruct (fsm.lastSaved (heap w) (Records (user w))) as [p|].
  - unfold bind at 1. rewrite buildForwardPayload_spec.
    set (payload := {| fsm.UserID := _ |}). set (w1 := set_ticks _ _).
    unfold fsm.renderForwardMessage.
    destruct (forwardTpl payload) as [shareText|err] eqn:Htpl.
    + unfold fsm.send, port_call, bind, ret. do 2 eexists. split; [reflexivity|].
      split; [done|]. split; [done|]. split; [done|]. split; [done|].
      intros p' payload' w1' shareText' [= <-] Hb Htpl'.
      rewrite buildForwardPayload_spec in Hb. injection Hb as <- _.
      fold payload in Htpl'. rewrite Htpl in Htpl'. by injection Htpl' as <-.
    + unfold fsm.send, port_call, bind, ret. do 2 eexists. split; [reflexivity|].
      split; [done|]. split; [done|]. split; [done|]. split; [done|].
      intros p' payload' w1' shareText' [= <-] Hb Htpl'.
      rewrite buildForwardPayload_spec in Hb. injection Hb as <- _.
      fold payload in Htpl'. rewrite Htpl in Htpl'. done.
  - unfold fsm.send, port_call, bind, ret. do 2 eexists. split; [reflexivity|].
    split; [done|]. split; [done|]. split; [done|]. split; [done|].
    intros p payload w1 shareText [=].
Qed.

End share_props.

(** ** The store of user states *)

(** X19: [GetOrCreateUserState] returns the state that the store holds
    for the user afterwards and leaves the states of all other users
    alone.  The returned state carries the given name; for a known user it
    is the stored state with, at most, the name replaced; for a new user it
    has no records, no draft and both machines in their initial states; and
    a second call with the same arguments returns the same state and
    leaves the store as it is. *)
Theorem X19_GetOrCreateUserState_spec userID userName (s : store.Store) :
  ∃ u s', store.GetOrCreateUserState userID userName s = (u, s')
    ∧ s' !! userID = Some u
    ∧ (∀ other, other ≠ userID → s' !! other = s !! other)
    ∧ UserName u = userName
    ∧ (∀ u0, s !! userID = Some u0 → u = store.set_UserName userName u0)
    ∧ (s !! userID = None →
         UserID u = userID ∧ Records u = [] ∧ CurrentRecord u = None
         ∧ MainMenuFSM u = StateIdle ∧ RecordFSM u = StateRecordIdle)
    ∧ store.GetOrCreateUserState userID userName s' = (u, s').
Proof.
  unfold store.GetOrCreateUserState at 1. unfold store.Store in *.
  destruct (s !! userID) as [u0|] eqn:Hu0; cbv zeta.
  - do 2 eexists. split; [reflexivity|].
    split; [by rewrite lookup_insert_eq|].
    split; [by intros other Ho; rewrite lookup_insert_ne|].
    assert ((if decide (UserName u0 ≠ userName)
             then store.set_UserName userName u0 else u0)
            = store.set_UserName userName u0) as ->.
    { case_decide as Hn; [done|]. subst userName. by destruct u0. }
    split; [done|]. split; [by intros ? [= <-]|]. split; [done|].
    unfold store.GetOrCreateUserState, store.Store. rewrite lookup_insert_eq.
    rewrite decide_False by (intros Hn; by apply Hn).
    by rewrite insert_insert_eq.
  - do 2 eexists. split; [reflexivity|].
    split; [by rewrite lookup_insert_eq|].
    split; [by intros other Ho; rewrite lookup_insert_ne|].
    split; [done|]. split; [done|]. split; [done|].
    unfold store.GetOrCreateUserState, store.Store. rewrite lookup_insert_eq.
    rewrite decide_False by (intros Hn; by apply Hn).
    by rewrite insert_insert_eq.
Qed.

(** ** The fake adapter *)

Lemma find_rev_snoc {A} (P : A → bool) (l : list A) x :
  List.find P (rev (l ++ [x])) = if P x then Some x else List.find P (rev l).
Proof. by rewrite rev_app_distr. Qed.

Lemma fake_send_run chat text markup (f : fakeadapter.FakeAdapter) :
  fakeadapter.maybeFail "send_message" f = (None, f) →
  let id := if decide (fakeadapter.NextMessageID f = 0) then 1
            else fakeadapter.NextMessageID f in
  fakeadapter.SendMessage context.Background chat text markup f
  = ((fakeadapter.botMessage chat id text, None),
     {| fakeadapter.Calls :=
          fakeadapter.Calls f ++
            [{| fakeadapter.Op := "send_message"; fakeadapter.ChatID := chat;
                fakeadapter.MessageID := id; fakeadapter.Text := text;
                fakeadapter.Markup := markup; fakeadapter.Callback := "" |}];
        fakeadapter.NextMessageID := int_add id 1;
        fakeadapter.FailNext := fakeadapter.FailNext f |}).
Proof.
  intros Hmf. unfold fakeadapter.SendMessage, context.Background, mbind, fakeadapter.F_bind.
  rewrite Hmf. unfold fakeadapter.nextMessageID, fakeadapter.record, mret, fakeadapter.F_ret.
  by case_decide.
Qed.

(** X20: on a fake adapter with no failure scripted for send_message, a
    send succeeds with the identifier [NextMessageID] (1 when that counter
    is 0); the counter becomes the identifier plus one; exactly one call is
    appended to [Calls], with the chat, the identifier, the text and the
    markup of the send; [LastCall "send_message"] then returns that call,
    and [LastCall] of any other operation returns what it returned
    before. *)
Theorem X20_fake_send_recorded chat text markup (f : fakeadapter.FakeAdapter) :
  (∀ m, fakeadapter.FailNext f = Some m → m !! "send_message" = None) →
  let id := if decide (fakeadapter.NextMessageID f = 0) then 1
            else fakeadapter.NextMessageID f in
  let call := {| fakeadapter.Op := "send_message"; fakeadapter.ChatID := chat;
                 fakeadapter.MessageID := id; fakeadapter.Text := text;
                 fakeadapter.Markup := markup; fakeadapter.Callback := "" |} in
  ∃ f', fakeadapter.SendMessage context.Background chat text markup f
        = ((fakeadapter.botMessage chat id text, None), f')
    ∧ fakeadapter.Calls f' = fakeadapter.Calls f ++ [call]
    ∧ fakeadapter.NextMessageID f' = int_add id 1
    ∧ fakeadapter.FailNext f' = fakeadapter.FailNext f
    ∧ (fakeadapter.LastCall "send_message" f').1 = Some call
    ∧ ∀ op, op ≠ "send_message" →
        (fakeadapter.LastCall op f').1 = (fakeadapter.LastCall op f).1.
Proof.
  intros Hno id call.
  assert (fakeadapter.maybeFail "send_message" f = (None, f)) as Hmf.
  { unfold fakeadapter.maybeFail. destruct (fakeadapter.FailNext f) as [m|] eqn:Hm; [|done].
    by rewrite (Hno m eq_refl). }
  rewrite (fake_send_run chat text markup f Hmf). fold id. fold call.
  eexists. split; [reflexivity|].
  do 3 (split; [reflexivity|]).
  unfold fakeadapter.LastCall. cbn [fst fakeadapter.Calls].
  split.
  - rewrite find_rev_snoc. by rewrite bool_decide_eq_true_2.
  - intros op Hop. rewrite find_rev_snoc. rewrite bool_decide_eq_false_2; [done|].
    simpl. congruence.
Qed.

(** X21: a failure scripted with [Fail "send_message" err] is consumed
    by exactly one send.  That send returns the error (as it is when it is
    a [BotError], wrapped with the code [fake_error] otherwise, also when
    [err] is nil), records no call and uses no message identifier; the
    failures scripted for other operations are untouched; and the send
    after it succeeds with the identifier that the failed one would have
    got. *)
Theorem X21_fake_Fail_consumed chat text markup chat' text' markup' err
    (f : fakeadapter.FakeAdapter) :
  let f1 := (fakeadapter.Fail "send_message" err f).2 in
  let failure :=
    match err with
    | Some (BotError _ _ _ _ as be) => be
    | _ => BotError "send_message" "fake_error" 0 (botport.Error <$> err)
    end in
  let id := if decide (fakeadapter.NextMessageID f = 0) then 1
            else fakeadapter.NextMessageID f in
  ∃ f2 f3,
    fakeadapter.SendMessage context.Background chat text markup f1
    = ((botport.BotMessage_zero, Some failure), f2)
    ∧ fakeadapter.Calls f2 = fakeadapter.Calls f
    ∧ fakeadapter.NextMessageID f2 = fakeadapter.NextMessageID f
    ∧ (∀ op, op ≠ "send_message" →
         default ∅ (fakeadapter.FailNext f2) !! op
         = default ∅ (fakeadapter.FailNext f) !! op)
    ∧ fakeadapter.SendMessage context.Background chat' text' markup' f2
      = ((fakeadapter.botMessage chat' id text', None), f3)
    ∧ fakeadapter.Calls f3
      = fakeadapter.Calls f ++
          [{| fakeadapter.Op := "send_message"; fakeadapter.ChatID := chat';
              fakeadapter.MessageID := id; fakeadapter.Text := text';
              fakeadapter.Markup := markup'; fakeadapter.Callback := "" |}].
Proof.
  intros f1 failure id. subst f1.
  unfold fakeadapter.Fail. cbn [snd].
  unfold fakeadapter.SendMessage at 1, context.Background, mbind, fakeadapter.F_bind.
  unfold fakeadapter.maybeFail at 1. cbn [fakeadapter.FailNext fakeadapter.set_FailNext].
  rewrite lookup_insert_eq.
  set (f2 := fakeadapter.set_FailNext _ _).
  assert (fakeadapter.maybeFail "send_message" f2 = (None, f2)) as Hmf.
  { unfold fakeadapter.maybeFail. subst f2.
    cbn [fakeadapter.FailNext fakeadapter.set_FailNext]. by rewrite lookup_delete_eq. }
  exists f2. eexists.
  split.
  { subst failure. destruct err as [[]|]; reflexivity. }
  split; [done|]. split; [done|].
  split.
  { intros op Hop. subst f2. cbn [fakeadapter.FailNext fakeadapter.set_FailNext default from_option].
    unfold Datatypes.id. rewrite lookup_delete_ne by done. by rewrite lookup_insert_ne. }
  pose proof (fake_send_run chat' text' markup' f2 Hmf) as Hrun.
  unfold context.Background in Hrun. rewrite Hrun.
  split; reflexivity.
Qed.

(** ** The Telegram adapter and the client *)

Section adapter_props.
Context `{GoRuntime}.
Context (json_Marshal : option tgbotapi.InlineKeyboardMarkup → option string).

(** X22: when the Telegram adapter does not reach the client.  With a
    context that is done, [SendMessage], [EditMessage] and
    [AnswerCallback] return a [BotError] of the operation whose code is
    [context_canceled], [context_deadline] or [context_error] according to
    the error of the context, and [EditMessage] with a reply keyboard or
    the removal of one returns the code [bad_payload]; in all these cases
    the state of the client is unchanged: no request is made. *)
Theorem X22_adapter_no_request {S} (client : telegramadapter.telegramClient S) (st : S) :
  (∀ err chatID text markup,
     telegramadapter.SendMessage client json_Marshal (Some err) chatID text markup st
     = ((botport.BotMessage_zero,
         Some (BotError "send_message" (context_code err) 0 (Some (context.Error err)))), st))
  ∧ (∀ err chatID messageID text markup,
       telegramadapter.EditMessage client json_Marshal (Some err) chatID messageID text
         markup st
       = ((botport.BotMessage_zero,
           Some (BotError "edit_message" (context_code err) 0 (Some (context.Error err)))),
          st))
  ∧ (∀ err callbackID text,
       telegramadapter.AnswerCallback client (Some err) callbackID text st
       = (Some (BotError "answer_callback" (context_code err) 0 (Some (context.Error err))),
          st))
  ∧ (∀ chatID messageID text markup,
       (markup = tgbotapi.ReplyKeyboardRemove ∨ ∃ rows, markup = tgbotapi.ReplyKeyboard rows) →
       telegramadapter.EditMessage client json_Marshal context.Background chatID messageID
         text markup st
       = ((botport.BotMessage_zero,
           Some (BotError "edit_message" "bad_payload" 0
                   (Some ("unsupported markup type " +:+ tgbotapi.type_name markup)))), st)).
Proof.
  split; [|split; [|split]].
  - by intros [].
  - by intros [].
  - by intros [].
  - intros chatID messageID text markup [-> | [rows ->]]; reflexivity.
Qed.

(** X23: through the adapter and the client of the Telegram API, an edit
    of an existing message that the API refuses with its canonical
    not-modified error is a success: exactly one edit request is sent, no
    error is returned, and the message returned has the chat and the
    identifier of the edited message and an empty payload. *)
Theorem X23_edit_not_modified_is_success (api : bot.Api) chatID messageID text markup kb
    (log : list bot.Request) m err :
  messageID ≠ 0 →
  telegramadapter.toInlineKeyboard markup = inl kb →
  api log (bot.EditRequest chatID messageID text kb) = (m, Some err) →
  bot.Error err = bot.notModified →
  telegramadapter.EditMessage (telegramadapter.Client api) json_Marshal context.Background
    chatID messageID text markup log
  = (({| botport.ChatID := chatID; botport.MessageID := messageID;
         botport.Transport := "telegram"; botport.Payload := "";
         botport.Meta := telegramadapter.metaFromMarkup json_Marshal (as_pointer kb) |},
      None),
     log ++ [bot.EditRequest chatID messageID text kb]).
Proof.
  intros Hid Hkb Hapi Herr.
  unfold telegramadapter.EditMessage, context.Background. rewrite Hkb.
  unfold mbind, telegramadapter.A_bind.
  cbn [telegramadapter.client_EditMessageText telegramadapter.Client].
  unfold bot.EditMessageText. rewrite decide_False by done.
  unfold mbind, bot.C_bind, bot.request. rewrite Hapi. cbn [snd fst].
  rewrite decide_True by done. reflexivity.
Qed.

(** X24: through the adapter and the client, an edit with the message
    identifier 0 sends a new message instead: the only request is a send
    request, whose markup is the inline keyboard as a pointer (a nil
    pointer when there is no keyboard).  When the API accepts it the
    message it returns is converted; when the API refuses it the error is
    a [BotError] of the operation edit_message that wraps the text of the
    client's send error. *)
Theorem X24_edit_zero_id_sends_new_message (api : bot.Api) chatID text markup kb
    (log : list bot.Request) :
  telegramadapter.toInlineKeyboard markup = inl kb →
  let r := telegramadapter.EditMessage (telegramadapter.Client api) json_Marshal
             context.Background chatID 0 text markup log in
  r.2 = log ++ [bot.SendRequest chatID text (as_pointer kb)]
  ∧ (∀ m, api log (bot.SendRequest chatID text (as_pointer kb)) = (m, None) →
       r.1 = (telegramadapter.toBotMessage json_Marshal m (as_pointer kb), None))
  ∧ (∀ m err, api log (bot.SendRequest chatID text (as_pointer kb)) = (m, Some err) →
       ∃ code retry,
         r.1 = (botport.BotMessage_zero,
                Some (BotError "edit_message" code retry
                        (Some ("failed to send message: " +:+ bot.Error err))))).
Proof.
  intros Hkb r. subst r.
  unfold telegramadapter.EditMessage, context.Background. rewrite Hkb.
  unfold mbind, telegramadapter.A_bind.
  cbn [telegramadapter.client_EditMessageText telegramadapter.Client].
  unfold bot.EditMessageText. rewrite decide_True by done.
  unfold bot.SendMessage, mbind, bot.C_bind, bot.request. fold (as_pointer kb).
  destruct (api log (bot.SendRequest chatID text (as_pointer kb))) as [m0 [e0|]] eqn:Hapi;
    cbn [snd fst mret bot.C_ret telegramadapter.A_ret].
  - split; [done|]. split; [by intros m [=]|]. intros m err [= <- <-].
    unfold telegramadapter.wrapTelegramError.
    destruct (_ || _).
    + unfold telegramadapter.wrapContextError.
      destruct (bot.IsCanceled _); [by do 2 eexists|].
      destruct (bot.IsDeadlineExceeded _); by do 2 eexists.
    + destruct (telegramadapter.classifyTelegramError _) as [code retry]. by do 2 eexists.
  - split; [done|]. split; [by intros m [= <-]|]. by intros m err [=].
Qed.

(** X25: the message that a successful [EditMessage] of the adapter
    returns always has a meta map, in which the type of the markup is that
    of a pointer to an inline keyboard, whatever the markup passed was (nil
    and a keyboard passed by value included). *)
Theorem X25_edit_result_meta {S} (client : telegramadapter.telegramClient S) (st : S)
    chatID messageID text markup bm st' :
  telegramadapter.EditMessage client json_Marshal context.Background chatID messageID
    text markup st = ((bm, None), st') →
  ∃ meta, botport.Meta bm = Some meta
    ∧ meta !! "markup_type" = Some "*tgbotapi.InlineKeyboardMarkup".
Proof.
  unfold telegramadapter.EditMessage, context.Background.
  destruct (telegramadapter.toInlineKeyboard markup) as [kb|e]; [|done].
  unfold mbind, telegramadapter.A_bind.
  destruct (telegramadapter.client_EditMessageText _ _ _ _ _ _) as [[m [e|]] st1];
    cbn [snd fst mret telegramadapter.A_ret]; [done|].
  intros [= <- <-]. cbn [telegramadapter.toBotMessage botport.Meta].
  destruct kb as [k|]; unfold telegramadapter.metaFromMarkup;
    cbn [telegramadapter.extractInlineKeyboard telegramadapter.type_name tgbotapi.type_name].
  all: destruct (json_Marshal _); eexists; (split; [reflexivity|]).
  all: by rewrite ?lookup_insert_ne, lookup_singleton_eq by done.
Qed.

End adapter_props.

(** ** The retry hint of a rate limit *)

Section retry_props.
Import telegramadapter.

Lemma pretty_N_char_digit (d : N) :
  (d < 10)%N →
  is_digit (pretty_N_char d) = true
  ∧ Z.of_nat (nat_of_ascii (pretty_N_char d) - 48) = Z.of_N d.
Proof.
  intros Hd.
  destruct d as [|p]; [done|].
  do 4 (destruct p as [p|p|]; try done; try lia).
Qed.

Lemma pretty_N_go_digits (x : N) :
  ∃ k : Z, 0 <= k ∧ ∀ acc s,
    decimal acc (pretty_N_go x s) = decimal (acc * 10 ^ k + Z.of_N x) s
    ∧ digits_prefix (pretty_N_go x s) = pretty_N_go x (digits_prefix s).
Proof.
  induction (N.lt_wf_0 x) as [x _ IH].
  destruct (decide (x = 0)%N) as [->|Hx].
  - exists 0. split; [done|]. intros acc s. rewrite !pretty_N_go_0. split; [|done].
    f_equal. lia.
  - assert (0 < x)%N as Hpos by lia.
    destruct (IH (x `div` 10)%N) as (k & Hk & IHk).
    { apply N.div_lt; lia. }
    exists (k + 1). split; [lia|]. intros acc s.
    rewrite (pretty_N_go_step x s) by done.
    destruct (IHk acc (String (pretty_N_char (x `mod` 10)) s)) as [-> ->].
    destruct (pretty_N_char_digit (x `mod` 10)%N) as [Hdig Hval].
    { apply N.mod_lt. lia. }
    cbn [decimal digits_prefix]. rewrite Hdig, Hval.
    split; [|by rewrite (pretty_N_go_step x) by done].
    f_equal. rewrite Z.pow_add_r by lia.
    pose proof (N.div_mod x 10 ltac:(lia)) as Hdm.
    assert (Z.of_N x = 10 * Z.of_N (x `div` 10) + Z.of_N (x `mod` 10)) as -> by lia.
    lia.
Qed.

Lemma string_app_assoc (s1 s2 s3 : string) : (s1 +:+ s2) +:+ s3 = s1 +:+ s2 +:+ s3.
Proof.
  induction s1 as [|c s1 IH]; [done|].
  change (String c ((s1 +:+ s2) +:+ s3) = String c (s1 +:+ s2 +:+ s3)). by rewrite IH.
Qed.

Lemma append_cons c (s t : string) : String c s +:+ t = String c (s +:+ t).
Proof. reflexivity. Qed.

Lemma append_nil (t : string) : "" +:+ t = t.
Proof. reflexivity. Qed.

Lemma pretty_N_go_app (x : N) s : pretty_N_go x s = pretty_N_go x "" +:+ s.
Proof.
  revert s. induction (N.lt_wf_0 x) as [x _ IH]. intros s.
  destruct (decide (x = 0)%N) as [->|Hx].
  - by rewrite !pretty_N_go_0.
  - rewrite (pretty_N_go_step x s), (pretty_N_go_step x "") by lia.
    assert (x `div` 10 < x)%N as Hlt by (apply N.div_lt; lia).
    rewrite (IH _ Hlt (String (pretty_N_char (x `mod` 10)) s)).
    rewrite (IH _ Hlt (String (pretty_N_char (x `mod` 10)) "")).
    by rewrite string_app_assoc.
Qed.

Lemma pretty_N_go_nonempty (x : N) s : (0 < x)%N → pretty_N_go x s ≠ "".
Proof.
  intros Hx. rewrite pretty_N_go_step by done. rewrite pretty_N_go_app.
  destruct (pretty_N_go _ ""); done.
Qed.

(** The decimal numeral of a natural number is read back. *)
Lemma itoa_digits (n : Z) rest :
  0 <= n →
  digits_prefix rest = "" →
  digits_prefix (itoa n +:+ rest) = itoa n
  ∧ itoa n ≠ ""
  ∧ decimal 0 (itoa n) = n.
Proof.
  intros Hn Hrest. unfold itoa, pretty, pretty_Z.
  destruct n as [|p|p]; [|clear Hn|lia].
  { change (digits_prefix ("0" +:+ rest)) with (String "0" (digits_prefix rest)).
    by rewrite Hrest. }
  assert (pretty p = pretty_N_go (N.pos p) "") as -> by reflexivity.
  destruct (pretty_N_go_digits (N.pos p)) as (k & Hk & Hgo).
  split; [|split].
  - rewrite <- (pretty_N_go_app (N.pos p) rest). destruct (Hgo 0 rest) as [_ ->]. by rewrite Hrest.
  - by apply pretty_N_go_nonempty.
  - destruct (Hgo 0 "") as [-> _]. cbn [decimal]. lia.
Qed.

Lemma FindStringSubmatch_here s digits :
  (∃ rest, match_fold "retry after " s = Some rest ∧ digits_prefix rest = digits) →
  digits ≠ "" →
  FindStringSubmatch s = Some digits.
Proof.
  intros (rest & Hm & <-) Hne. destruct s; cbn [FindStringSubmatch]; rewrite Hm;
    by rewrite decide_False.
Qed.

Lemma FindStringSubmatch_skip c s :
  match_fold "retry after " (String c s) = None →
  FindStringSubmatch (String c s) = FindStringSubmatch s.
Proof. intros Hm. cbn [FindStringSubmatch]. by rewrite Hm. Qed.

(** X26: [extractRetryAfter] reads back the number of seconds of a rate
    limit.  For the error text of Telegram, bare or behind the prefix that
    the client puts before a send error, in which "retry after " is
    followed by the decimal numeral of [n >= 0] and then by something that
    does not start with a digit, the result is [n] seconds in nanoseconds
    when [n] is at most 9223372036, and 0 beyond, where the duration does
    not fit 64 bits. *)
Theorem X26_extractRetryAfter_reads_itoa (pre : string) (n : Z) (rest : string) :
  pre ∈ retryPrefixes →
  0 <= n →
  digits_prefix rest = "" →
  extractRetryAfter (pre +:+ "retry after " +:+ itoa n +:+ rest)
  = if decide (n <= 9223372036) then n * 1000000000 else 0.
Proof.
  intros Hpre Hn Hrest.
  destruct (itoa_digits n rest Hn Hrest) as (Hdp & Hne & Hdec).
  assert (FindStringSubmatch ("retry after " +:+ itoa n +:+ rest) = Some (itoa n)) as Hfind.
  { apply FindStringSubmatch_here; [|done]. exists (itoa n +:+ rest). split; [|done].
    reflexivity. }
  assert (FindStringSubmatch (pre +:+ "retry after " +:+ itoa n +:+ rest) = Some (itoa n))
    as Hfind'.
  { unfold retryPrefixes in Hpre.
    repeat (apply elem_of_cons in Hpre as [-> | Hpre]); [..|by apply elem_of_nil in Hpre].
    - exact Hfind.
    - rewrite !append_cons, append_nil.
      rewrite !FindStringSubmatch_skip by reflexivity. exact Hfind.
    - rewrite !append_cons, append_nil.
      rewrite !FindStringSubmatch_skip by reflexivity. exact Hfind. }
  unfold extractRetryAfter. rewrite Hfind'. unfold ParseSeconds. rewrite Hdec.
  change (2 ^ 63 `div` 1000000000) with 9223372036.
  destruct (decide (n > 9223372036)), (decide (n <= 9223372036)); try lia; done.
Qed.

End retry_props.


(** ** The further properties at concrete inputs *)

(** The schema [schema_ab], validated in the order [a], [b], has sections
    (X1). *)
Lemma X1_witness : config.sections testing.schema_ab ≠ ∅.
Proof.
  refine (proj1 (X1_Validate_sound None ["a"; "b"] testing.schema_ab _ _)).
  - vm_compute. reflexivity.
  - vm_compute. reflexivity.
Defined.

(** The schema [schema_ab], accepted in the order [a], [b], is accepted in
    the order [b], [a] (X2). *)
Lemma X2_witness : config.Validate None ["b"; "a"] (Some testing.schema_ab) = None.
Proof.
  apply (X2_Validate_order_independent None ["a"; "b"] ["b"; "a"] testing.schema_ab).
  - vm_compute. reflexivity.
  - vm_compute. apply perm_swap.
  - vm_compute. reflexivity.
Defined.

(** The text strategy, registered in the empty registry, is found under
    the name " Text " (X3). *)
Lemma X3_witness :
  ∃ r, questions.MustRegister (H := testing.runtime)
         (questions.textStrategy (H := testing.runtime)) ∅ = Some r
    ∧ questions.Get (H := testing.runtime) r " Text "
      = Some (questions.textStrategy (H := testing.runtime)).
Proof.
  eexists. split; [reflexivity|].
  refine (proj1 (X3_MustRegister_Get (H := testing.runtime) _ ∅ _ eq_refl) " Text " _).
  vm_compute. reflexivity.
Defined.

(** The answer " Alice " to the first question of section [a] (X4). *)
Lemma X4_witness :
  ∃ w', questions.HandleAnswer (questions.textStrategy (H := testing.runtime))
          (testing.answer_ctx (testing.question "q1" "P1" "text" "k1"))
          (testing.text_input " Alice ") testing.w_answering
        = Ok (inl {| questions.Advance := true; questions.Repeat := false;
                     questions.Feedback := "" |}) w'
    ∧ data_lookup (Data (heap w' !!! 1%positive)) "k1" = Some "Alice".
Proof.
  destruct (proj2 (X4_text_answer_stored (H := testing.runtime)
                     (testing.answer_ctx (testing.question "q1" "P1" "text" "k1"))
                     (testing.text_input " Alice ") 1%positive testing.w_answering
                     eq_refl eq_refl))
    as (w' & Hrun & Hk & _).
  - vm_compute. discriminate.
  - exists w'. split; [exact Hrun|exact Hk].
Defined.

(** The button [y] of a buttons question pressed (X5): the engine is told
    to advance and [y] is stored under the key [k3]. *)
Lemma X5_witness :
  ∃ result w',
    questions.HandleAnswer questions.buttonsStrategy
      (testing.answer_ctx testing.buttons_question) (testing.callback_input "y")
      testing.w_answering = Ok (inl result) w'
    ∧ user w' = user testing.w_answering
    ∧ questions.Advance result = true
    ∧ data_lookup (Data (heap w' !!! 1%positive)) "k3" = Some "y".
Proof.
  destruct (X5_buttons_answer_is_an_option
              (testing.answer_ctx testing.buttons_question)
              (testing.callback_input "y") 1%positive testing.w_answering eq_refl)
    as (result & w' & Hrun & Hu & _ & _ & Hadv & Hif).
  assert (questions.Advance result = true) as Ha.
  { apply Hadv. split; [reflexivity|].
    exists {| config.Text := "Yes"; config.Value := "y" |}.
    split; [constructor|reflexivity]. }
  rewrite Ha in Hif. destruct Hif as (_ & _ & Hstored & _).
  exists result, w'. repeat split; assumption.
Defined.

(** The button of the option Yes of a buttons question (X6). *)
Lemma X6_witness :
  ∃ prompt kb data payload,
    questions.Render questions.buttonsStrategy
      (questions.Render_ctx (testing.answer_ctx testing.buttons_question))
      testing.w_answering = Ok (inl prompt) testing.w_answering
    ∧ questions.Keyboard prompt = Some kb
    ∧ [tgbotapi.NewInlineKeyboardButtonData "Yes" data] ∈ kb
    ∧ SplitN2 data = ["answer"; payload]
    ∧ SplitN2 payload = ["q3"; "y"].
Proof.
  destruct (X6_buttons_render_roundtrip
              (questions.Render_ctx (testing.answer_ctx testing.buttons_question))
              testing.w_answering {| config.Text := "Yes"; config.Value := "y" |})
    as (prompt & kb & data & payload & Hrun & Hkb & Hin & Hd & Hp & _).
  - reflexivity.
  - reflexivity.
  - constructor.
  - exists prompt, kb, data, payload. auto.
Defined.

(** The keyboard of the ratings 1 to 3 (X7). *)
Lemma X7_witness :
  ∃ kb,
    questions.TextRatingStrategy.renderRatingButtons
      (questions.Render_ctx (testing.answer_ctx (testing.rating_question 1 3)))
      testing.w_answering
    = Ok (inl {| questions.Text := "Оцените от 1 до 3:";
                 questions.Keyboard := Some kb;
                 questions.ForceNew := false |}) testing.w_answering
    ∧ ∀ button, button ∈ concat kb →
        questions.TextRatingStrategy.isValidRating (H := testing.runtime)
          (testing.rating_question 1 3) (tgbotapi.Text button) = true.
Proof.
  destruct (X7_rating_keyboard (H := testing.runtime)
              (questions.Render_ctx (testing.answer_ctx (testing.rating_question 1 3)))
              testing.w_answering 1 3)
    as (kb & Hrun & _ & _ & _ & Hok).
  - reflexivity.
  - lia.
  - lia.
  - lia.
  - intros i Hi. assert (i = 1 ∨ i = 2 ∨ i = 3) as [->|[->| ->]] by lia; reflexivity.
  - exists kb. split; [exact Hrun|exact Hok].
Defined.

(** The text "Good", the rating 2 and the button finish, answered to a
    text_rating question (X8). *)
Lemma X8_witness :
  ∃ r1 w1 r2 w2 r3 w3,
    questions.TextRatingStrategy.HandleAnswer (H := testing.runtime)
      (testing.answer_ctx (testing.rating_question 1 3)) (testing.text_input "Good")
      testing.w_answering = Ok (inl r1) w1
    ∧ questions.TextRatingStrategy.HandleAnswer (H := testing.runtime)
        (testing.answer_ctx (testing.rating_question 1 3)) (testing.callback_input "2")
        w1 = Ok (inl r2) w2
    ∧ questions.TextRatingStrategy.HandleAnswer (H := testing.runtime)
        (testing.answer_ctx (testing.rating_question 1 3))
        (testing.callback_input "finish") w2 = Ok (inl r3) w3
    ∧ questions.Advance r3 = true
    ∧ data_lookup (Data (heap w3 !!! 1%positive)) "rating"
      = Some (questions.TextRatingStrategy.formatEntry "Good" "2").
Proof.
  destruct (X8_text_rating_flow (H := testing.runtime)
              (testing.answer_ctx (testing.rating_question 1 3)) 1%positive
              testing.w_answering (testing.text_input "Good")
              (testing.callback_input "2") (testing.callback_input "finish"))
    as (r1 & w1 & r2 & w2 & r3 & w3 & H1 & H2 & H3 & _ & _ & _ & _ & Hadv & _ & Hk & _).
  - reflexivity.
  - reflexivity.
  - vm_compute. discriminate.
  - vm_compute. discriminate.
  - vm_compute. discriminate.
  - reflexivity.
  - vm_compute. discriminate.
  - reflexivity.
  - vm_compute. discriminate.
  - vm_compute. reflexivity.
  - reflexivity.
  - right. reflexivity.
  - exists r1, w1, r2, w2, r3, w3.
    split; [exact H1|]. split; [exact H2|]. split; [exact H3|].
    split; [exact Hadv|exact Hk].
Defined.

(** The saved record of user 42 forwarded to the target 777 with
    [clearOnSuccess] (X10). *)
Lemma X10_witness :
  ∃ w', fsm.handleForwardToTarget (H := testing.runtime) fsm.forwardTpl_Execute
          testing.port_ok testing.schema_ab 42 777 true testing.w_saved = Ok tt w'
    ∧ heap w' = heap testing.w_saved
    ∧ CurrentSection (user w') = "".
Proof.
  edestruct (X10_forward_clears_forwarded (H := testing.runtime) fsm.forwardTpl_Execute
               testing.port_ok testing.schema_ab 42 777 testing.w_saved 1%positive)
    as (w' & Hrun & Hh & _ & _ & _ & Hsec & _).
  - reflexivity.
  - discriminate.
  - vm_compute. reflexivity.
  - vm_compute. reflexivity.
  - vm_compute. discriminate.
  - vm_compute. reflexivity.
  - exists w'. split; [exact Hrun|]. split; [exact Hh|exact Hsec].
Defined.

(** The command /start sent while a question is asked (X11). *)
Lemma X11_witness :
  ∃ w', fsm.handleMessage (H := testing.runtime) testing.registry 777
          fsm.forwardTpl_Execute (testing.message "/start" (Some "start"))
          testing.port_ok testing.schema_ab testing.w_answering = Ok tt w'
    ∧ RecordFSM (user w') = StateRecordIdle
    ∧ CurrentRecord (user w') = Some 1%positive.
Proof.
  destruct (X11_start_command_returns_to_menu (H := testing.runtime) testing.registry 777
              fsm.forwardTpl_Execute (testing.message "/start" (Some "start"))
              testing.port_ok testing.schema_ab testing.w_answering eq_refl)
    as (w' & Hrun & Hst & (_ & _ & Hcur & _) & _).
  exists w'. split; [exact Hrun|]. split; [exact Hst|exact Hcur].
Defined.

(** A text sent while the section menu is shown (X12). *)
Lemma X12_witness :
  fsm.handleMessage (H := testing.runtime) testing.registry 777 fsm.forwardTpl_Execute
    (testing.message "hello" None) testing.port_ok testing.schema_ab testing.w_selecting
  = Ok tt (set_calls
      [botport.SendMessage 42
         "Пожалуйста, используйте предложенные кнопки или завершите текущее действие."
         tgbotapi.NoMarkup] testing.w_selecting).
Proof.
  apply (proj1 (proj2 (X12_unexpected_message (H := testing.runtime) testing.registry 777
                         fsm.forwardTpl_Execute (testing.message "hello" None)
                         testing.port_ok testing.schema_ab testing.w_selecting))).
  - reflexivity.
  - left. reflexivity.
Defined.

(** The button "Заполнить запись" pressed by a user without draft (X13). *)
Lemma X13_witness :
  ∃ w', fsm.handleMessage (H := testing.runtime) testing.registry 777
          fsm.forwardTpl_Execute (testing.message ButtonMainMenuFillRecord None)
          testing.port_ok testing.schema_ab testing.w_idle = Ok tt w'
    ∧ CurrentRecord (user w') = Some 1%positive
    ∧ Records (user w') = [].
Proof.
  destruct (X13_fill_record_resumes_draft (H := testing.runtime) testing.registry 777
              fsm.forwardTpl_Execute (testing.message ButtonMainMenuFillRecord None)
              testing.port_ok testing.schema_ab testing.w_idle
              eq_refl eq_refl eq_refl eq_refl)
    as (w' & Hrun & Hcur & _ & _ & Hrec & _).
  exists w'. split; [exact Hrun|]. split; [exact Hcur|exact Hrec].
Defined.

(** The first of the two questions of section [a] answered (X14). *)
Lemma X14_witness :
  fsm.processAnswer (H := testing.runtime) testing.registry testing.port_ok
    testing.schema_ab 10 testing.w_answering
  = fsm.askCurrentQuestion (H := testing.runtime) testing.registry testing.port_ok
      testing.schema_ab 10
      (set_user (set_CurrentQuestion 1 (user testing.w_answering)) testing.w_answering).
Proof.
  apply (X14_processAnswer_steps (H := testing.runtime) testing.registry testing.port_ok
           testing.schema_ab 10 testing.w_answering testing.section_a).
  - reflexivity.
  - vm_compute. reflexivity.
  - vm_compute. split; [discriminate|reflexivity].
  - vm_compute. discriminate.
Defined.

(** The answer "Bob" to the last question of section [a] (X15). *)
Lemma X15_witness :
  ∃ w', fsm.handleMessage (H := testing.runtime) testing.registry 777
          fsm.forwardTpl_Execute (testing.message "Bob" None) testing.port_ok
          testing.schema_ab testing.w_last_question = Ok tt w'
    ∧ heap w' = <[1%positive := with_answer "k2" "Bob" NewRecord_value]>
                  (heap testing.w_last_question)
    ∧ CurrentSection (user w') = "".
Proof.
  edestruct (X15_text_answer_completes_section (H := testing.runtime) testing.registry 777
               fsm.forwardTpl_Execute (testing.message "Bob" None) testing.port_ok
               testing.schema_ab testing.w_last_question
               (config.sections testing.schema_ab) testing.section_a
               (testing.question "q2" "P2" "text" "k2") 1%positive)
    as (w' & more & Hrun & Hh & _ & _ & Hsec & _).
  - reflexivity.
  - reflexivity.
  - reflexivity.
  - reflexivity.
  - reflexivity.
  - reflexivity.
  - vm_compute. discriminate.
  - reflexivity.
  - reflexivity.
  - vm_compute. discriminate.
  - exists w'. split; [exact Hrun|]. split; [exact Hh|exact Hsec].
Defined.

(** The section [b], which has no questions, selected in the section menu
    (X16). *)
Lemma X16_witness :
  fsm.handleCallbackQuery (H := testing.runtime) testing.registry fsm.forwardTpl_Execute
    testing.no_menu (testing.callback "section:b" 7) testing.port_ok testing.schema_ab
    testing.w_selecting
  = Ok tt
      (set_calls
         [botport.AnswerCallback "cb1" "";
          botport.SendMessage 42 "Ошибка навигации по вопросам." tgbotapi.NoMarkup]
         (set_user
            (set_RecordFSM StateAnsweringQuestion
               (set_CurrentQuestion 0 (set_CurrentSection "b" (user testing.w_selecting))))
            testing.w_selecting)).
Proof.
  apply (X16_select_section_without_questions (H := testing.runtime) testing.registry
           fsm.forwardTpl_Execute testing.no_menu (testing.callback "section:b" 7)
           testing.port_ok testing.schema_ab testing.w_selecting "b").
  - reflexivity.
  - reflexivity.
  - intros sec Hsec. vm_compute in Hsec. by injection Hsec as <-.
Defined.

(** The action exit_menu in the section menu (X17). *)
Lemma X17_witness :
  ∃ w', fsm.handleCallbackQuery (H := testing.runtime) testing.registry
          fsm.forwardTpl_Execute testing.no_menu (testing.callback "action:exit_menu" 7)
          testing.port_ok testing.schema_ab testing.w_selecting = Ok tt w'
    ∧ CurrentRecord (user w') = Some 1%positive
    ∧ heap w' = heap testing.w_selecting.
Proof.
  destruct (X17_navigation_keeps_draft (H := testing.runtime) testing.registry
              fsm.forwardTpl_Execute testing.no_menu (testing.callback "action:exit_menu" 7)
              testing.port_ok testing.schema_ab testing.w_selecting ActionExitMenu)
    as (w' & Hrun & (Hh & _ & Hcur & _) & _).
  - reflexivity.
  - left. reflexivity.
  - exists w'. split; [exact Hrun|]. split; [exact Hcur|exact Hh].
Defined.


(** The first send on the zero value of the fake adapter (X20). *)
Lemma X20_witness :
  ∃ f', fakeadapter.SendMessage context.Background 42 "hi" tgbotapi.NoMarkup
          fakeadapter.FakeAdapter_zero
        = ((fakeadapter.botMessage 42 1 "hi", None), f')
    ∧ fakeadapter.NextMessageID f' = 2.
Proof.
  destruct (X20_fake_send_recorded 42 "hi" tgbotapi.NoMarkup fakeadapter.FakeAdapter_zero)
    as (f' & Hrun & _ & Hnext & _).
  - intros m Hm. discriminate Hm.
  - exists f'. split; [exact Hrun|exact Hnext].
Defined.

(** An edit of message 7 that the API answers with the canonical
    not-modified error (X23). *)
Lemma X23_witness :
  telegramadapter.EditMessage (H := testing.runtime)
    (telegramadapter.Client testing.api_not_modified) testing.no_json
    context.Background 42 7 "same" tgbotapi.NoMarkup []
  = (({| botport.ChatID := 42; botport.MessageID := 7;
         botport.Transport := "telegram"; botport.Payload := "";
         botport.Meta :=
           telegramadapter.metaFromMarkup testing.no_json bot.NilInlineKeyboardPtr |},
      None),
     [bot.EditRequest 42 7 "same" None]).
Proof.
  apply (X23_edit_not_modified_is_success (H := testing.runtime) testing.no_json
           testing.api_not_modified 42 7 "same" tgbotapi.NoMarkup None []
           bot.Message_zero (bot.Leaf bot.notModified)).
  - discriminate.
  - reflexivity.
  - reflexivity.
  - reflexivity.
Defined.

(** An edit with the message identifier 0 and no markup (X24). *)
Lemma X24_witness :
  (telegramadapter.EditMessage (H := testing.runtime)
     (telegramadapter.Client testing.api_ok) testing.no_json context.Background
     42 0 "new" tgbotapi.NoMarkup []).2
  = [bot.SendRequest 42 "new" bot.NilInlineKeyboardPtr].
Proof.
  apply (proj1 (X24_edit_zero_id_sends_new_message (H := testing.runtime) testing.no_json
                  testing.api_ok 42 "new" tgbotapi.NoMarkup None [] eq_refl)).
Defined.

(** The message returned by an edit without markup that the API accepts
    (X25). *)
Lemma X25_witness :
  ∃ meta,
    botport.Meta
      (telegramadapter.toBotMessage testing.no_json
         {| bot.MessageID := 7; bot.Chat := Some 42; bot.Text := "t"; bot.Caption := "" |}
         bot.NilInlineKeyboardPtr) = Some meta
    ∧ meta !! "markup_type" = Some "*tgbotapi.InlineKeyboardMarkup".
Proof.
  apply (X25_edit_result_meta (H := testing.runtime) testing.no_json
           (telegramadapter.Client testing.api_ok) [] 42 7 "t" tgbotapi.NoMarkup _
           [bot.EditRequest 42 7 "t" None]).
  reflexivity.
Defined.

(** The retry hint of "Too Many Requests: retry after 35" (X26). *)
Lemma X26_witness :
  telegramadapter.extractRetryAfter "Too Many Requests: retry after 35" = 35000000000.
Proof.
  apply (X26_extractRetryAfter_reads_itoa "Too Many Requests: " 35 "").
  - repeat constructor.
  - lia.
  - reflexivity.
Defined.

(** The section [a] selected in the section menu (X27). *)
Lemma X27_witness :
  fsm.handleCallbackQuery (H := testing.runtime) testing.registry fsm.forwardTpl_Execute
    testing.no_menu (testing.callback "section:a" 7) testing.port_ok testing.schema_ab
    testing.w_selecting
  = Ok tt
      (set_calls
         [botport.AnswerCallback "cb1" "";
          botport.EditMessage 42 7 "P1" (tgbotapi.InlineKeyboardPtr [fsm.cancelRow])]
         (set_user
            (set_LastPrompt
               {| botport.ChatID := 42; botport.MessageID := 7;
                  botport.Transport := "telegram"; botport.Payload := "P1";
                  botport.Meta := None |}
               (set_LastMessageID 7
                  (set_RecordFSM StateAnsweringQuestion
                     (set_CurrentQuestion 0
                        (set_CurrentSection "a" (user testing.w_selecting))))))
            testing.w_selecting)).
Proof.
  apply (X27_select_section_asks_first_question (H := testing.runtime) testing.registry
           fsm.forwardTpl_Execute testing.no_menu (testing.callback "section:a" 7)
           testing.port_ok testing.schema_ab testing.w_selecting "a" testing.section_a
           (testing.question "q1" "P1" "text" "k1")).
  - reflexivity.
  - reflexivity.
  - reflexivity.
  - reflexivity.
  - reflexivity.
  - discriminate.
  - reflexivity.
Defined.

(** The last record of a user with one saved record, shared (X28). *)
Lemma X28_witness :
  ∃ text w',
    fsm.handleShareLastRecord (H := testing.runtime) fsm.forwardTpl_Execute
      testing.port_ok testing.schema_ab 42 testing.w_saved = Ok tt w'
    ∧ user w' = user testing.w_saved
    ∧ calls w' = [botport.SendMessage 42 text tgbotapi.NoMarkup].
Proof.
  destruct (X28_share_last_record (H := testing.runtime) fsm.forwardTpl_Execute
              testing.port_ok testing.schema_ab 42 testing.w_saved)
    as (text & w' & Hrun & Hu & _ & Hc & _).
  - repeat constructor. by eexists.
  - exists text, w'. split; [exact Hrun|]. split; [exact Hu|exact Hc].
Defined.
